(** * excel-ai: the chat bot (agent_bot/main.py) and the form service
      (app/main.py), embedded shallowly.

    Both services load a spreadsheet into a pandas DataFrame and run one of
    five analyses on it.  The development has these layers:

    - [Py]: the fragment of Python's [str] the command parser uses, on
      strings of Latin-1 characters, and [Text], a [str] in full, which
      column labels, forecast targets, the file names of the form service
      and the header values built from them need;
    - [Pandas]: the DataFrame operations the handlers call, as documented by
      pandas; a float64 cell is a binary64 float, and the numeric kernels of
      pandas (mean, median), the readers and the plotting are parameters;
    - [Runtime]: a store of DataFrame objects, the module-level slot
      [_dataframe] and an exception monad, so that copies, in-place column
      assignment and aliasing are explicit;
    - [AgentBot] and [App]: the two source files, function by function. *)

From Stdlib Require Import ZArith NArith QArith Strings.Ascii Strings.Byte Strings.String List Bool Lia.
From Stdlib Require Import Sorting.Permutation Sorting.Sorted Floats.
From stdpp Require Import base option list sorting.

Import ListNotations.
Local Open Scope string_scope.
Local Open Scope list_scope.

(** ** Python strings *)

Module Py.

(** The chat messages, the task names and the names of the files sent to
    the chat bot are [str] values that the services lower-case, trim and
    split, and that reach no header.  They are modelled within Latin-1: a
    [string] whose characters are the code points below 256; all functions
    below follow CPython on that range. *)

Definition code (c : ascii) : N := N_of_ascii c.

(** [str.isspace] on one code point: TAB..CR, FS..US, SPACE, NEL, NBSP. *)
Definition isspace (c : ascii) : bool :=
  let n := code c in
  ((9 <=? n) && (n <=? 13) || (28 <=? n) && (n <=? 32) || (n =? 133) || (n =? 160))%N.

(** [str.lower] on one code point: A..Z and the Latin-1 capitals (all of
    U+00C0..U+00DE except the multiplication sign) move up by 32. *)
Definition lower_char (c : ascii) : ascii :=
  let n := code c in
  if ((65 <=? n) && (n <=? 90) || (192 <=? n) && (n <=? 222) && negb (n =? 215))%N
  then ascii_of_N (n + 32) else c.

Fixpoint lower (s : string) : string :=
  match s with
  | EmptyString => EmptyString
  | String c s' => String (lower_char c) (lower s')
  end.

Fixpoint lstrip (s : string) : string :=
  match s with
  | EmptyString => EmptyString
  | String c s' => if isspace c then lstrip s' else s
  end.

Fixpoint rstrip (s : string) : string :=
  match s with
  | EmptyString => EmptyString
  | String c s' =>
      match rstrip s' with
      | EmptyString => if isspace c then EmptyString else String c EmptyString
      | r => String c r
      end
  end.

(** [s.strip()] *)
Definition strip (s : string) : string := rstrip (lstrip s).

(** [s.startswith(p)] *)
Definition startswith (s p : string) : bool := String.prefix p s.

(** [s.endswith(p)] *)
Definition endswith (s p : string) : bool :=
  let n := String.length s in
  let m := String.length p in
  (m <=? n)%nat && String.eqb (String.substring (n - m) m s) p.

(** [s.endswith((p1, p2, ...))] *)
Definition endswith_any (s : string) (ps : list string) : bool :=
  existsb (endswith s) ps.

(** [s[n:]] *)
Definition slice_from (n : nat) (s : string) : string :=
  String.substring n (String.length s - n) s.

(** [s.split()]: maximal runs of non-space characters, in order. *)
Fixpoint split_go (cur : string) (s : string) : list string :=
  match s with
  | EmptyString => match cur with EmptyString => [] | _ => [cur] end
  | String c s' =>
      if isspace c
      then match cur with
           | EmptyString => split_go EmptyString s'
           | _ => cur :: split_go EmptyString s'
           end
      else split_go (cur ++ String c EmptyString) s'
  end.

Definition split (s : string) : list string := split_go EmptyString s.

(** [c in s] for a one-character [c] *)
Fixpoint char_in (c : ascii) (s : string) : bool :=
  match s with
  | EmptyString => false
  | String d s' => Ascii.eqb c d || char_in c s'
  end.

(** [sub in s] *)
Fixpoint contains (s sub : string) : bool :=
  String.prefix sub s ||
  match s with
  | EmptyString => false
  | String _ s' => contains s' sub
  end.

(** [not s]: the empty string is falsy *)
Definition falsy (s : string) : bool := String.eqb s "".

End Py.


(** ** Python strings beyond Latin-1 *)

(** A [str] in full, by its code points.  Column labels, forecast targets,
    the names of the files sent to the form service and the texts built from
    them are of this type: Starlette encodes header values as Latin-1, which
    fails on a code point above 255. *)
Record text := of_codes { codes : list N }.

Module Text.

(** A Latin-1 string as a [str]. *)
Definition of_string (s : string) : text :=
  of_codes (map N_of_ascii (list_ascii_of_string s)).

(** The characters of a [str] as bytes, one byte per code point (the low
    eight bits; the Latin-1 encoding when every code point is below 256). *)
Definition to_string (t : text) : string :=
  string_of_list_ascii (map ascii_of_N (codes t)).

(** [a + b] *)
Definition append (a b : text) : text := of_codes (codes a ++ codes b).

(** [a == b] *)
Fixpoint eqb_codes (a b : list N) : bool :=
  match a, b with
  | [], [] => true
  | x :: a', y :: b' => N.eqb x y && eqb_codes a' b'
  | _, _ => false
  end.
Definition eqb (a b : text) : bool := eqb_codes (codes a) (codes b).

(** [a <= b]: lexicographic on code points *)
Fixpoint leb_codes (a b : list N) : bool :=
  match a, b with
  | [], _ => true
  | _ :: _, [] => false
  | x :: a', y :: b' =>
      if N.ltb x y then true else if N.eqb x y then leb_codes a' b' else false
  end.
Definition leb (a b : text) : bool := leb_codes (codes a) (codes b).

(** [str.lower] on one code point.  A..Z and the Latin-1 capitals (all of
    U+00C0..U+00DE except the multiplication sign) move up by 32.  Code
    points above U+00FF are left as they are: CPython lowers the capitals
    among them too, but none to a character of [.xlsx], [.xls] or [.csv],
    and a test for these suffixes is all the form service does with the
    lowered name. *)
Definition lower_code (n : N) : N :=
  if ((65 <=? n) && (n <=? 90) || (192 <=? n) && (n <=? 222) && negb (n =? 215))%N
  then (n + 32)%N else n.

(** [t.lower()] *)
Definition lower (t : text) : text := of_codes (map lower_code (codes t)).

(** [t.endswith(p)] *)
Definition endswith (t p : text) : bool :=
  let n := length (codes t) in
  let m := length (codes p) in
  (m <=? n)%nat && eqb_codes (skipn (n - m) (codes t)) (codes p).

(** [t.endswith((p1, p2, ...))] *)
Definition endswith_any (t : text) (ps : list text) : bool :=
  existsb (endswith t) ps.

(** What precedes the last dot (code point 46), when there is one. *)
Fixpoint before_last_dot (l : list N) : option (list N) :=
  match l with
  | [] => None
  | c :: l' =>
      match before_last_dot l' with
      | Some r => Some (c :: r)
      | None => if N.eqb c 46 then Some [] else None
      end
  end.

(** [t.rsplit(".", 1)[0]]: what precedes the last dot, or all of [t]. *)
Definition rsplit_dot_head (t : text) : text :=
  match before_last_dot (codes t) with
  | Some r => of_codes r
  | None => t
  end.

(** Every code point is below 256. *)
Definition latin1 (t : text) : bool := forallb (fun n => n <? 256)%N (codes t).

(** [t.encode("latin-1")]; [None] stands for UnicodeEncodeError. *)
Definition encode_latin1 (t : text) : option string :=
  if latin1 t then Some (to_string t) else None.

End Text.

Coercion Text.of_string : string >-> text.

Declare Scope text_scope.
Delimit Scope text_scope with text.
Bind Scope text_scope with text.
Notation "a ++ b" := (Text.append a b) : text_scope.

(** ** Exceptions *)

Inductive exn :=
| HTTPException (status_code : N) (detail : text)
| ValueError (msg : string)
| TypeError (msg : string)
| KeyError (key : text)
| UnicodeEncodeError (object : text)   (* the text that has no Latin-1 encoding *)
| ReaderError (msg : string)      (* whatever a pandas reader raises on bad bytes *)
| PlotError (msg : string)        (* whatever drawing a histogram raises *)
| OutOfModel (what : string).     (* a library path this development does not model *)

(** The result of evaluating a Python expression: a value or a raised
    exception. *)
Inductive outcome (A : Type) :=
| Return (a : A)
| Raise (e : exn).
Arguments Return {A} a.
Arguments Raise {A} e.

(** [str(exc)]: the message for the built-in exceptions.  An HTTPException
    built from keyword arguments, as both services build it, passes nothing
    to [Exception.__init__], and the Starlette release the form service runs
    with defines no [__str__]: it prints as the empty string. *)
Definition str_of_exn (e : exn) : text :=
  match e with
  | HTTPException _ _ => ""
  | ValueError m | TypeError m | ReaderError m | PlotError m | OutOfModel m => m
  | KeyError k => "'" ++ k ++ "'"
  | UnicodeEncodeError _ => "'latin-1' codec can't encode characters"
  end.

(** ** The pandas operations used by the handlers *)

Module Pandas.

(** A Python float, and a cell of a float64 column: a binary64 value, with
    its infinities and nan. *)
Definition float := PrimFloat.float.

(** [math.isnan] *)
Definition isnan (x : float) : bool := PrimFloat.is_nan x.

Inductive scalar :=
| PyInt (z : Z)
| PyFloat (x : float)
| PyBool (b : bool)
| PyStr (s : text)
| Timestamp (t : option Z).        (* instants; [None] is NaT *)

(** A column with its dtype.  int64 and bool columns cannot hold a missing
    value; a float64 column holds nan, a datetime64 column NaT, and an object
    column holds nan (or NaT) objects for its missing cells. *)
Inductive Series :=
| Int64 (l : list Z)
| Float64 (l : list float)
| Bool (l : list bool)
| Object (l : list scalar)
| Datetime64 (l : list (option Z)).

(** Columns in order.  The readers make header names unique, which the
    theorems below state as [NoDup (columns df)] where they need it. *)
Definition DataFrame := list (text * Series).

Definition tolist (s : Series) : list scalar :=
  match s with
  | Int64 l => map PyInt l
  | Float64 l => map PyFloat l
  | Bool l => map PyBool l
  | Object l => l
  | Datetime64 l => map Timestamp l
  end.

Definition len (s : Series) : nat := length (tolist s).

(** [pd.isna] on one cell *)
Definition isna (v : scalar) : bool :=
  match v with
  | PyFloat x => isnan x
  | Timestamp None => true
  | _ => false
  end.

Definition notna (v : scalar) : bool := negb (isna v).

Definition is_Some_b {A} (x : option A) : bool :=
  match x with Some _ => true | None => false end.

(** [s.dtype.kind] *)
Definition dtype_kind (s : Series) : ascii :=
  match s with
  | Int64 _ => "i" | Float64 _ => "f" | Bool _ => "b"
  | Object _ => "O" | Datetime64 _ => "M"
  end%char.

(** [pd.api.types.is_numeric_dtype]: numbers and booleans *)
Definition is_numeric_dtype (s : Series) : bool :=
  match s with
  | Int64 _ | Float64 _ | Bool _ => true
  | Object _ | Datetime64 _ => false
  end.

(** membership in [select_dtypes(include="number")]: numbers, not booleans *)
Definition is_number_dtype (s : Series) : bool :=
  match s with
  | Int64 _ | Float64 _ => true
  | Bool _ | Object _ | Datetime64 _ => false
  end.

(** [df.columns] *)
Definition columns (df : DataFrame) : list text := map fst df.

(** [df.shape] *)
Definition nrows (df : DataFrame) : nat :=
  match df with
  | [] => 0
  | (_, s) :: _ => len s
  end.
Definition ncols (df : DataFrame) : nat := length df.

(** [df[col]] for a column label: the column, or KeyError. *)
Fixpoint getitem (df : DataFrame) (col : text) : outcome Series :=
  match df with
  | [] => Raise (KeyError col)
  | (c, s) :: df' => if Text.eqb c col then Return s else getitem df' col
  end.

(** [df[col] = s]: replaces the column in place, or appends a new one. *)
Fixpoint setitem (df : DataFrame) (col : text) (s : Series) : DataFrame :=
  match df with
  | [] => [(col, s)]
  | (c, s0) :: df' =>
      if Text.eqb c col then (c, s) :: df' else (c, s0) :: setitem df' col s
  end.

(** [df.select_dtypes(include="number").columns] *)
Definition select_dtypes_number (df : DataFrame) : list text :=
  columns (List.filter (fun cs => is_number_dtype (snd cs)) df).

(** [df.isnull().sum().sum()] *)
Definition count_missing (s : Series) : nat := length (List.filter isna (tolist s)).
Definition isnull_sum_sum (df : DataFrame) : nat :=
  list_sum (map (fun cs => count_missing (snd cs)) df).

(** [s.dropna()] *)
Definition dropna (s : Series) : Series :=
  match s with
  | Int64 l => Int64 l
  | Float64 l => Float64 (List.filter (fun x => negb (isnan x)) l)
  | Bool l => Bool l
  | Object l => Object (List.filter notna l)
  | Datetime64 l => Datetime64 (List.filter is_Some_b l)
  end.

(** *** The value of a cell *)

(** The number a float stands for. *)
Inductive number :=
| NegInf
| Finite (q : Q)
| PosInf.

(** The exact value of a float; [None] for nan. *)
Definition exact (x : float) : option number :=
  match Prim2SF x with
  | S754_nan => None
  | S754_zero _ => Some (Finite 0)
  | S754_infinity s => Some (if s then NegInf else PosInf)
  | S754_finite s m e =>
      Some (Finite ((if s then -1 else 1) * inject_Z (Zpos m) * Qpower 2 e))
  end.

Definition number_eqb (a b : number) : bool :=
  match a, b with
  | NegInf, NegInf | PosInf, PosInf => true
  | Finite p, Finite q => Qeq_bool p q
  | _, _ => false
  end.

Definition number_leb (a b : number) : bool :=
  match a, b with
  | NegInf, _ | _, PosInf => true
  | Finite p, Finite q => Qle_bool p q
  | _, _ => false
  end.

(** The number a cell stands for in a comparison; [True] is 1. *)
Definition to_number (v : scalar) : option number :=
  match v with
  | PyInt z => Some (Finite (inject_Z z))
  | PyFloat x => exact x
  | PyBool b => Some (Finite (if b then 1 else 0))
  | PyStr _ | Timestamp _ => None
  end.

Definition is_number (v : scalar) : bool :=
  match v with
  | PyInt _ | PyFloat _ | PyBool _ => true
  | PyStr _ | Timestamp _ => false
  end.

(** [float(z)] for an int: the nearest float, ties to even. *)
Definition float_of_Z (z : Z) : float := SF2Prim (binary_normalize prec emax z 0 false).

(** *** What is taken as given *)

(** A nested dict, as [DataFrame.to_dict()] returns it. *)
Definition dict2 := list (text * list (text * scalar)).

(** What the services use of pandas (and, through [Series.plot], of
    matplotlib) without this development looking inside:

    - a reader maps the uploaded bytes to a DataFrame or raises;
    - [describe_all] stands for [df.describe(include="all").fillna("").to_dict()]
      and [corr_numeric] for [df.corr(numeric_only=True).fillna("").to_dict()];
    - [nanmean] and [nanmedian] are the float64 results of [Series.mean()]
      and [Series.median()] on a column of numeric dtype, given by its cells
      in row order: which float they return depends on the order in which
      pandas sums and on rounding;
    - [mode_order] is the order in which [Series.mode()] returns most
      frequent values that are not mutually comparable;
    - [to_datetime] is how a datetime64 column reads a string that is put
      into it: [None] when it is not a date, [Some None] for NaT;
    - [hist] draws the histogram of a column: [None] when it is drawn,
      the message of the exception otherwise (an infinite value has no place
      on the axis);
    - [infer_string] tells whether text columns get the dtype [str]
      (pandas 3) instead of [object].

    Two facts about pandas are relied on: the mean of a column without any
    value is nan, and [mode()] returns each most frequent value once. *)
Record Library := {
  read_excel : list Byte.byte -> outcome DataFrame;
  read_csv : list Byte.byte -> outcome DataFrame;
  describe_all : DataFrame -> dict2;
  corr_numeric : DataFrame -> dict2;
  nanmean : list scalar -> float;
  nanmedian : list scalar -> float;
  mode_order : list scalar -> list scalar;
  to_datetime : text -> option (option Z);
  hist : Series -> option string;
  infer_string : bool;
  nanmean_all_missing :
    forall cells, Forall (fun v => isna v = true) cells -> isnan (nanmean cells) = true;
  mode_order_Permutation : forall vs, Permutation (mode_order vs) vs
}.

Section WithLibrary.
Context (pd : Library).

Definition is_str (v : scalar) : bool :=
  match v with PyStr _ => true | _ => false end.
Definition is_time (v : scalar) : bool :=
  match v with Timestamp _ => true | _ => false end.

(** [str(s.dtype)]: an object column that holds strings, and nothing else
    but missing cells, has the dtype [str] where pandas infers it. *)
Definition dtype_str (s : Series) : string :=
  match s with
  | Int64 _ => "int64" | Float64 _ => "float64" | Bool _ => "bool"
  | Object l =>
      if infer_string pd && existsb is_str l && forallb (fun v => is_str v || isna v) l
      then "str" else "object"
  | Datetime64 _ => "datetime64[ns]"
  end.

(** *** Reductions *)

(** [s.median()] and [s.mean()] on a column of numeric dtype.  pandas also
    reduces object and datetime64 columns; no handler asks for that, and it
    is left out. *)
Definition median (s : Series) : outcome float :=
  match s with
  | Int64 _ | Float64 _ | Bool _ => Return (nanmedian pd (tolist s))
  | Object _ | Datetime64 _ => Raise (OutOfModel "median of a column that is not numeric")
  end.

Definition mean (s : Series) : outcome float :=
  match s with
  | Int64 _ | Float64 _ | Bool _ => Return (nanmean pd (tolist s))
  | Object _ | Datetime64 _ => Raise (OutOfModel "mean of a column that is not numeric")
  end.

(** [float(x)] for a numpy float64 *)
Definition py_float (x : float) : float := x.

(** *** Mode *)

(** Python's [==] on cells, which the hash table behind [mode] uses: numbers
    compare by value whatever their Python type; nan and NaT equal nothing. *)
Definition py_eq (a b : scalar) : bool :=
  match a, b with
  | PyStr s, PyStr t => Text.eqb s t
  | Timestamp (Some s), Timestamp (Some t) => Z.eqb s t
  | _, _ =>
      match to_number a, to_number b with
      | Some x, Some y => number_eqb x y
      | _, _ => false
      end
  end.

(** Python's [<=] where it is defined. *)
Definition py_le (a b : scalar) : bool :=
  match a, b with
  | PyStr s, PyStr t => Text.leb s t
  | Timestamp (Some s), Timestamp (Some t) => Z.leb s t
  | _, _ =>
      match to_number a, to_number b with
      | Some x, Some y => number_leb x y
      | _, _ => false
      end
  end.

(** How often [v] occurs among [vs]. *)
Definition count (v : scalar) (vs : list scalar) : nat :=
  length (List.filter (py_eq v) vs).

(** The distinct values, each at its first occurrence. *)
Fixpoint distinct (vs : list scalar) : list scalar :=
  match vs with
  | [] => []
  | v :: vs' => v :: List.filter (fun w => negb (py_eq v w)) (distinct vs')
  end.

(** The values of maximal count, in order of first occurrence. *)
Definition modes_of (vs : list scalar) : list scalar :=
  let keys := distinct vs in
  let top := list_max (map (fun v => count v vs) keys) in
  List.filter (fun v => Nat.eqb (count v vs) top) keys.

(** The order of the modes: ascending when the values are mutually
    comparable, the library's order otherwise. *)
Definition np_sort (vs : list scalar) : list scalar :=
  if forallb is_number vs || forallb is_str vs || forallb is_time vs
  then merge_sort (fun a b => Is_true (py_le a b)) vs
  else mode_order pd vs.

(** [s.mode()]: the most frequent non-missing values ([dropna=True]). *)
Definition mode (s : Series) : list scalar :=
  np_sort (modes_of (List.filter notna (tolist s))).

(** *** Filling *)

(** An int that a float64 column holds without loss. *)
Definition lossless (z : Z) : bool :=
  match exact (float_of_Z z) with
  | Some n => number_eqb n (Finite (inject_Z z))
  | None => false
  end.

(** What a datetime64 column makes of a fill value: an instant or NaT, or
    [None] when the value is not a time.  The empty string is read as NaT,
    and so is nan. *)
Definition as_datetime (value : scalar) : option (option Z) :=
  match value with
  | Timestamp t => Some t
  | PyStr s => if Text.eqb s "" then Some None else to_datetime pd s
  | PyFloat x => if isnan x then Some None else None
  | PyInt _ | PyBool _ => None
  end.

(** What a float64 column makes of a fill value: a float, or [None] when
    the column cannot hold the value. *)
Definition as_float (value : scalar) : option float :=
  match value with
  | PyFloat x => Some x
  | PyInt z => if lossless z then Some (float_of_Z z) else None
  | PyBool _ | PyStr _ | Timestamp _ => None
  end.

(** [s.fillna(value)]: a column without missing cells is returned as it is;
    a float64 column takes a number and a datetime64 column a time without
    changing dtype; any other combination gives an object column. *)
Definition fillna (s : Series) (value : scalar) : Series :=
  if negb (existsb isna (tolist s)) then s
  else
    let as_object := Object (map (fun v => if isna v then value else v) (tolist s)) in
    match s with
    | Float64 l =>
        match as_float value with
        | Some x => Float64 (map (fun c => if isnan c then x else c) l)
        | None => as_object
        end
    | Datetime64 l =>
        match as_datetime value with
        | Some t => Datetime64 (map (fun c => match c with None => t | Some _ => c end) l)
        | None => as_object
        end
    | _ => as_object
    end.

End WithLibrary.

(** [pd.DataFrame({name: [x]})] for a float [x] *)
Definition DataFrame_of_float (name : text) (x : float) : DataFrame :=
  [(name, Float64 [x])].

End Pandas.

(** ** Objects, the global slot and the exception monad *)

Module Runtime.
Import Pandas.

(** A reference to a DataFrame object. *)
Definition ref := nat.

(** The program state: the DataFrame objects alive, and the module-level
    variable [_dataframe] of the chat bot. *)
Record state := {
  heap : list DataFrame;
  _dataframe : option ref
}.

Definition M (A : Type) : Type := state -> outcome A * state.

Definition ret {A} (a : A) : M A := fun st => (Return a, st).

Definition raise {A} (e : exn) : M A := fun st => (Raise e, st).

Definition bind {A B} (m : M A) (k : A -> M B) : M B :=
  fun st =>
    match m st with
    | (Return a, st') => k a st'
    | (Raise e, st') => (Raise e, st')
    end.

Notation "x <- m ;; k" := (bind m (fun x => k))
  (at level 100, m at next level, right associativity).
Notation "m ;; k" := (bind m (fun _ => k))
  (at level 100, right associativity).

(** An expression that may raise, evaluated in the current state. *)
Definition lift {A} (o : outcome A) : M A := fun st => (o, st).

(** [try: m  except Exception as exc: handler(exc)] *)
Definition try_except {A} (m : M A) (handler : exn -> M A) : M A :=
  fun st =>
    match m st with
    | (Return a, st') => (Return a, st')
    | (Raise e, st') => handler e st'
    end.

(** [for x in xs: body(x)] *)
Fixpoint for_each {A} (xs : list A) (body : A -> M unit) : M unit :=
  match xs with
  | [] => ret tt
  | x :: xs' => body x ;; for_each xs' body
  end.

(** [[f(x) for x in xs]] *)
Fixpoint for_collect {A B} (xs : list A) (f : A -> M B) : M (list B) :=
  match xs with
  | [] => ret []
  | x :: xs' => y <- f x ;; ys <- for_collect xs' f ;; ret (y :: ys)
  end.

(** A new object. *)
Definition alloc (df : DataFrame) : M ref :=
  fun st => (Return (length (heap st)),
             {| heap := heap st ++ [df]; _dataframe := _dataframe st |}).

(** The object behind a reference. *)
Definition deref (r : ref) : M DataFrame :=
  fun st =>
    match heap st !! r with
    | Some df => (Return df, st)
    | None => (Raise (OutOfModel "reference to no object"), st)
    end.

(** In-place update of the object behind a reference. *)
Definition update (r : ref) (df : DataFrame) : M unit :=
  fun st => (Return tt, {| heap := <[r := df]> (heap st); _dataframe := _dataframe st |}).

Definition get_dataframe : M (option ref) :=
  fun st => (Return (_dataframe st), st).

Definition set_dataframe (r : ref) : M unit :=
  fun st => (Return tt, {| heap := heap st; _dataframe := Some r |}).

(** [df.copy()]: a new object with the same columns. *)
Definition df_copy (df : ref) : M ref := d <- deref df ;; alloc d.

(** [df.columns] *)
Definition df_columns (df : ref) : M (list text) := d <- deref df ;; ret (columns d).

(** [df[col]] *)
Definition df_getitem (df : ref) (col : text) : M Series :=
  d <- deref df ;; lift (getitem d col).

(** [df[col] = s] *)
Definition df_setitem (df : ref) (col : text) (s : Series) : M unit :=
  d <- deref df ;; update df (setitem d col s).

(** *** Responses *)

(** A rendered histogram, by what was drawn. *)
Record Histogram := {
  title : text;
  xlabel : text;
  ylabel : text;
  plotted : Series
}.

(** [s.plot(kind="hist", ax=ax)]: the library draws the column or raises. *)
Definition plot_hist (pd : Library) (s : Series) : M unit :=
  match hist pd s with
  | None => ret tt
  | Some msg => raise (PlotError msg)
  end.

(** The bytes of a response, by what they encode: the workbook
    [to_excel(index=False)] writes for a DataFrame, or a ZIP archive by its
    entries in the order written. *)
Inductive Body :=
| Xlsx (df : DataFrame)
| Zip (entries : list (text * Histogram)).

(** A streaming response as Starlette keeps it: the value of each header is
    held encoded. *)
Record StreamingResponse := {
  body : Body;
  media_type : string;
  headers : list (string * string)
}.

(** The headers as Starlette stores them: every value is encoded as
    Latin-1, and the first one that cannot be raises UnicodeEncodeError. *)
Fixpoint encode_headers (hs : list (string * text)) : outcome (list (string * string)) :=
  match hs with
  | [] => Return []
  | (name, value) :: hs' =>
      match Text.encode_latin1 value with
      | None => Raise (UnicodeEncodeError value)
      | Some bytes =>
          match encode_headers hs' with
          | Return r => Return ((name, bytes) :: r)
          | Raise e => Raise e
          end
      end
  end.

(** [StreamingResponse(content, media_type=..., headers=...)] *)
Definition new_StreamingResponse (content : Body) (media_type : string)
    (headers : list (string * text)) : M StreamingResponse :=
  raw_headers <- lift (encode_headers headers) ;;
  ret {| body := content; media_type := media_type; headers := raw_headers |}.

(** [df.to_excel(buf, index=False)] *)
Definition to_excel (df : ref) : M Body := d <- deref df ;; ret (Xlsx d).

Record Summary := {
  shape_rows : nat;
  shape_columns : nat;
  summary_columns : list text;
  missing_values : nat;
  dtypes : list (text * string)
}.

(** What a route hands to FastAPI: a dict, or a streaming response. *)
Inductive Reply :=
| Message (message : string)
| SummaryReply (summary : Summary)
| DescribeReply (describe correlation : dict2)
| Stream (r : StreamingResponse).

(** The status FastAPI answers with: 200 for a returned value, the status of
    an HTTPException, 500 for any other exception. *)
Definition http_status {A} (o : outcome A) : N :=
  match o with
  | Return _ => 200
  | Raise (HTTPException st _) => st
  | Raise _ => 500
  end.

Definition xlsx_media_type : string :=
  "application/vnd.openxmlformats-officedocument.spreadsheetml.sheet".

End Runtime.

(** ** agent_bot/main.py *)

Module AgentBot.
Import Pandas Runtime.
Local Open Scope string_scope.

Record UploadFile := {
  filename : string;
  file_read : list Byte.byte
}.

Section Handlers.
Context (pd : Library).

Definition load_dataframe (file : UploadFile) : M ref :=
  let content := file_read file in
  let filename := Py.lower (filename file) in
  try_except
    (if Py.endswith_any filename [".xlsx"; ".xls"] then
       d <- lift (read_excel pd content) ;; alloc d
     else if Py.endswith filename ".csv" then
       d <- lift (read_csv pd content) ;; alloc d
     else
       raise (ValueError "Unsupported file format. Please upload .xls/.xlsx or .csv"))
    (fun exc => raise (HTTPException 400 ("Failed to read file: " ++ str_of_exn exc))).

Definition analyze_summary (df : ref) : M Summary :=
  d <- deref df ;;
  ret {| shape_rows := nrows d;
         shape_columns := ncols d;
         summary_columns := columns d;
         missing_values := isnull_sum_sum d;
         dtypes := map (fun cs => (fst cs, dtype_str pd (snd cs))) d |}.

Definition analyze_clean (df : ref) : M StreamingResponse :=
  cleaned <- df_copy df ;;
  cols <- df_columns cleaned ;;
  for_each cols (fun col =>
    s <- df_getitem cleaned col ;;
    if Py.char_in (dtype_kind s) "biufc" then
      s1 <- df_getitem cleaned col ;;
      s2 <- df_getitem cleaned col ;;
      m <- lift (median pd s2) ;;
      df_setitem cleaned col (fillna pd s1 (PyFloat m))
    else
      s1 <- df_getitem cleaned col ;;
      let mode_series := mode pd s1 in
      s2 <- df_getitem cleaned col ;;
      df_setitem cleaned col
        (fillna pd s2 (match mode_series with m :: _ => m | [] => PyStr "" end))) ;;
  buf <- to_excel cleaned ;;
  new_StreamingResponse buf xlsx_media_type
    [("Content-Disposition", "attachment; filename=cleaned_data.xlsx" : text)].

Definition analyze_describe (df : ref) : M Reply :=
  d <- deref df ;;
  let describe := describe_all pd d in
  d' <- deref df ;;
  let corr := corr_numeric pd d' in
  ret (DescribeReply describe corr).

Definition analyze_visualize (df : ref) : M StreamingResponse :=
  d <- deref df ;;
  let numeric_cols := select_dtypes_number d in
  if Nat.eqb (length numeric_cols) 0 then
    raise (HTTPException 400 "No numeric columns to visualize.")
  else
    let numeric_cols := firstn 3 numeric_cols in
    zf <- for_collect numeric_cols (fun col =>
            s <- df_getitem df col ;;
            plot_hist pd (dropna s) ;;
            let img := {| title := col; xlabel := col; ylabel := "Frequency";
                          plotted := dropna s |} in
            ret ((col ++ ".png")%text, img)) ;;
    new_StreamingResponse (Zip zf) "application/zip"
      [("Content-Disposition", "attachment; filename=charts.zip" : text)].

Definition analyze_forecast (df : ref) (target : text) : M StreamingResponse :=
  cols <- df_columns df ;;
  if negb (existsb (Text.eqb target) cols) then
    raise (HTTPException 400 ("Column '" ++ target ++ "' not found in dataset."))
  else
    s <- df_getitem df target ;;
    if negb (is_numeric_dtype s) then
      raise (HTTPException 400 ("Column '" ++ target ++ "' must be numeric for forecasting."))
    else
      s' <- df_getitem df target ;;
      m <- lift (mean pd s') ;;
      let mean_value := py_float m in
      forecast_df <- alloc (DataFrame_of_float target mean_value) ;;
      buf <- to_excel forecast_df ;;
      new_StreamingResponse buf xlsx_media_type
        [("Content-Disposition",
          ("attachment; filename=forecast_" ++ target ++ ".xlsx")%text)].

(** The loop of [process_command] that looks for [target=...] among
    [parts[1:]]; [None] is Python's [None]. *)
Fixpoint find_target (parts : list string) : option string :=
  match parts with
  | [] => None
  | part :: parts' =>
      if Py.startswith part "target=" then Some (Py.slice_from (String.length "target=") part)
      else find_target parts'
  end.

(** [not target] for [target] a string or [None] *)
Definition not_target (target : option string) : bool :=
  match target with
  | None => true
  | Some t => Py.falsy t
  end.

Definition no_data_message : string :=
  "No data uploaded yet. Please upload a dataset first.".
Definition target_prompt : string :=
  "Please specify the target column, e.g. 'forecast target=Sales'".
Definition help_message : string :=
  "Unrecognized command. Available commands: summary, clean, describe, visualize, forecast target=<column>".

Definition process_command (command : string) : M Reply :=
  g <- get_dataframe ;;
  match g with
  | None => ret (Message no_data_message)
  | Some df =>
      let cmd := Py.lower (Py.strip command) in
      if Py.startswith cmd "summary" then
        s <- analyze_summary df ;; ret (SummaryReply s)
      else if Py.startswith cmd "clean" then
        r <- analyze_clean df ;; ret (Stream r)
      else if Py.startswith cmd "describe" then
        analyze_describe df
      else if Py.startswith cmd "visualize" then
        r <- analyze_visualize df ;; ret (Stream r)
      else if Py.startswith cmd "forecast" then
        let parts := Py.split cmd in
        let target := find_target (tl parts) in
        if not_target target then ret (Message target_prompt)
        else r <- analyze_forecast df (default "" target) ;; ret (Stream r)
      else ret (Message help_message)
  end.

(** The routes [/upload] and [/chat]. *)
Definition upload_file (file : UploadFile) : M Reply :=
  df <- load_dataframe file ;;
  set_dataframe df ;;
  ret (Message ("Uploaded '" ++ filename file ++ "' successfully! Now you can send commands.")).

Definition chat (message : string) : M Reply := process_command message.

End Handlers.
End AgentBot.

(** ** app/main.py *)

Module App.
Import Pandas Runtime.
Local Open Scope string_scope.

Record UploadFile := {
  filename : text;
  file_read : list Byte.byte
}.

(** The request, by the one header the route reads. *)
Record Request := {
  header_X_App_Key : option string
}.

(** [os.environ], by the two variables the route reads. *)
Record Environ := {
  REQUIRE_APP_KEY : option string;
  APP_KEY : option string
}.

(** The double-quote character, as a string. *)
Definition dquote : string := String (ascii_of_N 34) EmptyString.

Section Route.
Context (pd : Library) (environ : Environ).

Definition _get_app_key : string := default "" (APP_KEY environ).

(** The route [analyze_excel] is one function in the source; its blocks are
    named here in source order and composed in [analyze_excel] below. *)

(** Optional API key enforcement. *)
Definition check_app_key (request : Request) : M unit :=
  let require_key := REQUIRE_APP_KEY environ in
  if match require_key with Some v => String.eqb v "1" | None => false end then
    let header_key := header_X_App_Key request in
    match header_key with
    | None => raise (HTTPException 401 "Unauthorized")
    | Some k =>
        if Py.falsy k || negb (String.eqb k _get_app_key)
        then raise (HTTPException 401 "Unauthorized") else ret tt
    end
  else ret tt.

(** Read the uploaded file into a pandas DataFrame. *)
Definition read_upload (file : UploadFile) : M ref :=
  let file_bytes := file_read file in
  let filename := Text.lower (filename file) in
  try_except
    (if Text.endswith_any filename [".xlsx" : text; ".xls" : text] then
       d <- lift (read_excel pd file_bytes) ;; alloc d
     else if Text.endswith filename ".csv" then
       d <- lift (read_csv pd file_bytes) ;; alloc d
     else
       raise (HTTPException 400
                "Unsupported file type. Please upload an Excel or CSV file."))
    (fun exc => raise (HTTPException 400 ("Failed to read file: " ++ str_of_exn exc))).

Definition task_summary (df : ref) : M Reply :=
  d <- deref df ;;
  let summary :=
    {| shape_rows := nrows d;
       shape_columns := ncols d;
       summary_columns := columns d;
       missing_values := isnull_sum_sum d;
       dtypes := map (fun cs => (fst cs, dtype_str pd (snd cs))) d |} in
  ret (SummaryReply summary).

Definition task_clean (file : UploadFile) (df : ref) : M Reply :=
  cleaned_df <- df_copy df ;;
  cols <- df_columns cleaned_df ;;
  for_each cols (fun col =>
    s <- df_getitem cleaned_df col ;;
    if Py.char_in (dtype_kind s) "biufc" then
      s1 <- df_getitem cleaned_df col ;;
      median <- lift (median pd s1) ;;
      s2 <- df_getitem cleaned_df col ;;
      df_setitem cleaned_df col (fillna pd s2 (PyFloat median))
    else
      s1 <- df_getitem cleaned_df col ;;
      let mode_series := mode pd s1 in
      let mode_value := match mode_series with m :: _ => m | [] => PyStr "" end in
      s2 <- df_getitem cleaned_df col ;;
      df_setitem cleaned_df col (fillna pd s2 mode_value)) ;;
  output <- to_excel cleaned_df ;;
  let headers := [("x-summary", ("Cleaned " ++ filename file)%text)] in
  r <- new_StreamingResponse output xlsx_media_type headers ;;
  ret (Stream r).

Definition task_describe (df : ref) : M Reply :=
  d <- deref df ;;
  let describe_dict := describe_all pd d in
  d' <- deref df ;;
  let corr := corr_numeric pd d' in
  ret (DescribeReply describe_dict corr).

Definition task_visualize (file : UploadFile) (df : ref) : M Reply :=
  d <- deref df ;;
  let numeric_cols := select_dtypes_number d in
  if Nat.eqb (length numeric_cols) 0 then
    raise (HTTPException 400 "No numeric columns available for visualization.")
  else
    let numeric_cols := firstn 3 numeric_cols in
    zip_file <- for_collect numeric_cols (fun col =>
        s <- df_getitem df col ;;
        plot_hist pd (dropna s) ;;
        let img := {| title := col; xlabel := col; ylabel := "Frequency";
                      plotted := dropna s |} in
        ret ((col ++ ".png")%text, img)) ;;
    let headers :=
      [("Content-Disposition",
        ("attachment; filename=" ++ dquote ++
           Text.rsplit_dot_head (filename file) ++ "_charts.zip" ++ dquote)%text)] in
    r <- new_StreamingResponse (Zip zip_file) "application/zip" headers ;;
    ret (Stream r).

Definition task_forecast (df : ref) (target : option text) : M Reply :=
  match target with
  | None =>
      raise (HTTPException 400
        "Please specify a target column for forecasting via the 'target' form field.")
  | Some target =>
      cols <- df_columns df ;;
      if negb (existsb (Text.eqb target) cols) then
        raise (HTTPException 400
                 ("Target column '" ++ target ++ "' not found in the dataset."))
      else
        s <- df_getitem df target ;;
        if negb (is_numeric_dtype s) then
          raise (HTTPException 400
                   ("Target column '" ++ target ++ "' must be numeric for forecasting."))
        else
          s' <- df_getitem df target ;;
          m <- lift (mean pd s') ;;
          let mean_value := py_float m in
          forecast_df <- alloc (DataFrame_of_float target mean_value) ;;
          out <- to_excel forecast_df ;;
          let headers :=
            [("x-summary", ("Forecasted mean for column '" ++ target ++ "'")%text)] in
          r <- new_StreamingResponse out xlsx_media_type headers ;;
          ret (Stream r)
  end.

Definition analyze_excel (request : Request) (task : string)
    (file : option UploadFile) (target : option text) : M Reply :=
  match file with
  | None => raise (HTTPException 400 "No file provided")
  | Some file =>
      check_app_key request ;;
      df <- read_upload file ;;
      let task := Py.strip (Py.lower task) in
      if String.eqb task "summary" then task_summary df
      else if String.eqb task "clean" then task_clean file df
      else if String.eqb task "describe" then task_describe df
      else if String.eqb task "visualize" then task_visualize file df
      else if String.eqb task "forecast" then task_forecast df target
      else
        raise (HTTPException 400
                 ("Unknown task '" ++ task ++
                  "'. Supported tasks are summary, clean, describe, visualize, forecast."))
  end.

End Route.
End App.

(** ** Specification vocabulary *)

Module Spec.
Import Pandas Runtime.

(** Partial-correctness triples for the monad: from a state satisfying [P],
    a returned value and its state satisfy [Q], and the state left by a
    raised exception satisfies [E]. *)
Definition hoare {A} (P : state -> Prop) (m : M A)
    (Q : A -> state -> Prop) (E : state -> Prop) : Prop :=
  forall st, P st ->
    match m st with
    | (Return a, st') => Q a st'
    | (Raise _, st') => E st'
    end.

(** The object [df] holds the table [d] and the slot holds [g]. *)
Definition holds (df : ref) (d : DataFrame) (g : option ref) (st : state) : Prop :=
  _dataframe st = g /\ heap st !! df = Some d.

(** [m] keeps the slot and the object [r] as they are, whether it returns
    or raises. *)
Definition preserves {A} (r : ref) (d : DataFrame) (g : option ref) (m : M A) : Prop :=
  hoare (holds r d g) m (fun _ => holds r d g) (holds r d g).

(** *** A library for the closed examples *)

(** The float of a cell of a numeric column. *)
Definition cell_float (v : scalar) : float :=
  match v with
  | PyInt z => float_of_Z z
  | PyFloat x => x
  | PyBool b => if b then 1%float else 0%float
  | PyStr _ | Timestamp _ => PrimFloat.nan
  end.

(** The non-missing cells of a numeric column as floats, in row order. *)
Definition float_values (cells : list scalar) : list float :=
  List.filter (fun x => negb (isnan x)) (map cell_float cells).

(** The mean by summation in row order.  This is what numpy and bottleneck
    compute for fewer than eight cells; on longer columns numpy adds in
    blocks, which can differ in the last bit, and the closed examples stay
    below that. *)
Definition row_order_mean (cells : list scalar) : float :=
  let vs := float_values cells in
  PrimFloat.div (fold_left PrimFloat.add vs 0%float) (float_of_Z (Z.of_nat (length vs))).

(** The median: the middle one of the sorted values, or the float mean of
    the two middle ones; nan when there is no value. *)
Definition middle_median (cells : list scalar) : float :=
  let sorted := merge_sort (fun a b => Is_true (PrimFloat.leb a b)) (float_values cells) in
  let n := length sorted in
  if Nat.odd n then nth (n / 2) sorted PrimFloat.nan
  else if Nat.eqb n 0 then PrimFloat.nan
  else PrimFloat.div
         (PrimFloat.add (nth (n / 2 - 1) sorted PrimFloat.nan)
                        (nth (n / 2) sorted PrimFloat.nan))
         2%float.

(** numpy has no axis for a column that holds an infinite value. *)
Definition infinite (v : scalar) : bool :=
  match to_number v with
  | Some NegInf | Some PosInf => true
  | _ => false
  end.
Definition draw (s : Series) : option string :=
  if existsb infinite (tolist s) then Some "autodetected range is not finite" else None.

Definition row_order_mean_all_missing cells :
  Forall (fun v => isna v = true) cells -> isnan (row_order_mean cells) = true.
Proof.
  intros Hall. unfold row_order_mean.
  assert (E : float_values cells = []).
  { unfold float_values. induction Hall as [|v l Hv _ IH]; [reflexivity|].
    cbn [map List.filter]. rewrite IH.
    destruct v as [z|x|b|t|[t|]]; try discriminate Hv.
    - cbn [cell_float]. cbn [isna] in Hv. now rewrite Hv.
    - reflexivity. }
  rewrite E. reflexivity.
Qed.

(** A library with the given readers and the kernels above. *)
Definition library_of (excel csv : list Byte.byte -> outcome DataFrame) : Library :=
  {| read_excel := excel;
     read_csv := csv;
     describe_all := fun _ => [];
     corr_numeric := fun _ => [];
     nanmean := row_order_mean;
     nanmedian := middle_median;
     mode_order := fun vs => vs;
     to_datetime := fun _ => None;
     hist := draw;
     infer_string := false;
     nanmean_all_missing := row_order_mean_all_missing;
     mode_order_Permutation := fun vs => Permutation_refl vs |}.

(** A library whose readers reject everything. *)
Definition no_library : Library :=
  library_of (fun _ => Raise (ReaderError "not a workbook"))
             (fun _ => Raise (ReaderError "not a CSV file")).

(** *** Tables for the closed examples *)

(** A table without missing cells. *)
Definition full_sample : DataFrame :=
  [("Units" : text, Int64 [3; 1; 2]%Z);
   ("Price" : text, Float64 [2.5; 4; 1]%float);
   ("Name" : text, Object [PyStr "b"; PyStr "a"; PyStr "b"])].

(** A table with five int or float columns around a text column. *)
Definition wide_sample : DataFrame :=
  [("A" : text, Int64 [1; 2]%Z);
   ("B" : text, Float64 [1%float; PrimFloat.nan]);
   ("T" : text, Object [PyStr "x"; PyStr "y"]);
   ("C" : text, Float64 [PrimFloat.nan; PrimFloat.nan]);
   ("D" : text, Int64 [7; 8]%Z);
   ("E" : text, Float64 [3; 4]%float)].

(** A float column with a gap, a text column with a gap, and a float
    column with no value at all. *)
Definition sample : DataFrame :=
  [("Sales" : text, Float64 [10%float; 20%float; 30%float; PrimFloat.nan]);
   ("Name" : text, Object [PyStr "a"; PyFloat PrimFloat.nan; PyStr "b"; PyStr "a"]);
   ("Empty" : text,
    Float64 [PrimFloat.nan; PrimFloat.nan; PrimFloat.nan; PrimFloat.nan])].

(** Four boolean columns: numeric for Clean and Forecast. *)
Definition flags_sample : DataFrame :=
  [("Paid" : text, Bool [true; false]);
   ("Sent" : text, Bool [true; true]);
   ("Open" : text, Bool [false; false]);
   ("Late" : text, Bool [false; true])].

(** The label U+58F2 U+4E0A, sales in Japanese, and a table that has a
    float column under it. *)
Definition uriage : text := of_codes [22770; 19978]%N.
Definition uriage_sample : DataFrame :=
  [(uriage, Float64 [10%float; 30%float])].

(** Two int64 cells at the top of the int64 range. *)
Definition top_sample : DataFrame :=
  [("N" : text, Int64 [9223372036854775807; 9223372036854775807]%Z)].

(** An upload to the form service whose name lies within Latin-1. *)
Definition upload_named (name : string) (content : list Byte.byte) : App.UploadFile :=
  {| App.filename := name; App.file_read := content |}.

Definition sample_file : App.UploadFile := upload_named "sales.csv" [].

(** An upload named U+58F2 U+4E0A [.csv]. *)
Definition uriage_file : App.UploadFile :=
  {| App.filename := (uriage ++ ".csv")%text; App.file_read := [] |}.

(** A state with one loaded table. *)
Definition loaded (d : DataFrame) : state :=
  {| heap := [d]; _dataframe := Some 0%nat |}.

(** *** Visualize *)

(** The labels of the int and float columns of a table, in column order. *)
Fixpoint int_or_float_labels (d : DataFrame) : list text :=
  match d with
  | [] => []
  | (c, Int64 _) :: d' | (c, Float64 _) :: d' => c :: int_or_float_labels d'
  | _ :: d' => int_or_float_labels d'
  end.

(** The library draws the histogram of the column [col] of [d]. *)
Definition drawn (pd : Library) (d : DataFrame) (col : text) : Prop :=
  forall s, getitem d col = Return s -> hist pd (dropna s) = None.

(** The archive entry Visualize writes for the column [col] of [d]: named
    after the column, showing its non-missing cells. *)
Definition histogram_of (d : DataFrame) (col : text) (e : text * Histogram) : Prop :=
  fst e = (col ++ ".png")%text /\
  exists s, getitem d col = Return s /\
            snd e = {| title := col; xlabel := col; ylabel := "Frequency";
                       plotted := dropna s |}.

(** The entries Visualize writes for the columns [cols] of [d], in order,
    or the first exception on the way. *)
Fixpoint histograms (pd : Library) (d : DataFrame) (cols : list text)
    : outcome (list (text * Histogram)) :=
  match cols with
  | [] => Return []
  | col :: cols' =>
      match getitem d col with
      | Raise e => Raise e
      | Return s =>
          match hist pd (dropna s) with
          | Some msg => Raise (PlotError msg)
          | None =>
              match histograms pd d cols' with
              | Raise e => Raise e
              | Return entries =>
                  Return (((col ++ ".png")%text,
                           {| title := col; xlabel := col; ylabel := "Frequency";
                              plotted := dropna s |}) :: entries)
              end
          end
      end
  end.

(** *** Loading *)

(** What loading makes of a reader's outcome: a new object for the decoded
    table, or a 400 error that quotes the reader's exception. *)
Definition decoded (o : outcome DataFrame) (st : state) : outcome ref * state :=
  match o with
  | Return d =>
      (Return (length (heap st)),
       {| heap := heap st ++ [d]; _dataframe := _dataframe st |})
  | Raise e =>
      (Raise (HTTPException 400 ("Failed to read file: " ++ str_of_exn e)), st)
  end.

(** *** The chat parser *)

(** The leading run of non-space characters of a string. *)
Fixpoint takeword (s : string) : string :=
  match s with
  | EmptyString => EmptyString
  | String c s' => if Py.isspace c then EmptyString else String c (takeword s')
  end.

Fixpoint no_space (s : string) : bool :=
  match s with
  | EmptyString => true
  | String c s' => negb (Py.isspace c) && no_space s'
  end.

(** The keyword of a chat message: the first whitespace-delimited token of
    the trimmed, lower-cased text (empty when there is none). *)
Definition keyword_of (command : string) : string :=
  hd EmptyString (Py.split (Py.lower (Py.strip command))).

(** A string is empty or starts with a non-space character. *)
Definition trimmed_left (s : string) : Prop :=
  match s with
  | EmptyString => True
  | String c _ => Py.isspace c = false
  end.

(** Every character of the string is its own lower case. *)
Fixpoint all_lower (s : string) : Prop :=
  match s with
  | EmptyString => True
  | String c s' => Py.lower_char c = c /\ all_lower s'
  end.

(** The keywords of the chat dispatcher, in the order it tests them. *)
Definition keywords : list string :=
  ["summary"; "clean"; "describe"; "visualize"; "forecast"].

(** *** Clean *)

(** What filling with [v] does to one cell. *)
Definition fill_cell (v x : scalar) : scalar := if isna x then v else x.

(** The non-missing cells of a column, in order. *)
Definition non_missing (s : Series) : list scalar := List.filter notna (tolist s).

Definition has_missing (s : Series) : bool := existsb isna (tolist s).

(** [v] is a most frequent value of [vs]. *)
Definition most_frequent (vs : list scalar) (v : scalar) : Prop :=
  In v vs /\ forall w, In w vs -> (count w vs <= count v vs)%nat.

(** Clean's notion of a numeric column. *)
Definition clean_numeric (s : Series) : bool := Py.char_in (dtype_kind s) "biufc".

(** The column Clean produces from one column. *)
Definition clean_column (pd : Library) (s : Series) : Series :=
  if clean_numeric s
  then fillna pd s (PyFloat (nanmedian pd (tolist s)))
  else fillna pd s (match mode pd s with m :: _ => m | [] => PyStr "" end).

Definition clean_table (pd : Library) (d : DataFrame) : DataFrame :=
  map (fun cs => (fst cs, clean_column pd (snd cs))) d.

(** A loop body cleans one column of the object [c] in place. *)
Definition cleans_one (pd : Library) (body : text -> M unit) (c : ref) : Prop :=
  forall st pre col s post,
    heap st !! c = Some (pre ++ (col, s) :: post) ->
    ~ In col (columns pre) ->
    body col st =
      (Return tt,
       {| heap := <[c := pre ++ (col, clean_column pd s) :: post]> (heap st);
          _dataframe := _dataframe st |}).

(** What Clean does to one column [s], giving [s'].  A numeric column has
    its missing cells replaced by the median pandas computes for it, and
    none is left when that median is not nan.  Any other column that has a
    value has them replaced by a most frequent non-missing value; one that has
    no value, and is not a datetime column, by the empty string. *)
Definition column_cleaned (pd : Library) (s s' : Series) : Prop :=
  if clean_numeric s then
    let m := nanmedian pd (tolist s) in
    tolist s' = map (fill_cell (PyFloat m)) (tolist s) /\
    (isnan m = false -> has_missing s' = false)
  else
    match non_missing s with
    | _ :: _ =>
        exists v, most_frequent (non_missing s) v /\
                  tolist s' = map (fill_cell v) (tolist s)
    | [] =>
        dtype_kind s <> "M"%char ->
        tolist s' = map (fill_cell (PyStr "")) (tolist s)
    end.

(** The claim that Clean leaves no missing cell in any numeric column, for
    the table [d] loaded in the chat bot. *)
Definition clean_leaves_no_missing_numeric (pd : Library) (d : DataFrame) : Prop :=
  forall r st' cleaned,
    AgentBot.analyze_clean pd 0%nat (loaded d) = (Return r, st') ->
    body r = Xlsx cleaned ->
    forall col s, In (col, s) cleaned -> clean_numeric s = true -> has_missing s = false.

(** The claim that Clean fills a column without any value with the empty
    string, for the table [d] loaded in the chat bot. *)
Definition clean_fills_empty_columns (pd : Library) (d : DataFrame) : Prop :=
  forall r st' cleaned,
    AgentBot.analyze_clean pd 0%nat (loaded d) = (Return r, st') ->
    body r = Xlsx cleaned ->
    Forall2 (fun cs cs' =>
               clean_numeric (snd cs) = false -> non_missing (snd cs) = [] ->
               tolist (snd cs') = map (fill_cell (PyStr "")) (tolist (snd cs)))
            d cleaned.

(** *** Forecast *)

(** The target of a forecast is refused: no such column, or not numeric. *)
Definition bad_target (d : DataFrame) (target : text) : Prop :=
  ~ In target (columns d) \/
  exists s, getitem d target = Return s /\ is_numeric_dtype s = false.

(** The request is answered with status 400 and a message. *)
Definition client_error {A} (o : outcome A) : Prop :=
  exists detail, o = Raise (HTTPException 400 detail) /\ codes detail <> [].

Definition succeeds {A} (o : outcome A) : Prop := exists a, o = Return a.

(** The workbook Forecast answers with. *)
Definition forecast_table (pd : Library) (target : text) (s : Series) : DataFrame :=
  [(target, Float64 [nanmean pd (tolist s)])].

(** The arithmetic mean of a list of integers. *)
Definition arithmetic_mean (zs : list Z) : Q :=
  inject_Z (fold_right Z.add 0%Z zs) / inject_Z (Z.of_nat (length zs)).

End Spec.

(** ** Further vocabulary, for the properties beyond the claims *)

Module Cover.
Import Pandas Runtime Spec.

(** Any exception but an HTTPException of status 401. *)
Definition not_401 (e : exn) : Prop :=
  match e with
  | HTTPException st _ => st <> 401%N
  | _ => True
  end.

(** The text holds no dot. *)
Definition no_dot (t : text) : bool :=
  forallb (fun c => negb (N.eqb c 46)) (codes t).

(** The readers give tables with unique column labels. *)
Definition unique_labels (pd : Library) : Prop :=
  forall bytes d,
    read_excel pd bytes = Return d \/ read_csv pd bytes = Return d ->
    NoDup (columns d).

(** A library whose CSV reader decodes every upload to [d]. *)
Definition csv_library (d : DataFrame) : Library :=
  library_of (fun _ => Raise (ReaderError "not a workbook")) (fun _ => Return d).

(** A library whose readers decode every upload, to [dx] as a workbook and
    to [dc] as delimited text. *)
Definition two_reader_library (dx dc : DataFrame) : Library :=
  library_of (fun _ => Return dx) (fun _ => Return dc).

Definition sample_upload : AgentBot.UploadFile :=
  {| AgentBot.filename := "Sales.CSV"; AgentBot.file_read := [] |}.

Definition bad_upload : AgentBot.UploadFile :=
  {| AgentBot.filename := "notes.txt"; AgentBot.file_read := [] |}.

Definition workbook_upload : AgentBot.UploadFile :=
  {| AgentBot.filename := "Book.XLSX"; AgentBot.file_read := [] |}.

Definition form_workbook : App.UploadFile :=
  {| App.filename := "old.xls"; App.file_read := [] |}.

Definition form_notes : App.UploadFile :=
  {| App.filename := "notes.txt"; App.file_read := [] |}.

(** A table of text, boolean and date columns only. *)
Definition plain_sample : DataFrame :=
  [("Name" : text, Object [PyStr "a"; PyStr "b"]);
   ("Paid" : text, Bool [true; false]);
   ("When" : text, Datetime64 [Some 5%Z; None])].

(** A date column without any value, and a float column that holds both
    infinities and a gap. *)
Definition gaps_sample : DataFrame :=
  [("When" : text, Datetime64 [None; None]);
   ("Limit" : text, Float64 [PrimFloat.infinity; PrimFloat.neg_infinity; PrimFloat.nan])].

(** The state before any upload. *)
Definition initial : state := {| heap := []; _dataframe := None |}.

(** What is cleaned and what is left of a column: the result has a missing
    cell exactly when the column had one and either is numeric for Clean
    with a median that is nan, or is a datetime column without any value. *)
Definition still_missing_iff (pd : Library) (s s' : Series) : Prop :=
  has_missing s' = true <->
  has_missing s = true /\
  ((clean_numeric s = true /\ isnan (nanmedian pd (tolist s)) = true) \/
   (dtype_kind s = "M"%char /\ non_missing s = [])).

(** Clean keeps the length of a column, and its dtype unless the column is
    a non-numeric one without any value. *)
Definition same_shape (pd : Library) (s s' : Series) : Prop :=
  len s' = len s /\
  (clean_numeric s = true \/ non_missing s <> [] -> dtype_str pd s' = dtype_str pd s).

(** The state after a sequence of uploads, failed or not. *)
Fixpoint uploads (pd : Library) (files : list AgentBot.UploadFile) (st : state) : state :=
  match files with
  | [] => st
  | file :: files' => uploads pd files' (snd (AgentBot.upload_file pd file st))
  end.

(** The outcome of the reader that [load_dataframe] picks for a file; a
    name with another extension counts as a reader that raises. *)
Definition reader_outcome (pd : Library) (file : AgentBot.UploadFile) : outcome DataFrame :=
  let name := Py.lower (AgentBot.filename file) in
  if Py.endswith_any name [".xlsx"; ".xls"] then read_excel pd (AgentBot.file_read file)
  else if Py.endswith name ".csv" then read_csv pd (AgentBot.file_read file)
  else Raise (ValueError "Unsupported file format. Please upload .xls/.xlsx or .csv").

(** What the chat dispatcher does with a forecast message. *)
Definition forecast_dispatch (pd : Library) (command : string) (df : ref) : M Reply :=
  match AgentBot.find_target (tl (Py.split (Py.lower (Py.strip command)))) with
  | Some t =>
      if Py.falsy t then ret (Message AgentBot.target_prompt)
      else r <- AgentBot.analyze_forecast pd df t ;; ret (Stream r)
  | None => ret (Message AgentBot.target_prompt)
  end.

(** The request passes the key check of the form service: enforcement is
    off (the variable is not exactly the string 1), or the header is present,
    not empty and equal to the configured key. *)
Definition key_accepted (environ : App.Environ) (request : App.Request) : Prop :=
  App.REQUIRE_APP_KEY environ <> Some "1"%string \/
  exists k, App.header_X_App_Key request = Some k /\ k <> EmptyString /\
            k = App._get_app_key environ.

(** The outcome of the reader the form service picks for a file; a name
    with another extension counts as a reader that raises. *)
Definition upload_outcome (pd : Library) (file : App.UploadFile) : outcome DataFrame :=
  let name := Text.lower (App.filename file) in
  if Text.endswith_any name [".xlsx" : text; ".xls" : text]
  then read_excel pd (App.file_read file)
  else if Text.endswith name ".csv" then read_csv pd (App.file_read file)
  else Raise (HTTPException 400
                "Unsupported file type. Please upload an Excel or CSV file.").

Definition open_environ : App.Environ :=
  {| App.REQUIRE_APP_KEY := None; App.APP_KEY := None |}.

(** Enforcement switched on without a configured key. *)
Definition keyless_environ : App.Environ :=
  {| App.REQUIRE_APP_KEY := Some "1"%string; App.APP_KEY := None |}.

Definition secret_environ : App.Environ :=
  {| App.REQUIRE_APP_KEY := Some "1"%string; App.APP_KEY := Some "s3cret"%string |}.

Definition bare_request : App.Request := {| App.header_X_App_Key := None |}.

Definition keyed_request : App.Request :=
  {| App.header_X_App_Key := Some "s3cret"%string |}.

End Cover.

(** * Properties *)

(** ** Facts about texts *)

Module TextFacts.

Lemma eqb_codes_eq a : forall b, Text.eqb_codes a b = true <-> a = b.
Proof.
  induction a as [|x a IH]; intros [|y b]; simpl; try (split; [discriminate | congruence]).
  - tauto.
  - rewrite andb_true_iff, N.eqb_eq, IH. split; [intros [-> ->]; reflexivity|].
    intros [= -> ->]. auto.
Qed.

Lemma eqb_eq a b : Text.eqb a b = true <-> a = b.
Proof.
  unfold Text.eqb. rewrite eqb_codes_eq. destruct a as [a], b as [b]. simpl.
  split; congruence.
Qed.

Lemma eqb_refl a : Text.eqb a a = true.
Proof. now apply eqb_eq. Qed.

Lemma eqb_neq a b : Text.eqb a b = false <-> a <> b.
Proof.
  destruct (Text.eqb a b) eqn:E.
  - apply eqb_eq in E. split; [discriminate | congruence].
  - split; [|reflexivity]. intros _ H. apply eqb_eq in H. congruence.
Qed.

Lemma to_string_of_string s : Text.to_string (Text.of_string s) = s.
Proof.
  unfold Text.to_string, Text.of_string. simpl. rewrite map_map.
  erewrite map_ext; [|intros c; apply ascii_N_embedding].
  rewrite map_id. apply string_of_list_ascii_of_string.
Qed.

Lemma latin1_of_string s : Text.latin1 (Text.of_string s) = true.
Proof.
  unfold Text.latin1, Text.of_string. simpl.
  induction s as [|c s IH]; [reflexivity|]. simpl. rewrite IH, andb_true_r.
  apply N.ltb_lt. destruct c as [[] [] [] [] [] [] [] []]; reflexivity.
Qed.

(** A Latin-1 string is encoded as it is. *)
Lemma encode_of_string s : Text.encode_latin1 (Text.of_string s) = Some s.
Proof.
  unfold Text.encode_latin1. now rewrite latin1_of_string, to_string_of_string.
Qed.

Lemma to_string_append a b :
  Text.to_string (a ++ b)%text = (Text.to_string a ++ Text.to_string b)%string.
Proof.
  unfold Text.to_string, Text.append. simpl. rewrite map_app.
  induction (map ascii_of_N (codes a)) as [|c l IH]; simpl; congruence.
Qed.

Lemma latin1_append a b :
  Text.latin1 (a ++ b)%text = Text.latin1 a && Text.latin1 b.
Proof. unfold Text.latin1, Text.append. simpl. apply forallb_app. Qed.

(** A text around a label is encoded exactly when the label is. *)
Lemma encode_around (pre post : string) t :
  Text.encode_latin1 (pre ++ t ++ post)%text =
    if Text.latin1 t
    then Some (pre ++ Text.to_string t ++ post)%string
    else None.
Proof.
  unfold Text.encode_latin1.
  rewrite !latin1_append, !latin1_of_string, andb_true_r. cbn [andb].
  destruct (Text.latin1 t); [|reflexivity].
  now rewrite !to_string_append, !to_string_of_string.
Qed.

(** A text after a fixed prefix is encoded exactly when the text is. *)
Lemma encode_after (pre : string) t :
  Text.encode_latin1 (pre ++ t)%text =
    if Text.latin1 t then Some (pre ++ Text.to_string t)%string else None.
Proof.
  unfold Text.encode_latin1.
  rewrite latin1_append, latin1_of_string. cbn [andb].
  destruct (Text.latin1 t); [|reflexivity].
  now rewrite to_string_append, to_string_of_string.
Qed.

Lemma encode_quoted (a b c d : string) t :
  Text.encode_latin1 (a ++ b ++ t ++ c ++ d)%text =
    if Text.latin1 t
    then Some (a ++ b ++ Text.to_string t ++ c ++ d)%string
    else None.
Proof.
  unfold Text.encode_latin1.
  rewrite !latin1_append, !latin1_of_string, andb_true_r. cbn [andb].
  destruct (Text.latin1 t); [|reflexivity].
  now rewrite !to_string_append, !to_string_of_string.
Qed.

(** What precedes the last dot of a Latin-1 name is within Latin-1. *)
Lemma latin1_rsplit_dot_head t :
  Text.latin1 t = true -> Text.latin1 (Text.rsplit_dot_head t) = true.
Proof.
  unfold Text.latin1, Text.rsplit_dot_head. destruct t as [l]. simpl.
  destruct (Text.before_last_dot l) as [r|] eqn:E; [|auto]. simpl.
  revert r E. induction l as [|c l IH]; intros r E H; [discriminate|].
  simpl in E, H. apply andb_true_iff in H. destruct H as [Hc Hl].
  destruct (Text.before_last_dot l) as [r'|].
  - injection E as <-. simpl. rewrite Hc. now apply IH.
  - destruct (N.eqb c 46); [injection E as <-; reflexivity | discriminate].
Qed.

Lemma existsb_eqb_In target cols :
  existsb (Text.eqb target) cols = true <-> In target cols.
Proof.
  rewrite existsb_exists. split.
  - intros (c & Hin & E). apply eqb_eq in E. now subst.
  - intros H. exists target. split; [exact H | apply eqb_refl].
Qed.

End TextFacts.

(** ** Facts about the pandas model *)

Module PandasFacts.
Import Pandas Spec.

(** A float that is not nan has an exact value. *)
Lemma exact_notnan x : isnan x = false -> exists n, exact x = Some n.
Proof.
  unfold isnan, exact, Prim2SF. intros ->.
  destruct (is_zero x); [eauto|].
  destruct (is_infinity x); [eauto|].
  destruct (Z.frexp x) as [r e].
  destruct (shr_fexp _ _ _ _ _) as [shr e'].
  destruct (shr_m shr); eauto.
Qed.

Lemma exact_nan x : isnan x = true -> exact x = None.
Proof. unfold isnan, exact, Prim2SF. now intros ->. Qed.

(** There is one nan. *)
Lemma isnan_unique x y : isnan x = true -> isnan y = true -> x = y.
Proof.
  intros Hx Hy. rewrite <- (SF2Prim_Prim2SF x), <- (SF2Prim_Prim2SF y).
  unfold isnan in *. unfold Prim2SF. now rewrite Hx, Hy.
Qed.

Lemma isna_to_number v : is_number v = true -> isna v = false -> exists n, to_number v = Some n.
Proof.
  destruct v as [z|x|b|t|t]; simpl; try discriminate; eauto.
  intros _. apply exact_notnan.
Qed.

(** On a column Clean treats as numeric, [median] does not raise. *)
Lemma median_clean_numeric pd s :
  clean_numeric s = true -> median pd s = Return (nanmedian pd (tolist s)).
Proof. destruct s; simpl; intros H; try reflexivity; discriminate. Qed.

Lemma mean_numeric pd s :
  is_numeric_dtype s = true -> mean pd s = Return (nanmean pd (tolist s)).
Proof. destruct s; simpl; intros H; try reflexivity; discriminate. Qed.

Lemma fillna_no_missing pd s v : has_missing s = false -> fillna pd s v = s.
Proof. unfold has_missing, fillna. intros ->. reflexivity. Qed.

Lemma fill_cell_id v l :
  existsb isna l = false -> map (fill_cell v) l = l.
Proof.
  induction l as [|x l IH]; simpl; [reflexivity|]. intros H.
  apply orb_false_elim in H. destruct H as [Hx Hl].
  unfold fill_cell at 1. now rewrite Hx, IH.
Qed.

(** Filling the cells of a column as objects. *)
Lemma tolist_fill_object v l :
  map (fun x => if isna x then v else x) l = map (fill_cell v) l.
Proof. reflexivity. Qed.

(** Filling a float64 column with a float acts cell by cell. *)
Lemma tolist_fillna_float pd l x :
  tolist (fillna pd (Float64 l) (PyFloat x)) =
    map (fill_cell (PyFloat x)) (tolist (Float64 l)).
Proof.
  unfold fillna. destruct (existsb isna (tolist (Float64 l))) eqn:Hex; cbn [negb].
  - cbn [as_float tolist]. rewrite !map_map. apply map_ext. intros c.
    unfold fill_cell. cbn [isna]. now destruct (isnan c).
  - symmetry. now apply fill_cell_id.
Qed.

Lemma no_missing_Int64 l : existsb isna (map PyInt l) = false.
Proof. induction l; simpl; auto. Qed.

Lemma no_missing_Bool l : existsb isna (map PyBool l) = false.
Proof. induction l; simpl; auto. Qed.

(** Filling a column that is numeric for Clean with a float acts cell by
    cell. *)
Lemma tolist_fillna_numeric pd s x :
  clean_numeric s = true ->
  tolist (fillna pd s (PyFloat x)) = map (fill_cell (PyFloat x)) (tolist s).
Proof.
  intros Hk. destruct s as [l|l|l|l|l]; try (vm_compute in Hk; discriminate).
  - rewrite fillna_no_missing by apply no_missing_Int64.
    symmetry. apply fill_cell_id, no_missing_Int64.
  - apply tolist_fillna_float.
  - rewrite fillna_no_missing by apply no_missing_Bool.
    symmetry. apply fill_cell_id, no_missing_Bool.
Qed.

(** Filling an object column acts cell by cell, whatever the value. *)
Lemma tolist_fillna_object pd l v :
  tolist (fillna pd (Object l) v) = map (fill_cell v) l.
Proof.
  unfold fillna. destruct (existsb isna (tolist (Object l))) eqn:Hex; cbn [negb].
  - reflexivity.
  - symmetry. now apply fill_cell_id.
Qed.

(** Filling a datetime64 column with an instant acts cell by cell. *)
Lemma tolist_fillna_time pd l t :
  tolist (fillna pd (Datetime64 l) (Timestamp t)) =
    map (fill_cell (Timestamp t)) (tolist (Datetime64 l)).
Proof.
  unfold fillna. destruct (existsb isna (tolist (Datetime64 l))) eqn:Hex; cbn [negb].
  - cbn [as_datetime tolist]. rewrite !map_map. apply map_ext. now intros [c|].
  - symmetry. now apply fill_cell_id.
Qed.

(** A datetime64 column reads the empty string as NaT: filling with it
    changes nothing. *)
Lemma fillna_time_empty pd l : fillna pd (Datetime64 l) (PyStr "") = Datetime64 l.
Proof.
  unfold fillna. destruct (existsb isna (tolist (Datetime64 l))); cbn [negb]; [|reflexivity].
  cbn [as_datetime]. change (Text.eqb "" "") with true. cbv iota. f_equal.
  erewrite map_ext; [apply map_id|]. now intros [c|].
Qed.

Lemma fill_cell_notna v l :
  isna v = false -> existsb isna (map (fill_cell v) l) = false.
Proof.
  intros Hv. induction l as [|x l IH]; simpl; [reflexivity|].
  rewrite IH, orb_false_r. unfold fill_cell.
  destruct (isna x) eqn:Hx; [exact Hv | exact Hx].
Qed.

Lemma fill_cell_na v l :
  isna v = true -> existsb isna (map (fill_cell v) l) = existsb isna l.
Proof.
  intros Hv. induction l as [|x l IH]; simpl; [reflexivity|].
  rewrite IH. f_equal. unfold fill_cell. destruct (isna x) eqn:Hx; congruence.
Qed.

(** Filling a float64 column with nan gives the column back. *)
Lemma fillna_nan_numeric pd s x :
  clean_numeric s = true -> isnan x = true -> fillna pd s (PyFloat x) = s.
Proof.
  intros Hk Hx. unfold fillna.
  destruct (existsb isna (tolist s)) eqn:Hex; [|reflexivity]. cbn [negb].
  destruct s as [l|l|l|l|l]; try (vm_compute in Hk; discriminate).
  - simpl in Hex. now rewrite no_missing_Int64 in Hex.
  - cbn [as_float]. f_equal. erewrite map_ext_in; [apply map_id|].
    intros c _. destruct (isnan c) eqn:Hc; [|reflexivity].
    now apply isnan_unique.
  - simpl in Hex. now rewrite no_missing_Bool in Hex.
Qed.

End PandasFacts.

(** ** Facts about [mode] *)

Module ModeFacts.
Import Pandas Spec TextFacts PandasFacts.

Lemma number_eqb_refl n : number_eqb n n = true.
Proof. destruct n; simpl; auto using Qeq_bool_refl. Qed.

Lemma number_eqb_sym a b : number_eqb a b = number_eqb b a.
Proof. destruct a, b; simpl; auto using Qeq_bool_comm. Qed.

Lemma number_eqb_trans a b c :
  number_eqb a b = true -> number_eqb b c = true -> number_eqb a c = true.
Proof. destruct a, b, c; simpl; try discriminate; eauto using Qeq_bool_trans. Qed.

Lemma text_eqb_sym a b : Text.eqb a b = Text.eqb b a.
Proof.
  destruct (Text.eqb a b) eqn:E; symmetry.
  - apply eqb_eq in E. subst. apply eqb_refl.
  - apply eqb_neq. apply eqb_neq in E. congruence.
Qed.

(** Python's [==] on two cells, by what they are. *)
Ltac py_cases :=
  repeat match goal with
         | t : option Z |- _ => destruct t
         | v : scalar |- _ => destruct v
         end;
  cbn [py_eq to_number] in *;
  repeat match goal with
         | |- context [exact ?x] => destruct (exact x)
         | H : context [exact ?x] |- _ => destruct (exact x)
         end;
  try discriminate; try reflexivity.

Lemma py_eq_refl v : notna v = true -> py_eq v v = true.
Proof.
  unfold notna. intros H. destruct v as [z|x|b|t|[t|]]; cbn [py_eq to_number].
  - apply number_eqb_refl.
  - cbn [isna] in H. destruct (isnan x) eqn:Hx; [discriminate|].
    destruct (exact_notnan x Hx) as [n ->]. apply number_eqb_refl.
  - apply number_eqb_refl.
  - apply eqb_refl.
  - apply Z.eqb_refl.
  - discriminate.
Qed.

Lemma py_eq_sym a b : py_eq a b = py_eq b a.
Proof.
  py_cases; auto using number_eqb_sym, text_eqb_sym, Z.eqb_sym.
Qed.

Lemma py_eq_trans a b c :
  py_eq a b = true -> py_eq b c = true -> py_eq a c = true.
Proof.
  intros H1 H2. py_cases; eauto using number_eqb_trans;
    match goal with
    | H1 : Text.eqb _ _ = true, H2 : Text.eqb _ _ = true |- _ =>
        apply eqb_eq in H1, H2; subst; apply eqb_refl
    | H1 : Z.eqb _ _ = true, H2 : Z.eqb _ _ = true |- _ =>
        apply Z.eqb_eq in H1, H2; subst; apply Z.eqb_refl
    end.
Qed.

(** Equal values are counted alike. *)
Lemma count_py_eq a b vs : py_eq a b = true -> count a vs = count b vs.
Proof.
  intros H. unfold count. f_equal. apply List.filter_ext. intros x.
  destruct (py_eq a x) eqn:Ha, (py_eq b x) eqn:Hb; try reflexivity.
  - rewrite py_eq_sym in H. rewrite (py_eq_trans b a x H Ha) in Hb. discriminate.
  - rewrite (py_eq_trans a b x H Hb) in Ha. discriminate.
Qed.

Lemma distinct_incl vs v : In v (distinct vs) -> In v vs.
Proof.
  induction vs as [|u vs IH]; simpl; [tauto|].
  intros [->|Hin]; [now left|].
  right. apply IH. apply List.filter_In in Hin. tauto.
Qed.

(** Every non-missing value has a key equal to it. *)
Lemma distinct_covers vs w :
  In w vs -> notna w = true ->
  exists k, In k (distinct vs) /\ py_eq k w = true.
Proof.
  induction vs as [|u vs IH]; simpl; [tauto|].
  intros [->|Hin] Hw.
  - exists w. split; [now left | now apply py_eq_refl].
  - destruct (IH Hin Hw) as (k & Hk & Hkw).
    destruct (py_eq u k) eqn:Huk.
    + exists u. split; [now left | eauto using py_eq_trans].
    + exists k. split; [|exact Hkw]. right.
      apply List.filter_In. split; [exact Hk | now rewrite Huk].
Qed.

Lemma list_max_In l : l <> [] -> In (list_max l) l.
Proof.
  induction l as [|n l IH]; [congruence|]. intros _.
  change (list_max (n :: l)) with (Nat.max n (list_max l)).
  destruct l as [|m l].
  - left. simpl. lia.
  - destruct (Nat.max_spec n (list_max (m :: l))) as [[_ ->]|[_ ->]].
    + right. apply IH. congruence.
    + now left.
Qed.

Lemma modes_of_most_frequent vs v :
  Forall (fun w => notna w = true) vs ->
  In v (modes_of vs) -> most_frequent vs v.
Proof.
  intros Hna Hin. unfold modes_of in Hin.
  apply List.filter_In in Hin. destruct Hin as [Hkey Htop].
  apply Nat.eqb_eq in Htop. split; [now apply distinct_incl|].
  intros w Hw.
  destruct (distinct_covers vs w Hw) as (k & Hk & Hkw).
  { rewrite Forall_forall in Hna. now apply Hna, list_elem_of_In. }
  rewrite <- (count_py_eq k w vs Hkw), Htop.
  pose proof (list_max_le (map (fun v => count v vs) (distinct vs))
                (list_max (map (fun v => count v vs) (distinct vs)))) as [Hle _].
  specialize (Hle (Nat.le_refl _)).
  rewrite List.Forall_forall in Hle. apply Hle.
  apply in_map_iff. eauto.
Qed.

Lemma modes_of_nonempty vs : vs <> [] -> modes_of vs <> [].
Proof.
  intros Hne. unfold modes_of.
  set (keys := distinct vs).
  assert (Hk : map (fun v => count v vs) keys <> []).
  { subst keys. destruct vs; [congruence | simpl; congruence]. }
  apply list_max_In in Hk. apply in_map_iff in Hk. destruct Hk as (k & Hc & Hin).
  intros Hnil.
  assert (In k (List.filter (fun v => Nat.eqb (count v vs)
                 (list_max (map (fun v => count v vs) keys))) keys)).
  { apply List.filter_In. split; [exact Hin | now apply Nat.eqb_eq]. }
  rewrite Hnil in H. contradiction.
Qed.

(** The order of the modes is a reordering, whoever chooses it. *)
Lemma np_sort_perm pd vs : Permutation (np_sort pd vs) vs.
Proof.
  unfold np_sort.
  destruct (_ || _); [apply merge_sort_Permutation | apply mode_order_Permutation].
Qed.

Lemma non_missing_notna s : Forall (fun w => notna w = true) (non_missing s).
Proof.
  apply List.Forall_forall. intros w Hw. now apply List.filter_In in Hw.
Qed.

(** The first mode is a most frequent non-missing value. *)
Lemma mode_head_most_frequent pd s m rest :
  mode pd s = m :: rest -> most_frequent (non_missing s) m.
Proof.
  intros Hm. apply modes_of_most_frequent; [apply non_missing_notna|].
  assert (Hin : In m (mode pd s)) by (rewrite Hm; now left).
  unfold mode in Hin. eapply Permutation_in in Hin; [|apply np_sort_perm].
  exact Hin.
Qed.

(** There is no mode exactly when every cell is missing. *)
Lemma mode_nil pd s : mode pd s = [] <-> non_missing s = [].
Proof.
  unfold mode. fold (non_missing s). split; intros H.
  - destruct (non_missing s) eqn:E; [reflexivity|].
    exfalso. apply (modes_of_nonempty (s0 :: l)); [congruence|].
    apply Permutation_nil. rewrite <- H.
    exact (np_sort_perm pd (modes_of (s0 :: l))).
  - rewrite H. unfold np_sort. simpl. reflexivity.
Qed.

Lemma mode_head_notna pd s m rest : mode pd s = m :: rest -> isna m = false.
Proof.
  intros Hm. destruct (mode_head_most_frequent pd s m rest Hm) as [Hin _].
  apply List.filter_In in Hin. destruct Hin as [_ Hn].
  unfold notna in Hn. now destruct (isna m).
Qed.

Lemma mode_head_In pd s m rest : mode pd s = m :: rest -> In m (tolist s).
Proof.
  intros Hm. destruct (mode_head_most_frequent pd s m rest Hm) as [Hin _].
  apply List.filter_In in Hin. tauto.
Qed.

(** The value Clean fills a non-numeric column with is not missing. *)
Lemma clean_fill_notna pd s :
  isna (match mode pd s with m :: _ => m | [] => PyStr "" end) = false.
Proof.
  destruct (mode pd s) as [|m rest] eqn:Hm; [reflexivity|].
  eapply mode_head_notna; eauto.
Qed.

End ModeFacts.

(** ** Running the monad *)

Module RuntimeFacts.
Import Pandas Runtime Spec TextFacts.

Lemma bind_Return {A B} (m : M A) (k : A -> M B) st a st' :
  m st = (Return a, st') -> bind m k st = k a st'.
Proof. unfold bind. now intros ->. Qed.

Lemma bind_Raise {A B} (m : M A) (k : A -> M B) st e st' :
  m st = (Raise e, st') -> bind m k st = (Raise e, st').
Proof. unfold bind. now intros ->. Qed.

Lemma bind_run {A B} (m : M A) (k : A -> M B) st o st' :
  m st = (o, st') ->
  bind m k st = match o with
                | Return a => k a st'
                | Raise e => (Raise e, st')
                end.
Proof. unfold bind. now intros ->. Qed.

Lemma fst_bind_ret {A B} (m : M A) (f : A -> B) st :
  fst ((x <- m ;; ret (f x)) st) =
    match fst (m st) with
    | Return a => Return (f a)
    | Raise e => Raise e
    end.
Proof. unfold bind. destruct (m st) as [[a|e] st']; reflexivity. Qed.

Lemma run_deref st r d : heap st !! r = Some d -> deref r st = (Return d, st).
Proof. unfold deref. now intros ->. Qed.

Lemma run_df_columns st r d :
  heap st !! r = Some d -> df_columns r st = (Return (columns d), st).
Proof. intros H. unfold df_columns. now rewrite (bind_Return _ _ _ _ _ (run_deref _ _ _ H)). Qed.

Lemma run_df_getitem st r d col :
  heap st !! r = Some d -> df_getitem r col st = (getitem d col, st).
Proof. intros H. unfold df_getitem. now rewrite (bind_Return _ _ _ _ _ (run_deref _ _ _ H)). Qed.

Lemma run_df_setitem st r d col s :
  heap st !! r = Some d ->
  df_setitem r col s st =
    (Return tt, {| heap := <[r := setitem d col s]> (heap st);
                   _dataframe := _dataframe st |}).
Proof. intros H. unfold df_setitem. now rewrite (bind_Return _ _ _ _ _ (run_deref _ _ _ H)). Qed.

Lemma run_df_copy st r d :
  heap st !! r = Some d ->
  df_copy r st =
    (Return (length (heap st)),
     {| heap := heap st ++ [d]; _dataframe := _dataframe st |}).
Proof. intros H. unfold df_copy. now rewrite (bind_Return _ _ _ _ _ (run_deref _ _ _ H)). Qed.

Lemma run_to_excel st r d :
  heap st !! r = Some d -> to_excel r st = (Return (Xlsx d), st).
Proof. intros H. unfold to_excel. now rewrite (bind_Return _ _ _ _ _ (run_deref _ _ _ H)). Qed.

(** A response with one header is built exactly when the header's value
    has a Latin-1 encoding. *)
Lemma run_new_StreamingResponse content mt name value st :
  new_StreamingResponse content mt [(name, value)] st =
    match Text.encode_latin1 value with
    | Some bytes =>
        (Return {| body := content; media_type := mt; headers := [(name, bytes)] |}, st)
    | None => (Raise (UnicodeEncodeError value), st)
    end.
Proof.
  unfold new_StreamingResponse, bind, lift, encode_headers.
  destruct (Text.encode_latin1 value); reflexivity.
Qed.

(** A header value written as a Latin-1 string is always encoded. *)
Lemma run_new_StreamingResponse_string content mt name (value : string) st :
  new_StreamingResponse content mt [(name, value : text)] st =
    (Return {| body := content; media_type := mt; headers := [(name, value)] |}, st).
Proof. now rewrite run_new_StreamingResponse, encode_of_string. Qed.

(** Column access by label, when labels before the column differ. *)
Lemma getitem_middle pre col s post :
  ~ In col (columns pre) -> getitem (pre ++ (col, s) :: post) col = Return s.
Proof.
  induction pre as [|[c s0] pre IH]; simpl; intros Hnot.
  - now rewrite eqb_refl.
  - destruct (Text.eqb c col) eqn:E.
    + apply eqb_eq in E. tauto.
    + apply IH. tauto.
Qed.

Lemma setitem_middle pre col s s' post :
  ~ In col (columns pre) ->
  setitem (pre ++ (col, s) :: post) col s' = pre ++ (col, s') :: post.
Proof.
  induction pre as [|[c s0] pre IH]; simpl; intros Hnot.
  - now rewrite eqb_refl.
  - destruct (Text.eqb c col) eqn:E.
    + apply eqb_eq in E. tauto.
    + f_equal. apply IH. tauto.
Qed.

Lemma getitem_In d col : In col (columns d) -> exists s, getitem d col = Return s.
Proof.
  induction d as [|[c s0] d IH]; simpl; [tauto|].
  intros H. destruct (Text.eqb c col) eqn:E; [eauto|].
  apply IH. destruct H as [->|H]; [|exact H].
  rewrite eqb_refl in E. discriminate.
Qed.

Lemma getitem_Return_In d col s : getitem d col = Return s -> In (col, s) d.
Proof.
  induction d as [|[c s0] d IH]; simpl; [discriminate|].
  destruct (Text.eqb c col) eqn:E.
  - apply eqb_eq in E. intros [= ->]. left. now subst.
  - intros H. right. now apply IH.
Qed.

Lemma getitem_Return_columns d col s : getitem d col = Return s -> In col (columns d).
Proof.
  intros H. apply getitem_Return_In in H.
  unfold columns. apply in_map_iff. now exists (col, s).
Qed.

Lemma getitem_NoDup_In d c s :
  NoDup (columns d) -> In (c, s) d -> getitem d c = Return s.
Proof.
  induction d as [|[c0 s0] d IH]; simpl; [tauto|].
  intros Hnd [E|Hin].
  - injection E as -> ->. now rewrite eqb_refl.
  - apply NoDup_cons in Hnd. destruct Hnd as [Hnot Hnd].
    destruct (Text.eqb c0 c) eqn:E.
    + apply eqb_eq in E. subst. exfalso. apply Hnot.
      apply list_elem_of_In. unfold columns. apply in_map_iff. now exists (c, s).
    + now apply IH.
Qed.

(** *** The loop of Clean *)

Lemma columns_app d1 d2 : columns (d1 ++ d2) = columns d1 ++ columns d2.
Proof. unfold columns. apply map_app. Qed.

Lemma clean_loop pd body c :
  cleans_one pd body c ->
  forall post pre st,
    heap st !! c = Some (pre ++ post) ->
    NoDup (columns (pre ++ post)) ->
    for_each (columns post) body st =
      (Return tt,
       {| heap := <[c := pre ++ clean_table pd post]> (heap st);
          _dataframe := _dataframe st |}).
Proof.
  intros Hbody. induction post as [|[col s] post IH]; intros pre st Hc Hnd.
  - simpl. unfold ret. f_equal. destruct st as [h g]. simpl in *. f_equal.
    symmetry. now apply list_insert_id.
  - simpl for_each.
    assert (Hnot : ~ In col (columns pre)).
    { rewrite columns_app in Hnd. simpl in Hnd.
      apply NoDup_app in Hnd. destruct Hnd as (_ & Hdis & _).
      intros Hin. apply (Hdis col); [now apply list_elem_of_In | left]. }
    rewrite (bind_Return _ _ _ _ _ (Hbody st pre col s post Hc Hnot)).
    pose proof (lookup_lt_Some _ _ _ Hc) as Hlt.
    rewrite (IH (pre ++ [(col, clean_column pd s)])).
    + simpl. rewrite list_insert_insert_eq, <- app_assoc. reflexivity.
    + simpl. rewrite <- app_assoc. now apply list_lookup_insert_eq.
    + rewrite <- app_assoc. simpl.
      rewrite columns_app in *. simpl in *. exact Hnd.
Qed.

End RuntimeFacts.

(** ** From the routes to the handlers *)

Module RouteFacts.
Import Pandas Runtime Spec RuntimeFacts.
Local Open Scope string_scope.

(** After a successful upload the slot refers to a new object holding the
    decoded table. *)
Lemma upload_file_loads pd file st d :
  AgentBot.load_dataframe pd file st = decoded (Return d) st ->
  AgentBot.upload_file pd file st =
    (Return (Message ("Uploaded '" ++ AgentBot.filename file ++
                      "' successfully! Now you can send commands.")),
     {| heap := heap st ++ [d]; _dataframe := Some (length (heap st)) |}).
Proof.
  intros Hload. unfold AgentBot.upload_file.
  rewrite (bind_Return _ _ _ _ _ Hload). reflexivity.
Qed.

Lemma chat_is_process_command pd message :
  AgentBot.chat pd message = AgentBot.process_command pd message.
Proof. reflexivity. Qed.

(** The key check reads only. *)
Lemma check_app_key_state environ request st :
  snd (App.check_app_key environ request st) = st.
Proof.
  unfold App.check_app_key.
  destruct (match App.REQUIRE_APP_KEY environ with
            | Some v => String.eqb v "1" | None => false end); [|reflexivity].
  destruct (App.header_X_App_Key request) as [k|]; [|reflexivity].
  destruct (Py.falsy k || negb (String.eqb k (App._get_app_key environ))); reflexivity.
Qed.

(** Once the key check passes and the file is read into the object [df],
    [analyze_excel] is the block of the normalised task name, run on [df]. *)
Lemma analyze_excel_runs_task pd environ request task file target st df st1 :
  App.check_app_key environ request st = (Return tt, st) ->
  App.read_upload pd file st = (Return df, st1) ->
  App.analyze_excel pd environ request task (Some file) target st =
    (let task := Py.strip (Py.lower task) in
     if String.eqb task "summary" then App.task_summary pd df
     else if String.eqb task "clean" then App.task_clean pd file df
     else if String.eqb task "describe" then App.task_describe pd df
     else if String.eqb task "visualize" then App.task_visualize pd file df
     else if String.eqb task "forecast" then App.task_forecast pd df target
     else
       raise (HTTPException 400
                ("Unknown task '" ++ task ++
                 "'. Supported tasks are summary, clean, describe, visualize, forecast.")))
      st1.
Proof.
  intros Hkey Hread. unfold App.analyze_excel.
  rewrite (bind_Return _ _ _ _ _ Hkey), (bind_Return _ _ _ _ _ Hread).
  reflexivity.
Qed.

End RouteFacts.

(** ** Clean *)

Module CleanFacts.
Import Pandas Runtime Spec TextFacts PandasFacts ModeFacts RuntimeFacts.

Ltac run_step H :=
  first [ rewrite (bind_Return _ _ _ _ _ (run_deref _ _ _ H))
        | rewrite (bind_Return _ _ _ _ _ (run_df_columns _ _ _ H))
        | rewrite (bind_Return _ _ _ _ _ (run_df_copy _ _ _ H))
        | rewrite (bind_Return _ _ _ _ _ (run_to_excel _ _ _ H)) ].

Lemma agent_body_cleans_one pd c :
  cleans_one pd (fun col =>
    s <- df_getitem c col ;;
    if Py.char_in (dtype_kind s) "biufc" then
      s1 <- df_getitem c col ;;
      s2 <- df_getitem c col ;;
      m <- lift (median pd s2) ;;
      df_setitem c col (fillna pd s1 (PyFloat m))
    else
      s1 <- df_getitem c col ;;
      let mode_series := mode pd s1 in
      s2 <- df_getitem c col ;;
      df_setitem c col
        (fillna pd s2 (match mode_series with m :: _ => m | [] => PyStr "" end))) c.
Proof.
  intros st pre col s post Hc Hnot.
  assert (Hget : df_getitem c col st = (Return s, st)).
  { rewrite (run_df_getitem _ _ _ _ Hc). now rewrite getitem_middle. }
  rewrite (bind_Return _ _ _ _ _ Hget).
  unfold clean_column, clean_numeric.
  destruct (Py.char_in (dtype_kind s) "biufc") eqn:Hk.
  - rewrite !(bind_Return _ _ _ _ _ Hget).
    erewrite bind_Return by (unfold lift; rewrite (median_clean_numeric pd s Hk); reflexivity).
    rewrite (run_df_setitem _ _ _ _ _ Hc). now rewrite setitem_middle.
  - rewrite !(bind_Return _ _ _ _ _ Hget).
    rewrite (run_df_setitem _ _ _ _ _ Hc). now rewrite setitem_middle.
Qed.

Lemma app_body_cleans_one pd c :
  cleans_one pd (fun col =>
    s <- df_getitem c col ;;
    if Py.char_in (dtype_kind s) "biufc" then
      s1 <- df_getitem c col ;;
      median <- lift (median pd s1) ;;
      s2 <- df_getitem c col ;;
      df_setitem c col (fillna pd s2 (PyFloat median))
    else
      s1 <- df_getitem c col ;;
      let mode_series := mode pd s1 in
      let mode_value := match mode_series with m :: _ => m | [] => PyStr "" end in
      s2 <- df_getitem c col ;;
      df_setitem c col (fillna pd s2 mode_value)) c.
Proof.
  intros st pre col s post Hc Hnot.
  assert (Hget : df_getitem c col st = (Return s, st)).
  { rewrite (run_df_getitem _ _ _ _ Hc). now rewrite getitem_middle. }
  rewrite (bind_Return _ _ _ _ _ Hget).
  unfold clean_column, clean_numeric.
  destruct (Py.char_in (dtype_kind s) "biufc") eqn:Hk.
  - rewrite (bind_Return _ _ _ _ _ Hget).
    erewrite bind_Return by (unfold lift; rewrite (median_clean_numeric pd s Hk); reflexivity).
    rewrite (bind_Return _ _ _ _ _ Hget).
    rewrite (run_df_setitem _ _ _ _ _ Hc). now rewrite setitem_middle.
  - rewrite !(bind_Return _ _ _ _ _ Hget).
    rewrite (run_df_setitem _ _ _ _ _ Hc). now rewrite setitem_middle.
Qed.

Lemma columns_clean_table pd d : columns (clean_table pd d) = columns d.
Proof. unfold columns, clean_table. rewrite map_map. reflexivity. Qed.

Lemma snoc_insert_last (h : list DataFrame) d d' :
  <[length h := d']> (h ++ [d]) = h ++ [d'].
Proof.
  replace (length h) with (length h + 0)%nat by lia.
  now rewrite insert_app_r.
Qed.

(** What [analyze_clean] returns and what it leaves behind: the copy,
    cleaned column by column, serialised and left as a new object. *)
Lemma analyze_clean_run pd st df d :
  heap st !! df = Some d -> NoDup (columns d) ->
  AgentBot.analyze_clean pd df st =
    (Return {| body := Xlsx (clean_table pd d);
               media_type := xlsx_media_type;
               headers := [("Content-Disposition",
                            "attachment; filename=cleaned_data.xlsx")] |},
     {| heap := heap st ++ [clean_table pd d]; _dataframe := _dataframe st |}).
Proof.
  intros Hdf Hnd. unfold AgentBot.analyze_clean.
  run_step Hdf.
  set (st1 := {| heap := heap st ++ [d]; _dataframe := _dataframe st |}).
  assert (Hc : heap st1 !! length (heap st) = Some d).
  { simpl. now apply list_lookup_middle. }
  run_step Hc.
  rewrite (bind_Return _ _ _ _ _
             (clean_loop pd _ _ (agent_body_cleans_one pd _) d [] st1 Hc Hnd)).
  simpl app. simpl heap. rewrite snoc_insert_last.
  erewrite bind_Return by (apply run_to_excel; simpl; now apply list_lookup_middle).
  apply run_new_StreamingResponse_string.
Qed.

Lemma task_clean_run pd file st df d :
  heap st !! df = Some d -> NoDup (columns d) ->
  App.task_clean pd file df st =
    (if Text.latin1 (App.filename file)
     then Return (Stream {| body := Xlsx (clean_table pd d);
                            media_type := xlsx_media_type;
                            headers :=
                              [("x-summary",
                                ("Cleaned " ++ Text.to_string (App.filename file))%string)] |})
     else Raise (UnicodeEncodeError ("Cleaned " ++ App.filename file)%text),
     {| heap := heap st ++ [clean_table pd d]; _dataframe := _dataframe st |}).
Proof.
  intros Hdf Hnd. unfold App.task_clean.
  run_step Hdf.
  set (st1 := {| heap := heap st ++ [d]; _dataframe := _dataframe st |}).
  assert (Hc : heap st1 !! length (heap st) = Some d).
  { simpl. now apply list_lookup_middle. }
  run_step Hc.
  rewrite (bind_Return _ _ _ _ _
             (clean_loop pd _ _ (app_body_cleans_one pd _) d [] st1 Hc Hnd)).
  simpl app. simpl heap. rewrite snoc_insert_last.
  erewrite bind_Return by (apply run_to_excel; simpl; now apply list_lookup_middle).
  cbv zeta. unfold bind at 1.
  rewrite run_new_StreamingResponse, encode_after.
  destruct (Text.latin1 (App.filename file)); reflexivity.
Qed.

(** The same for an upload named within Latin-1, where the header is always
    encoded. *)
Lemma task_clean_run_latin1 pd (name : string) content st df d :
  heap st !! df = Some d -> NoDup (columns d) ->
  App.task_clean pd (upload_named name content) df st =
    (Return (Stream {| body := Xlsx (clean_table pd d);
                       media_type := xlsx_media_type;
                       headers := [("x-summary", ("Cleaned " ++ name)%string)] |}),
     {| heap := heap st ++ [clean_table pd d]; _dataframe := _dataframe st |}).
Proof.
  intros Hdf Hnd. rewrite (task_clean_run pd _ st df d Hdf Hnd).
  unfold upload_named. cbn [App.filename].
  now rewrite latin1_of_string, to_string_of_string.
Qed.

(** *** The cleaned column *)

Lemma clean_column_no_missing pd s : has_missing s = false -> clean_column pd s = s.
Proof.
  intros H. unfold clean_column. destruct (clean_numeric s); now apply fillna_no_missing.
Qed.

Lemma clean_table_no_missing pd d :
  Forall (fun cs => has_missing (snd cs) = false) d -> clean_table pd d = d.
Proof.
  induction 1 as [|[c s] d Hs _ IH]; simpl; [reflexivity|].
  simpl in Hs. now rewrite (clean_column_no_missing pd s Hs), IH.
Qed.

(** A cell of a datetime64 column is a time. *)
Lemma time_cell v l : In v (tolist (Datetime64 l)) -> exists t, v = Timestamp t.
Proof. simpl. rewrite in_map_iff. intros (t & <- & _). eauto. Qed.

(** The cells of a cleaned non-numeric column that has a value: every
    missing one holds the first mode. *)
Lemma tolist_fillna_mode pd s m rest :
  clean_numeric s = false -> mode pd s = m :: rest ->
  tolist (fillna pd s m) = map (fill_cell m) (tolist s).
Proof.
  intros Hk Hm. destruct s as [l|l|l|l|l]; try (vm_compute in Hk; discriminate).
  - apply tolist_fillna_object.
  - destruct (time_cell m l (mode_head_In pd _ m rest Hm)) as [t ->].
    apply tolist_fillna_time.
Qed.

(** The cells of a cleaned non-numeric column without any value, when it is
    not a datetime column: every one holds the empty string. *)
Lemma tolist_fillna_empty pd s :
  clean_numeric s = false -> dtype_kind s <> "M"%char ->
  tolist (fillna pd s (PyStr "")) = map (fill_cell (PyStr "")) (tolist s).
Proof.
  intros Hk Hm. destruct s as [l|l|l|l|l]; try (vm_compute in Hk; discriminate).
  - apply tolist_fillna_object.
  - now contradiction Hm.
Qed.

Lemma Forall2_clean_table pd (P : Series -> Series -> Prop) d :
  (forall s, P s (clean_column pd s)) ->
  Forall2 (fun cs cs' => P (snd cs) (snd cs')) d (clean_table pd d).
Proof. intros HP. induction d as [|[c s] d IH]; simpl; constructor; auto. Qed.

(** Unique labels of a table given in full. *)
Ltac labels_NoDup :=
  unfold columns; simpl;
  repeat (constructor; [rewrite ?list_elem_of_In; simpl; intuition discriminate|]);
  constructor.

Lemma clean_column_cleaned pd s : column_cleaned pd s (clean_column pd s).
Proof.
  unfold column_cleaned, clean_column.
  destruct (clean_numeric s) eqn:Hk.
  - cbv zeta. split.
    + now apply tolist_fillna_numeric.
    + intros Hm. unfold has_missing.
      rewrite tolist_fillna_numeric by exact Hk.
      now apply fill_cell_notna.
  - destruct (non_missing s) as [|w ws] eqn:Hnm.
    + intros Hkind. apply (mode_nil pd) in Hnm. rewrite Hnm.
      now apply tolist_fillna_empty.
    + destruct (mode pd s) as [|m rest] eqn:Hm.
      { apply mode_nil in Hm. congruence. }
      exists m. split.
      * rewrite <- Hnm. eapply mode_head_most_frequent; eauto.
      * eapply tolist_fillna_mode; eauto.
Qed.

Lemma clean_table_cleaned pd d :
  Forall2 (fun cs cs' => fst cs' = fst cs /\ column_cleaned pd (snd cs) (snd cs'))
          d (clean_table pd d).
Proof.
  induction d as [|[c s] d IH]; simpl; constructor; [|exact IH].
  simpl. split; [reflexivity | apply clean_column_cleaned].
Qed.

Lemma sample_NoDup : NoDup (columns sample).
Proof. labels_NoDup. Qed.

Lemma full_sample_NoDup : NoDup (columns full_sample).
Proof. labels_NoDup. Qed.

End CleanFacts.

(** ** The claims about Clean *)

Module CleanClaims.
Import Pandas Runtime Spec PandasFacts ModeFacts RuntimeFacts CleanFacts.




(** C4: Clean returns a table without missing cells as it is: same columns,
    same order, same cells, in both services. *)
Theorem clean_fixed_point pd st df d name content :
  heap st !! df = Some d -> NoDup (columns d) ->
  Forall (fun cs => has_missing (snd cs) = false) d ->
  fst (AgentBot.analyze_clean pd df st) =
    Return {| body := Xlsx d; media_type := xlsx_media_type;
              headers := [("Content-Disposition",
                           "attachment; filename=cleaned_data.xlsx")] |} /\
  fst (App.task_clean pd (upload_named name content) df st) =
    Return (Stream {| body := Xlsx d; media_type := xlsx_media_type;
                      headers := [("x-summary",
                                   ("Cleaned " ++ name)%string)] |}).
Proof.
  intros Hdf Hnd Hfull.
  rewrite (analyze_clean_run pd st df d Hdf Hnd), (task_clean_run_latin1 pd name content st df d Hdf Hnd).
  rewrite (clean_table_no_missing pd d Hfull). split; reflexivity.
Qed.

Lemma clean_fixed_point_witness :
  fst (AgentBot.analyze_clean no_library 0%nat (loaded full_sample)) =
    Return {| body := Xlsx full_sample; media_type := xlsx_media_type;
              headers := [("Content-Disposition",
                           "attachment; filename=cleaned_data.xlsx")] |} /\
  fst (App.task_clean no_library sample_file 0%nat (loaded full_sample)) =
    Return (Stream {| body := Xlsx full_sample; media_type := xlsx_media_type;
                      headers := [("x-summary",
                                   "Cleaned sales.csv")] |}).
Proof.
  apply (clean_fixed_point no_library (loaded full_sample) 0%nat full_sample "sales.csv" []).
  - reflexivity.
  - exact full_sample_NoDup.
  - repeat constructor.
Defined.

End CleanClaims.

(** ** Forecast *)

Module ForecastFacts.
Import Pandas Runtime Spec TextFacts PandasFacts RuntimeFacts CleanFacts.
Local Open Scope string_scope.

(** Forecast on an existing numeric column: the one-cell table is built
    and left behind as a new object; the response is built when the target
    has a Latin-1 encoding, and its header raises otherwise. *)
Lemma analyze_forecast_run pd st df d target s :
  heap st !! df = Some d -> getitem d target = Return s ->
  is_numeric_dtype s = true ->
  AgentBot.analyze_forecast pd df target st =
    (if Text.latin1 target
     then Return {| body := Xlsx (forecast_table pd target s);
                    media_type := xlsx_media_type;
                    headers := [("Content-Disposition",
                                 "attachment; filename=forecast_" ++
                                   Text.to_string target ++ ".xlsx")] |}
     else Raise (UnicodeEncodeError
                   ("attachment; filename=forecast_" ++ target ++ ".xlsx")%text),
     {| heap := heap st ++ [forecast_table pd target s]; _dataframe := _dataframe st |}).
Proof.
  intros Hdf Hget Hnum. unfold AgentBot.analyze_forecast.
  rewrite (bind_Return _ _ _ _ _ (run_df_columns _ _ _ Hdf)).
  assert (Hin : existsb (Text.eqb target) (columns d) = true).
  { apply existsb_eqb_In. eapply getitem_Return_columns; eauto. }
  rewrite Hin. cbn [negb]. cbv iota.
  assert (Hg : df_getitem df target st = (Return s, st)).
  { now rewrite (run_df_getitem _ _ _ _ Hdf), Hget. }
  rewrite (bind_Return _ _ _ _ _ Hg). rewrite Hnum. cbn [negb]. cbv iota.
  rewrite (bind_Return _ _ _ _ _ Hg).
  unfold lift at 1. rewrite (mean_numeric pd s Hnum).
  unfold bind at 1. cbv zeta. unfold py_float.
  unfold alloc, bind at 1.
  erewrite bind_Return
    by (apply run_to_excel; simpl; now apply list_lookup_middle).
  rewrite run_new_StreamingResponse, encode_around.
  destruct (Text.latin1 target); reflexivity.
Qed.

Lemma analyze_forecast_not_found pd st df d target :
  heap st !! df = Some d -> ~ In target (columns d) ->
  AgentBot.analyze_forecast pd df target st =
    (Raise (HTTPException 400 ("Column '" ++ target ++ "' not found in dataset.")), st).
Proof.
  intros Hdf Hnot. unfold AgentBot.analyze_forecast.
  rewrite (bind_Return _ _ _ _ _ (run_df_columns _ _ _ Hdf)).
  destruct (existsb (Text.eqb target) (columns d)) eqn:Hin.
  - apply existsb_eqb_In in Hin. contradiction.
  - reflexivity.
Qed.

Lemma analyze_forecast_not_numeric pd st df d target s :
  heap st !! df = Some d -> getitem d target = Return s ->
  is_numeric_dtype s = false ->
  AgentBot.analyze_forecast pd df target st =
    (Raise (HTTPException 400
              ("Column '" ++ target ++ "' must be numeric for forecasting.")), st).
Proof.
  intros Hdf Hget Hnum. unfold AgentBot.analyze_forecast.
  rewrite (bind_Return _ _ _ _ _ (run_df_columns _ _ _ Hdf)).
  assert (Hin : existsb (Text.eqb target) (columns d) = true).
  { apply existsb_eqb_In. eapply getitem_Return_columns; eauto. }
  rewrite Hin. cbn [negb]. cbv iota.
  assert (Hg : df_getitem df target st = (Return s, st)).
  { now rewrite (run_df_getitem _ _ _ _ Hdf), Hget. }
  rewrite (bind_Return _ _ _ _ _ Hg). rewrite Hnum. reflexivity.
Qed.

Lemma task_forecast_run pd st df d target s :
  heap st !! df = Some d -> getitem d target = Return s ->
  is_numeric_dtype s = true ->
  App.task_forecast pd df (Some target) st =
    (if Text.latin1 target
     then Return (Stream {| body := Xlsx (forecast_table pd target s);
                            media_type := xlsx_media_type;
                            headers := [("x-summary",
                                         "Forecasted mean for column '" ++
                                           Text.to_string target ++ "'")] |})
     else Raise (UnicodeEncodeError
                   ("Forecasted mean for column '" ++ target ++ "'")%text),
     {| heap := heap st ++ [forecast_table pd target s]; _dataframe := _dataframe st |}).
Proof.
  intros Hdf Hget Hnum. unfold App.task_forecast.
  rewrite (bind_Return _ _ _ _ _ (run_df_columns _ _ _ Hdf)).
  assert (Hin : existsb (Text.eqb target) (columns d) = true).
  { apply existsb_eqb_In. eapply getitem_Return_columns; eauto. }
  rewrite Hin. cbn [negb]. cbv iota.
  assert (Hg : df_getitem df target st = (Return s, st)).
  { now rewrite (run_df_getitem _ _ _ _ Hdf), Hget. }
  rewrite (bind_Return _ _ _ _ _ Hg). rewrite Hnum. cbn [negb]. cbv iota.
  rewrite (bind_Return _ _ _ _ _ Hg).
  unfold lift at 1. rewrite (mean_numeric pd s Hnum).
  unfold bind at 1. cbv zeta. unfold py_float.
  unfold alloc, bind at 1.
  erewrite bind_Return
    by (apply run_to_excel; simpl; now apply list_lookup_middle).
  unfold bind at 1. rewrite run_new_StreamingResponse, encode_around.
  destruct (Text.latin1 target); reflexivity.
Qed.

Lemma task_forecast_not_found pd st df d target :
  heap st !! df = Some d -> ~ In target (columns d) ->
  App.task_forecast pd df (Some target) st =
    (Raise (HTTPException 400
              ("Target column '" ++ target ++ "' not found in the dataset.")), st).
Proof.
  intros Hdf Hnot. unfold App.task_forecast.
  rewrite (bind_Return _ _ _ _ _ (run_df_columns _ _ _ Hdf)).
  destruct (existsb (Text.eqb target) (columns d)) eqn:Hin.
  - apply existsb_eqb_In in Hin. contradiction.
  - reflexivity.
Qed.

Lemma task_forecast_not_numeric pd st df d target s :
  heap st !! df = Some d -> getitem d target = Return s ->
  is_numeric_dtype s = false ->
  App.task_forecast pd df (Some target) st =
    (Raise (HTTPException 400
              ("Target column '" ++ target ++ "' must be numeric for forecasting.")), st).
Proof.
  intros Hdf Hget Hnum. unfold App.task_forecast.
  rewrite (bind_Return _ _ _ _ _ (run_df_columns _ _ _ Hdf)).
  assert (Hin : existsb (Text.eqb target) (columns d) = true).
  { apply existsb_eqb_In. eapply getitem_Return_columns; eauto. }
  rewrite Hin. cbn [negb]. cbv iota.
  assert (Hg : df_getitem df target st = (Return s, st)).
  { now rewrite (run_df_getitem _ _ _ _ Hdf), Hget. }
  rewrite (bind_Return _ _ _ _ _ Hg). rewrite Hnum. reflexivity.
Qed.

Lemma not_bad_target d target :
  ~ bad_target d target ->
  exists s, getitem d target = Return s /\ is_numeric_dtype s = true.
Proof.
  intros Hok. unfold bad_target in Hok.
  destruct (existsb (Text.eqb target) (columns d)) eqn:Hin.
  - apply existsb_eqb_In, getitem_In in Hin. destruct Hin as [s Hs].
    exists s. split; [exact Hs|].
    destruct (is_numeric_dtype s) eqn:Hn; [reflexivity|].
    exfalso. apply Hok. right. eauto.
  - exfalso. apply Hok. left. intros H. apply existsb_eqb_In in H. congruence.
Qed.

Lemma bad_target_dec d target : bad_target d target \/ ~ bad_target d target.
Proof.
  unfold bad_target.
  destruct (existsb (Text.eqb target) (columns d)) eqn:Hin.
  - pose proof Hin as Hin'. apply existsb_eqb_In, getitem_In in Hin'.
    destruct Hin' as [s Hs]. destruct (is_numeric_dtype s) eqn:Hn.
    + right. intros [Hnot|(s' & Hs' & Hn')].
      * apply Hnot. now apply existsb_eqb_In.
      * congruence.
    + left. right. eauto.
  - left. left. intros H. apply existsb_eqb_In in H. congruence.
Qed.

(** A message around a label is not empty. *)
Lemma around_nonempty (pre : string) (t : text) :
  pre <> EmptyString -> forall post : text, codes (pre ++ t ++ post)%text <> [].
Proof. destruct pre; [congruence|]. intros _ post. discriminate. Qed.

(** A refused target is answered with a 400 and a message by both
    services. *)
Lemma bad_target_client_error pd st df d target :
  heap st !! df = Some d -> bad_target d target ->
  client_error (fst (AgentBot.analyze_forecast pd df target st)) /\
  client_error (fst (App.task_forecast pd df (Some target) st)).
Proof.
  intros Hdf [Hnot|(s & Hs & Hn)].
  - rewrite (analyze_forecast_not_found pd st df d target Hdf Hnot),
            (task_forecast_not_found pd st df d target Hdf Hnot).
    split; eexists; (split; [reflexivity | apply around_nonempty; discriminate]).
  - rewrite (analyze_forecast_not_numeric pd st df d target s Hdf Hs Hn),
            (task_forecast_not_numeric pd st df d target s Hdf Hs Hn).
    split; eexists; (split; [reflexivity | apply around_nonempty; discriminate]).
Qed.

(** A column whose cells are all missing has nan as its mean. *)
Lemma mean_all_missing pd s :
  Forall (fun v => isna v = true) (tolist s) -> nanmean pd (tolist s) = PrimFloat.nan.
Proof.
  intros Hall. apply isnan_unique; [|reflexivity].
  now apply nanmean_all_missing.
Qed.

Lemma uriage_sample_NoDup : NoDup (columns uriage_sample).
Proof. labels_NoDup. Qed.

End ForecastFacts.

(** ** The claims about Forecast *)

Module ForecastClaims.
Import Pandas Runtime Spec TextFacts PandasFacts RuntimeFacts CleanFacts ForecastFacts.
Local Open Scope string_scope.



(** C2 (as stated) fails in two ways.  The value is a float64: for two
    int64 cells of 9223372036854775807 the services answer
    9223372036854775808, which is not the arithmetic mean of the cells.  And
    a float column named outside Latin-1 gets no table at all: building the
    response raises UnicodeEncodeError. *)
Lemma forecast_is_mean_counterexample :
  (exists x,
     fst (AgentBot.analyze_forecast no_library 0%nat "N" (loaded top_sample)) =
       Return {| body := Xlsx [("N" : text, Float64 [x])];
                 media_type := xlsx_media_type;
                 headers := [("Content-Disposition",
                              "attachment; filename=forecast_N.xlsx")] |} /\
     exact x = Some (Finite (inject_Z 9223372036854775808)) /\
     ~ (inject_Z 9223372036854775808 ==
        arithmetic_mean [9223372036854775807; 9223372036854775807]%Z)%Q) /\
  getitem uriage_sample uriage = Return (Float64 [10%float; 30%float]) /\
  fst (AgentBot.analyze_forecast no_library 0%nat uriage (loaded uriage_sample)) =
    Raise (UnicodeEncodeError ("attachment; filename=forecast_" ++ uriage ++ ".xlsx")%text) /\
  fst (App.task_forecast no_library 0%nat (Some uriage) (loaded uriage_sample)) =
    Raise (UnicodeEncodeError ("Forecasted mean for column '" ++ uriage ++ "'")%text).
Proof.
  split; [|repeat split].
  eexists. split; [reflexivity|]. split; [reflexivity|].
  intros H. vm_compute in H. discriminate H.
Qed.





End ForecastClaims.

(** ** Frame: what the handlers leave untouched *)

Module FrameFacts.
Import Pandas Runtime Spec RuntimeFacts.

Section Rules.
Context {A B : Type}.

Lemma hoare_ret P (a : A) Q E :
  (forall st, P st -> Q a st) -> hoare P (ret a) Q E.
Proof. intros H st HP. simpl. auto. Qed.

Lemma hoare_raise P e (Q : A -> state -> Prop) (E : state -> Prop) :
  (forall st, P st -> E st) -> hoare P (raise e) Q E.
Proof. intros H st HP. simpl. auto. Qed.

Lemma hoare_bind P (m : M A) (k : A -> M B) R Q E :
  hoare P m R E -> (forall a, hoare (R a) (k a) Q E) -> hoare P (bind m k) Q E.
Proof.
  intros Hm Hk st HP. specialize (Hm st HP). unfold bind.
  destruct (m st) as [[a|e] st']; [now apply Hk | exact Hm].
Qed.

(** A fact that does not depend on the state can be taken out of the
    precondition. *)
Lemma hoare_assume (phi : Prop) P (m : M A) Q E :
  (phi -> hoare P m Q E) -> hoare (fun st => P st /\ phi) m Q E.
Proof. intros H st [HP Hphi]. now apply H. Qed.

End Rules.

Section Preserve.
Context (r : ref) (d : DataFrame) (g : option ref).

Lemma preserves_ret {A} (a : A) : preserves r d g (ret a).
Proof. apply hoare_ret. auto. Qed.

Lemma preserves_raise {A} e : preserves r d g (@raise A e).
Proof. apply hoare_raise. auto. Qed.

Lemma preserves_lift {A} (o : outcome A) : preserves r d g (lift o).
Proof. intros st H. unfold lift. destruct o; exact H. Qed.

Lemma preserves_bind {A B} (m : M A) (k : A -> M B) :
  preserves r d g m -> (forall a, preserves r d g (k a)) -> preserves r d g (bind m k).
Proof. intros Hm Hk. eapply hoare_bind; [exact Hm | exact Hk]. Qed.

Lemma preserves_try_except {A} (m : M A) handler :
  preserves r d g m -> (forall e, preserves r d g (handler e)) ->
  preserves r d g (try_except m handler).
Proof.
  intros Hm Hh st H. specialize (Hm st H). unfold try_except.
  destruct (m st) as [[a|e] st']; [exact Hm | now apply Hh].
Qed.

Lemma preserves_for_each {A} (xs : list A) body :
  (forall x, preserves r d g (body x)) -> preserves r d g (for_each xs body).
Proof.
  intros Hb. induction xs as [|x xs IH]; simpl.
  - apply preserves_ret.
  - apply preserves_bind; [apply Hb | intros _; exact IH].
Qed.

Lemma preserves_for_collect {A B} (xs : list A) (f : A -> M B) :
  (forall x, preserves r d g (f x)) -> preserves r d g (for_collect xs f).
Proof.
  intros Hf. induction xs as [|x xs IH]; simpl.
  - apply preserves_ret.
  - apply preserves_bind; [apply Hf | intros y].
    apply preserves_bind; [exact IH | intros ys; apply preserves_ret].
Qed.

Lemma preserves_deref r' : preserves r d g (deref r').
Proof. intros st H. unfold deref. destruct (heap st !! r'); exact H. Qed.

Lemma preserves_get_dataframe : preserves r d g get_dataframe.
Proof. intros st H. exact H. Qed.

(** A new object is not [r], and leaves [r] alone. *)
Lemma hoare_alloc x :
  hoare (holds r d g) (alloc x) (fun c st => holds r d g st /\ c <> r) (holds r d g).
Proof.
  intros st [Hg Hr]. simpl. repeat split; [exact Hg | | ].
  - now apply lookup_app_l_Some.
  - apply lookup_lt_Some in Hr. lia.
Qed.

Lemma preserves_alloc x : preserves r d g (alloc x).
Proof. intros st H. apply (hoare_alloc x st H). Qed.

(** Writing to another object leaves [r] alone. *)
Lemma preserves_update c x : c <> r -> preserves r d g (update c x).
Proof.
  intros Hne st [Hg Hr]. unfold update, holds.
  cbv beta iota delta [heap _dataframe]. split; [exact Hg|].
  now rewrite list_lookup_insert_ne.
Qed.

Lemma preserves_df_columns r' : preserves r d g (df_columns r').
Proof. apply preserves_bind; [apply preserves_deref | intros; apply preserves_ret]. Qed.

Lemma preserves_df_getitem r' col : preserves r d g (df_getitem r' col).
Proof. apply preserves_bind; [apply preserves_deref | intros; apply preserves_lift]. Qed.

Lemma preserves_to_excel r' : preserves r d g (to_excel r').
Proof. apply preserves_bind; [apply preserves_deref | intros; apply preserves_ret]. Qed.

Lemma preserves_plot_hist pd s : preserves r d g (plot_hist pd s).
Proof.
  unfold plot_hist. destruct (hist pd s); [apply preserves_raise | apply preserves_ret].
Qed.

Lemma preserves_new_StreamingResponse content mt hs :
  preserves r d g (new_StreamingResponse content mt hs).
Proof.
  apply preserves_bind; [apply preserves_lift | intros; apply preserves_ret].
Qed.

Lemma preserves_df_setitem c col s : c <> r -> preserves r d g (df_setitem c col s).
Proof.
  intros Hne. apply preserves_bind; [apply preserves_deref | intros].
  now apply preserves_update.
Qed.

Lemma hoare_df_copy r' :
  hoare (holds r d g) (df_copy r') (fun c st => holds r d g st /\ c <> r) (holds r d g).
Proof.
  eapply hoare_bind; [apply preserves_deref | intros x; apply hoare_alloc].
Qed.

End Preserve.

(** Reads, pure steps and control flow keep the invariant; allocation and
    writes are handled where they occur. *)
Ltac preserve :=
  repeat first
    [ apply preserves_ret | apply preserves_raise | apply preserves_lift
    | apply preserves_deref | apply preserves_get_dataframe
    | apply preserves_df_columns | apply preserves_df_getitem
    | apply preserves_to_excel | apply preserves_alloc
    | apply preserves_plot_hist | apply preserves_new_StreamingResponse
    | apply preserves_df_setitem; assumption
    | apply preserves_for_each; intros ?
    | apply preserves_for_collect; intros ?
    | apply preserves_try_except; [|intros ?]
    | apply preserves_bind; [|intros ?]
    | match goal with
      | |- preserves _ _ _ (if ?b then _ else _) => destruct b
      | |- preserves _ _ _ (match ?x with _ => _ end) => destruct x
      | |- preserves _ _ _ (let _ := _ in _) => cbv zeta
      end ].

Section Handlers.
Context (pd : Library) (r : ref) (d : DataFrame) (g : option ref).

Lemma preserves_analyze_summary df : preserves r d g (AgentBot.analyze_summary pd df).
Proof. unfold AgentBot.analyze_summary. preserve. Qed.

Lemma preserves_analyze_describe df : preserves r d g (AgentBot.analyze_describe pd df).
Proof. unfold AgentBot.analyze_describe. preserve. Qed.

Lemma preserves_analyze_visualize df : preserves r d g (AgentBot.analyze_visualize pd df).
Proof. unfold AgentBot.analyze_visualize. preserve. Qed.

Lemma preserves_analyze_forecast df target :
  preserves r d g (AgentBot.analyze_forecast pd df target).
Proof. unfold AgentBot.analyze_forecast. preserve. Qed.

(** Clean writes, but only to its own copy. *)
Lemma preserves_analyze_clean df : preserves r d g (AgentBot.analyze_clean pd df).
Proof.
  unfold AgentBot.analyze_clean.
  eapply hoare_bind; [apply hoare_df_copy | intros cleaned].
  apply hoare_assume. intros Hne.
  match goal with |- hoare _ ?m _ _ => change (preserves r d g m) end.
  preserve.
Qed.

Lemma preserves_process_command command :
  preserves r d g (AgentBot.process_command pd command).
Proof.
  unfold AgentBot.process_command.
  apply preserves_bind; [apply preserves_get_dataframe | intros [df|]];
    [|apply preserves_ret].
  cbv zeta.
  repeat match goal with
         | |- preserves _ _ _ (if ?b then _ else _) => destruct b
         end;
    try (apply preserves_ret);
    try (apply preserves_bind; [|intros ?; apply preserves_ret]);
    auto using preserves_analyze_summary, preserves_analyze_clean,
      preserves_analyze_describe, preserves_analyze_visualize,
      preserves_analyze_forecast.
Qed.

Lemma preserves_task_summary df : preserves r d g (App.task_summary pd df).
Proof. unfold App.task_summary. preserve. Qed.

Lemma preserves_task_describe df : preserves r d g (App.task_describe pd df).
Proof. unfold App.task_describe. preserve. Qed.

Lemma preserves_task_visualize file df : preserves r d g (App.task_visualize pd file df).
Proof. unfold App.task_visualize. preserve. Qed.

Lemma preserves_task_forecast df target : preserves r d g (App.task_forecast pd df target).
Proof. unfold App.task_forecast. preserve. Qed.

Lemma preserves_task_clean file df : preserves r d g (App.task_clean pd file df).
Proof.
  unfold App.task_clean.
  eapply hoare_bind; [apply hoare_df_copy | intros cleaned].
  apply hoare_assume. intros Hne.
  match goal with |- hoare _ ?m _ _ => change (preserves r d g m) end.
  preserve.
Qed.

Lemma kept {A} (m : M A) st :
  preserves r d g m -> holds r d g st -> holds r d g (snd (m st)).
Proof.
  intros Hm H. specialize (Hm st H). destruct (m st) as [[a|e] st']; exact Hm.
Qed.

End Handlers.

End FrameFacts.

(** ** The claim about mutation *)

Module FrameClaims.
Import Pandas Runtime Spec RuntimeFacts CleanFacts FrameFacts.

(** C9: no handler mutates the loaded table.  With the table [d] in the
    object the slot refers to, after any chat command, and after each of
    the five handlers of either service, the slot still refers to that
    object and the object still holds [d]; Clean works on a copy, which it
    leaves behind as a new object holding the cleaned table. *)
Theorem handlers_leave_table_unchanged pd st df d :
  _dataframe st = Some df -> heap st !! df = Some d ->
  (forall command,
     holds df d (Some df) (snd (AgentBot.process_command pd command st))) /\
  holds df d (Some df) (snd (AgentBot.analyze_summary pd df st)) /\
  holds df d (Some df) (snd (AgentBot.analyze_clean pd df st)) /\
  holds df d (Some df) (snd (AgentBot.analyze_describe pd df st)) /\
  holds df d (Some df) (snd (AgentBot.analyze_visualize pd df st)) /\
  (forall target, holds df d (Some df) (snd (AgentBot.analyze_forecast pd df target st))) /\
  (forall file target,
     holds df d (Some df) (snd (App.task_summary pd df st)) /\
     holds df d (Some df) (snd (App.task_clean pd file df st)) /\
     holds df d (Some df) (snd (App.task_describe pd df st)) /\
     holds df d (Some df) (snd (App.task_visualize pd file df st)) /\
     holds df d (Some df) (snd (App.task_forecast pd df target st))) /\
  (NoDup (columns d) ->
   heap (snd (AgentBot.analyze_clean pd df st)) = heap st ++ [clean_table pd d]).
Proof.
  intros Hg Hdf.
  assert (H : holds df d (Some df) st) by (split; assumption).
  repeat match goal with
         | |- _ /\ _ => split
         | |- forall _, _ => intro
         end;
    try (apply kept; [|exact H]);
    auto using preserves_process_command, preserves_analyze_summary,
      preserves_analyze_clean, preserves_analyze_describe,
      preserves_analyze_visualize, preserves_analyze_forecast,
      preserves_task_summary, preserves_task_clean, preserves_task_describe,
      preserves_task_visualize, preserves_task_forecast.
  rewrite (analyze_clean_run pd st df d Hdf); [reflexivity | assumption].
Qed.

Lemma handlers_leave_table_unchanged_witness :
  (forall command,
     holds 0%nat sample (Some 0%nat)
       (snd (AgentBot.process_command no_library command (loaded sample)))) /\
  holds 0%nat sample (Some 0%nat)
    (snd (AgentBot.analyze_summary no_library 0%nat (loaded sample))) /\
  holds 0%nat sample (Some 0%nat)
    (snd (AgentBot.analyze_clean no_library 0%nat (loaded sample))) /\
  holds 0%nat sample (Some 0%nat)
    (snd (AgentBot.analyze_describe no_library 0%nat (loaded sample))) /\
  holds 0%nat sample (Some 0%nat)
    (snd (AgentBot.analyze_visualize no_library 0%nat (loaded sample))) /\
  (forall target,
     holds 0%nat sample (Some 0%nat)
       (snd (AgentBot.analyze_forecast no_library 0%nat target (loaded sample)))) /\
  (forall file target,
     holds 0%nat sample (Some 0%nat)
       (snd (App.task_summary no_library 0%nat (loaded sample))) /\
     holds 0%nat sample (Some 0%nat)
       (snd (App.task_clean no_library file 0%nat (loaded sample))) /\
     holds 0%nat sample (Some 0%nat)
       (snd (App.task_describe no_library 0%nat (loaded sample))) /\
     holds 0%nat sample (Some 0%nat)
       (snd (App.task_visualize no_library file 0%nat (loaded sample))) /\
     holds 0%nat sample (Some 0%nat)
       (snd (App.task_forecast no_library 0%nat target (loaded sample)))) /\
  (NoDup (columns sample) ->
   heap (snd (AgentBot.analyze_clean no_library 0%nat (loaded sample))) =
     (heap (loaded sample) ++ [clean_table no_library sample])%list).
Proof.
  apply (handlers_leave_table_unchanged no_library (loaded sample) 0%nat sample);
    reflexivity.
Defined.

End FrameClaims.

(** ** Visualize *)

Module VisualizeFacts.
Import Pandas Runtime Spec TextFacts RuntimeFacts.
Local Open Scope string_scope.

(** The handler's selection is the int and float columns, in column
    order. *)
Lemma select_dtypes_number_labels d : select_dtypes_number d = int_or_float_labels d.
Proof.
  unfold select_dtypes_number, columns.
  induction d as [|[c s] d IH]; [reflexivity|].
  destruct s; simpl; rewrite IH; reflexivity.
Qed.

Lemma int_or_float_labels_In d c :
  In c (int_or_float_labels d) <-> exists s, In (c, s) d /\ is_number_dtype s = true.
Proof.
  induction d as [|[c0 s0] d IH]; simpl.
  - split; [tauto | intros (s & [] & _)].
  - destruct s0; simpl; rewrite ?IH; split;
      try (intros [->|(s & Hin & Hs)]; [eexists; split; [left; reflexivity | reflexivity]
                                       | exists s; split; [now right | exact Hs]]);
      try (intros (s & Hin & Hs); exists s; split; [now right | exact Hs]);
      try (intros (s & [E|Hin] & Hs);
           [injection E as -> <-; first [now left | discriminate Hs]
           | first [right; eauto | eauto]]).
Qed.

Lemma int_or_float_labels_columns d c :
  In c (int_or_float_labels d) -> In c (columns d).
Proof.
  rewrite int_or_float_labels_In. intros (s & Hin & _).
  unfold columns. apply in_map_iff. now exists (c, s).
Qed.

Lemma select_dtypes_number_nil d :
  Forall (fun cs => is_number_dtype (snd cs) = false) d -> select_dtypes_number d = [].
Proof.
  unfold select_dtypes_number. induction 1 as [|[c s] d Hs _ IH]; [reflexivity|].
  simpl in *. now rewrite Hs.
Qed.

(** One round of the loop of Visualize: read the column, draw it, name the
    entry. *)
Lemma run_histogram pd st df d col :
  heap st !! df = Some d ->
  (s <- df_getitem df col ;;
   plot_hist pd (dropna s) ;;
   let img := {| title := col; xlabel := col; ylabel := "Frequency";
                 plotted := dropna s |} in
   ret ((col ++ ".png")%text, img)) st =
    (match getitem d col with
     | Raise e => Raise e
     | Return s =>
         match hist pd (dropna s) with
         | Some msg => Raise (PlotError msg)
         | None =>
             Return ((col ++ ".png")%text,
                     {| title := col; xlabel := col; ylabel := "Frequency";
                        plotted := dropna s |})
         end
     end, st).
Proof.
  intros Hdf. unfold bind at 1. rewrite (run_df_getitem _ _ _ _ Hdf).
  destruct (getitem d col) as [s|e]; [|reflexivity].
  unfold bind, plot_hist. destruct (hist pd (dropna s)); reflexivity.
Qed.

(** The loop over the chosen columns reads each one, draws it and writes
    one entry; it stops at the first column that cannot be drawn. *)
Lemma run_histograms pd st df d cols :
  heap st !! df = Some d ->
  for_collect cols (fun col =>
      s <- df_getitem df col ;;
      plot_hist pd (dropna s) ;;
      let img := {| title := col; xlabel := col; ylabel := "Frequency";
                    plotted := dropna s |} in
      ret ((col ++ ".png")%text, img)) st = (histograms pd d cols, st).
Proof.
  intros Hdf. induction cols as [|col cols IH]; [reflexivity|].
  cbn [for_collect histograms].
  rewrite (bind_run _ _ _ _ _ (run_histogram pd st df d col Hdf)).
  destruct (getitem d col) as [s|e]; [|reflexivity].
  destruct (hist pd (dropna s)) as [msg|]; [reflexivity|].
  rewrite (bind_run _ _ _ _ _ IH).
  destruct (histograms pd d cols); reflexivity.
Qed.

(** What [analyze_visualize] does: a 400 without int or float columns;
    otherwise the archive of the first three, or the exception of the first
    one that cannot be drawn.  The state is as before. *)
Lemma analyze_visualize_run pd st df d :
  heap st !! df = Some d ->
  AgentBot.analyze_visualize pd df st =
    (match int_or_float_labels d with
     | [] => Raise (HTTPException 400 "No numeric columns to visualize.")
     | _ :: _ =>
         match histograms pd d (firstn 3 (int_or_float_labels d)) with
         | Return entries =>
             Return {| body := Zip entries; media_type := "application/zip";
                       headers := [("Content-Disposition",
                                    "attachment; filename=charts.zip")] |}
         | Raise e => Raise e
         end
     end, st).
Proof.
  intros Hdf. unfold AgentBot.analyze_visualize.
  rewrite (bind_Return _ _ _ _ _ (run_deref _ _ _ Hdf)). cbv zeta.
  rewrite select_dtypes_number_labels.
  destruct (int_or_float_labels d) as [|c cs] eqn:E; [reflexivity|].
  cbn [length Nat.eqb]. cbv iota.
  rewrite (bind_run _ _ _ _ _ (run_histograms pd st df d _ Hdf)).
  destruct (histograms pd d _); [|reflexivity].
  apply run_new_StreamingResponse_string.
Qed.

Lemma task_visualize_run pd file st df d :
  heap st !! df = Some d ->
  App.task_visualize pd file df st =
    (match int_or_float_labels d with
     | [] => Raise (HTTPException 400 "No numeric columns available for visualization.")
     | _ :: _ =>
         match histograms pd d (firstn 3 (int_or_float_labels d)) with
         | Return entries =>
             let stem := Text.rsplit_dot_head (App.filename file) in
             if Text.latin1 stem
             then Return (Stream
               {| body := Zip entries; media_type := "application/zip";
                  headers := [("Content-Disposition",
                               "attachment; filename=" ++ App.dquote ++
                                 Text.to_string stem ++
                                 "_charts.zip" ++ App.dquote)] |})
             else Raise (UnicodeEncodeError
                           ("attachment; filename=" ++ App.dquote ++ stem ++
                            "_charts.zip" ++ App.dquote)%text)
         | Raise e => Raise e
         end
     end, st).
Proof.
  intros Hdf. unfold App.task_visualize.
  rewrite (bind_Return _ _ _ _ _ (run_deref _ _ _ Hdf)). cbv zeta.
  rewrite select_dtypes_number_labels.
  destruct (int_or_float_labels d) as [|c cs] eqn:E; [reflexivity|].
  cbn [length Nat.eqb]. cbv iota.
  rewrite (bind_run _ _ _ _ _ (run_histograms pd st df d _ Hdf)).
  destruct (histograms pd d _); [|reflexivity].
  unfold bind at 1. rewrite run_new_StreamingResponse, encode_quoted.
  destruct (Text.latin1 _); reflexivity.
Qed.

(** The same for an upload named within Latin-1, where the header is always
    encoded. *)
Lemma task_visualize_run_latin1 pd (name : string) content st df d :
  heap st !! df = Some d ->
  App.task_visualize pd (upload_named name content) df st =
    (match int_or_float_labels d with
     | [] => Raise (HTTPException 400 "No numeric columns available for visualization.")
     | _ :: _ =>
         match histograms pd d (firstn 3 (int_or_float_labels d)) with
         | Return entries =>
             Return (Stream
               {| body := Zip entries; media_type := "application/zip";
                  headers := [("Content-Disposition",
                               "attachment; filename=" ++ App.dquote ++
                                 Text.to_string (Text.rsplit_dot_head name) ++
                                 "_charts.zip" ++ App.dquote)] |})
         | Raise e => Raise e
         end
     end, st).
Proof.
  intros Hdf. rewrite (task_visualize_run pd _ st df d Hdf).
  unfold upload_named. cbn [App.filename]. cbv zeta.
  now rewrite latin1_rsplit_dot_head by apply latin1_of_string.
Qed.

(** Columns of the table that are all drawn give one entry each. *)
Lemma histograms_drawn pd d cols :
  List.Forall (fun c => In c (columns d)) cols ->
  List.Forall (drawn pd d) cols ->
  exists entries,
    histograms pd d cols = Return entries /\ Forall2 (histogram_of d) cols entries.
Proof.
  induction cols as [|col cols IH]; intros Hin Hdrawn.
  - exists []. split; [reflexivity | constructor].
  - inversion Hin as [|? ? Hc Hin']; subst.
    inversion Hdrawn as [|? ? Hd Hdrawn']; subst.
    destruct (IH Hin' Hdrawn') as (entries & Hrun & Hall).
    destruct (getitem_In d col Hc) as [s Hs].
    eexists. split.
    + cbn [histograms]. rewrite Hs, (Hd s Hs), Hrun. reflexivity.
    + constructor; [|exact Hall]. split; [reflexivity|]. eauto.
Qed.

Lemma firstn_labels_columns d n :
  List.Forall (fun c => In c (columns d)) (firstn n (int_or_float_labels d)).
Proof.
  apply List.Forall_forall. intros c Hc.
  apply int_or_float_labels_columns.
  apply list_elem_of_In. apply (subseteq_take n). now apply list_elem_of_In.
Qed.

Lemma histogram_of_det d c e e' : histogram_of d c e -> histogram_of d c e' -> e = e'.
Proof.
  destruct e as [n h], e' as [n' h'].
  intros (Hn & s & Hs & Hh) (Hn' & s' & Hs' & Hh'). simpl in *. subst. congruence.
Qed.

Lemma histograms_names d cols es :
  Forall2 (histogram_of d) cols es -> map fst es = map (fun c => (c ++ ".png")%text) cols.
Proof.
  induction 1 as [|c e cols es [Hn _] _ IH]; simpl; [reflexivity|]. now rewrite Hn, IH.
Qed.

(** The only exceptions of the loop are those of a missing column and of
    the drawing. *)
Lemma histograms_Raise pd d cols e :
  histograms pd d cols = Raise e ->
  (exists k, e = KeyError k) \/ (exists msg, e = PlotError msg).
Proof.
  induction cols as [|col cols IH]; cbn [histograms]; [discriminate|].
  destruct (getitem d col) as [s|e0] eqn:Hs.
  - destruct (hist pd (dropna s)) as [msg|]; [intros [= <-]; eauto|].
    destruct (histograms pd d cols); [discriminate|]. intros [= <-]. now apply IH.
  - intros [= <-]. left.
    clear -Hs. induction d as [|[c s0] d IHd]; simpl in Hs.
    + injection Hs as <-. eauto.
    + destruct (Text.eqb c col); [discriminate | auto].
Qed.

(** Under the example library a float column that holds an infinite value
    is not drawn, and Visualize raises. *)
Lemma visualize_infinite_column :
  fst (AgentBot.analyze_visualize no_library 0%nat
         (loaded [("Limit" : text, Float64 [1%float; PrimFloat.infinity])])) =
    Raise (PlotError "autodetected range is not finite").
Proof. reflexivity. Qed.

Lemma wide_sample_NoDup : NoDup (columns wide_sample).
Proof. CleanFacts.labels_NoDup. Qed.

Lemma flags_sample_NoDup : NoDup (columns flags_sample).
Proof. CleanFacts.labels_NoDup. Qed.

End VisualizeFacts.

Module VisualizeClaims.
Import Pandas Runtime Spec RuntimeFacts CleanFacts VisualizeFacts.
Local Open Scope string_scope.



(** C5 (as stated) fails when numeric is read as Clean and Forecast read
    it: a table of four boolean columns, each numeric for both, has no
    column for Visualize, which answers 400 in both services. *)
Lemma visualize_first_three_counterexample :
  length flags_sample = 4%nat /\
  Forall (fun cs => is_numeric_dtype (snd cs) = true /\ clean_numeric (snd cs) = true)
         flags_sample /\
  fst (AgentBot.analyze_visualize no_library 0%nat (loaded flags_sample)) =
    Raise (HTTPException 400 "No numeric columns to visualize.") /\
  fst (App.task_visualize no_library sample_file 0%nat (loaded flags_sample)) =
    Raise (HTTPException 400 "No numeric columns available for visualization.").
Proof. repeat split; repeat constructor. Qed.

End VisualizeClaims.

(** ** Loading *)

Module LoadFacts.
Import Pandas Runtime Spec RuntimeFacts.
Local Open Scope string_scope.

Lemma run_decode (o : outcome DataFrame) st :
  try_except (d <- lift o ;; alloc d)
    (fun exc => raise (HTTPException 400 ("Failed to read file: " ++ str_of_exn exc))) st
  = decoded o st.
Proof. destruct o; reflexivity. Qed.

Lemma decoded_status o st :
  forall e, fst (decoded o st) = Raise e -> exists detail, e = HTTPException 400 detail.
Proof. destruct o; simpl; intros e' [= <-]. eauto. Qed.

Lemma decoded_200_or_400 o st :
  (http_status (fst (decoded o st)) = 200 \/ http_status (fst (decoded o st)) = 400)%N.
Proof. destruct o; simpl; auto. Qed.

Lemma load_dataframe_decoded pd file st :
  AgentBot.load_dataframe pd file st = decoded (Cover.reader_outcome pd file) st.
Proof.
  unfold AgentBot.load_dataframe, Cover.reader_outcome.
  destruct (Py.endswith_any _ _); [apply run_decode|].
  destruct (Py.endswith _ _); [apply run_decode | reflexivity].
Qed.

Lemma read_upload_decoded pd file st :
  App.read_upload pd file st = decoded (Cover.upload_outcome pd file) st.
Proof.
  unfold App.read_upload, Cover.upload_outcome.
  destruct (Text.endswith_any _ _); [apply run_decode|].
  destruct (Text.endswith _ _); [apply run_decode | reflexivity].
Qed.

End LoadFacts.

Module LoadClaims.
Import Pandas Runtime Spec Cover RuntimeFacts LoadFacts.
Local Open Scope string_scope.


End LoadClaims.

(** ** The chat dispatcher *)

Module DispatchFacts.
Import Pandas Runtime Spec RuntimeFacts.
Local Open Scope string_scope.

Ltac every_char c := destruct c as [[] [] [] [] [] [] [] []].

Lemma isspace_lower_char c : Py.isspace (Py.lower_char c) = Py.isspace c.
Proof. every_char c; reflexivity. Qed.

Lemma lower_char_idem c : Py.lower_char (Py.lower_char c) = Py.lower_char c.
Proof. every_char c; reflexivity. Qed.

Lemma lstrip_trimmed s : trimmed_left (Py.lstrip s).
Proof.
  induction s as [|c s IH]; simpl; [exact I|].
  destruct (Py.isspace c) eqn:E; [exact IH | exact E].
Qed.

Lemma rstrip_trimmed s : trimmed_left s -> trimmed_left (Py.rstrip s).
Proof.
  destruct s as [|c s]; simpl; [auto|]. intros Hc.
  destruct (Py.rstrip s); [rewrite Hc|]; exact Hc.
Qed.

Lemma lower_trimmed s : trimmed_left s -> trimmed_left (Py.lower s).
Proof.
  destruct s as [|c s]; simpl; [auto|]. now rewrite isspace_lower_char.
Qed.

Lemma command_trimmed command : trimmed_left (Py.lower (Py.strip command)).
Proof. apply lower_trimmed, rstrip_trimmed, lstrip_trimmed. Qed.

Lemma append_nil_r s : s ++ "" = s.
Proof. induction s; simpl; congruence. Qed.

Lemma append_assoc_char s c t : (s ++ String c "") ++ t = s ++ String c t.
Proof. induction s; simpl; congruence. Qed.

Lemma append_char_nonempty s c : s ++ String c "" <> "".
Proof. destruct s; discriminate. Qed.

(** The first token is the text up to the first space. *)
Lemma split_go_hd s : forall cur,
  cur <> "" \/ (s <> "" /\ trimmed_left s) ->
  hd "" (Py.split_go cur s) = cur ++ takeword s.
Proof.
  induction s as [|c s IH]; intros cur H.
  - destruct H as [H|[H _]]; [|congruence].
    simpl. rewrite append_nil_r. destruct cur; [congruence | reflexivity].
  - simpl. destruct (Py.isspace c) eqn:E.
    + destruct H as [H|[_ H]]; [|simpl in H; congruence].
      rewrite append_nil_r. destruct cur; [congruence | reflexivity].
    + rewrite IH by (left; apply append_char_nonempty).
      apply append_assoc_char.
Qed.

Lemma first_token s : trimmed_left s -> hd "" (Py.split s) = takeword s.
Proof.
  intros H. destruct s as [|c s]; [reflexivity|].
  unfold Py.split. rewrite split_go_hd; [reflexivity|].
  right. split; [discriminate | exact H].
Qed.

(** A word without spaces is a prefix of a text exactly when it is a prefix
    of the text's first word. *)
Lemma prefix_takeword k : forall s,
  no_space k = true -> String.prefix k s = String.prefix k (takeword s).
Proof.
  induction k as [|a k IH]; intros s Hk; [destruct s; simpl; try destruct (Py.isspace _); reflexivity|].
  simpl in Hk. apply andb_prop in Hk. destruct Hk as [Ha Hk].
  destruct s as [|b s]; [reflexivity|]. simpl.
  destruct (Py.isspace b) eqn:Eb.
  - destruct (ascii_dec a b) as [->|]; [|reflexivity].
    rewrite Eb in Ha. discriminate.
  - simpl. destruct (ascii_dec a b); [now apply IH | reflexivity].
Qed.

(** The dispatcher's test on the whole text is a test on the keyword. *)
Lemma startswith_keyword command k :
  no_space k = true ->
  Py.startswith (Py.lower (Py.strip command)) k = Py.startswith (keyword_of command) k.
Proof.
  intros Hk. unfold Py.startswith, keyword_of.
  rewrite (first_token _ (command_trimmed command)).
  now apply prefix_takeword.
Qed.

(** *** The extracted target is in lower case *)

Lemma all_lower_lower s : all_lower (Py.lower s).
Proof. induction s; simpl; [exact I | split; [apply lower_char_idem | assumption]]. Qed.

Lemma all_lower_fixed s : all_lower s -> Py.lower s = s.
Proof. induction s; simpl; [reflexivity|]. intros [-> H]. now rewrite IHs. Qed.

Lemma all_lower_app s t : all_lower s -> all_lower t -> all_lower (s ++ t).
Proof. induction s; simpl; [auto|]. intros [? ?] ?. split; auto. Qed.

Lemma all_lower_substring s : forall n m, all_lower s -> all_lower (String.substring n m s).
Proof.
  induction s as [|c s IH]; intros n m H.
  - destruct n, m; exact I.
  - destruct H as [Hc Hs]. destruct n as [|n]; simpl.
    + destruct m as [|m]; simpl; [exact I|]. split; [exact Hc | now apply IH].
    + now apply IH.
Qed.

Lemma all_lower_split_go s : forall cur,
  all_lower cur -> all_lower s -> List.Forall all_lower (Py.split_go cur s).
Proof.
  induction s as [|c s IH]; intros cur Hcur Hs; simpl.
  - destruct cur; constructor; [exact Hcur | constructor].
  - destruct Hs as [Hc Hs]. destruct (Py.isspace c).
    + destruct cur; [now apply IH | constructor; [exact Hcur | now apply IH]].
    + apply IH; [|exact Hs]. apply all_lower_app; [exact Hcur | simpl; auto].
Qed.

Lemma find_target_all_lower parts t :
  List.Forall all_lower parts -> AgentBot.find_target parts = Some t -> all_lower t.
Proof.
  induction 1 as [|part parts Hp _ IH]; simpl; [discriminate|].
  destruct (Py.startswith part "target="); [|exact IH].
  intros [= <-]. now apply all_lower_substring.
Qed.

Lemma chat_target_lower command t :
  AgentBot.find_target (tl (Py.split (Py.lower (Py.strip command)))) = Some t ->
  Py.lower t = t.
Proof.
  intros H. apply all_lower_fixed. eapply find_target_all_lower; [|exact H].
  assert (Hall : List.Forall all_lower (Py.split (Py.lower (Py.strip command)))).
  { apply all_lower_split_go; [exact I | apply all_lower_lower]. }
  destruct Hall; simpl; [constructor | assumption].
Qed.

(** *** What the dispatcher does with a message it does not recognise *)

Lemma process_command_help pd command st df :
  _dataframe st = Some df ->
  (forall k, In k keywords -> Py.startswith (Py.lower (Py.strip command)) k = false) ->
  AgentBot.process_command pd command st = (Return (Message AgentBot.help_message), st).
Proof.
  intros Hg Hno. unfold AgentBot.process_command.
  unfold bind at 1. unfold get_dataframe. rewrite Hg. cbv zeta.
  rewrite (Hno "summary"), (Hno "clean"), (Hno "describe"),
          (Hno "visualize"), (Hno "forecast");
    try reflexivity; unfold keywords; simpl; auto 10.
Qed.

End DispatchFacts.

(** ** The claims about the chat dispatcher *)

Module DispatchClaims.
Import Pandas Runtime Spec RuntimeFacts DispatchFacts.
Local Open Scope string_scope.

(** C8: with a table loaded, a chat message whose keyword starts with none
    of summary, clean, describe, visualize, forecast is answered with the
    help message, which names each of the five, and nothing is raised or
    changed. *)
Theorem unrecognized_command_gets_help pd command st df :
  _dataframe st = Some df ->
  (forall k, In k keywords -> Py.startswith (keyword_of command) k = false) ->
  AgentBot.process_command pd command st = (Return (Message AgentBot.help_message), st) /\
  (forall k, In k keywords -> Py.contains AgentBot.help_message k = true).
Proof.
  intros Hg Hno. split.
  - apply (process_command_help pd command st df Hg).
    intros k Hk. rewrite startswith_keyword; [now apply Hno|].
    unfold keywords in Hk. simpl in Hk.
    repeat (destruct Hk as [<-|Hk]; [reflexivity|]). contradiction.
  - intros k Hk. unfold keywords in Hk. simpl in Hk.
    repeat (destruct Hk as [<-|Hk]; [vm_compute; reflexivity|]). contradiction.
Qed.

Lemma unrecognized_command_gets_help_witness :
  AgentBot.process_command no_library "  Tidy up the data " (loaded sample) =
    (Return (Message AgentBot.help_message), loaded sample) /\
  (forall k, In k keywords -> Py.contains AgentBot.help_message k = true).
Proof.
  apply (unrecognized_command_gets_help no_library "  Tidy up the data "
           (loaded sample) 0%nat).
  - reflexivity.
  - intros k Hk. unfold keywords in Hk. simpl in Hk.
    repeat (destruct Hk as [<-|Hk]; [vm_compute; reflexivity|]). contradiction.
Defined.

(** C3: the chat parser takes the target from the lower-cased message.  From
    "forecast target=Revenue" it extracts "revenue", and on a table whose
    column is named Revenue the request is refused although the handler
    accepts the column under its own name; whatever the message, the
    extracted target is in lower case.  "forecast" alone is answered with
    the prompt for a target, and nothing is changed. *)
Theorem chat_forecast_target_is_lowercased pd :
  let revenue := [("Revenue" : text, Float64 [10%float; 30%float])] in
  AgentBot.find_target (tl (Py.split (Py.lower (Py.strip "forecast target=Revenue"))))
    = Some "revenue" /\
  fst (AgentBot.process_command pd "forecast target=Revenue" (loaded revenue)) =
    Raise (HTTPException 400 "Column 'revenue' not found in dataset.") /\
  fst (AgentBot.analyze_forecast pd 0%nat "Revenue" (loaded revenue)) =
    Return {| body := Xlsx [("Revenue" : text,
                             Float64 [nanmean pd [PyFloat 10%float; PyFloat 30%float]])];
              media_type := xlsx_media_type;
              headers := [("Content-Disposition",
                           "attachment; filename=forecast_Revenue.xlsx")] |} /\
  fst (AgentBot.analyze_forecast no_library 0%nat "Revenue" (loaded revenue)) =
    Return {| body := Xlsx [("Revenue" : text, Float64 [20%float])];
              media_type := xlsx_media_type;
              headers := [("Content-Disposition",
                           "attachment; filename=forecast_Revenue.xlsx")] |} /\
  (forall command t,
     AgentBot.find_target (tl (Py.split (Py.lower (Py.strip command)))) = Some t ->
     Py.lower t = t) /\
  (forall st df, _dataframe st = Some df ->
     AgentBot.process_command pd "forecast" st =
       (Return (Message AgentBot.target_prompt), st)).
Proof.
  intros revenue. repeat split; try reflexivity.
  - apply chat_target_lower.
  - intros st df Hg. unfold AgentBot.process_command.
    unfold bind at 1. unfold get_dataframe. rewrite Hg. reflexivity.
Qed.

End DispatchClaims.

(** * Properties beyond the claims *)

(** ** More about Clean *)

Module CleanCover.
Import Pandas Runtime Spec Cover PandasFacts ModeFacts RuntimeFacts CleanFacts.

Lemma numeric_not_time s : clean_numeric s = true -> dtype_kind s <> "M"%char.
Proof. destruct s; intros Hk E; try discriminate E. vm_compute in Hk. discriminate. Qed.

(** A column that is not numeric for Clean is an object or a datetime64
    column. *)
Lemma not_numeric_cases s :
  clean_numeric s = false -> (exists l, s = Object l) \/ (exists l, s = Datetime64 l).
Proof. destruct s; intros Hk; try (vm_compute in Hk; discriminate); eauto. Qed.

(** Which columns are left with a missing cell. *)
Lemma clean_column_still_missing pd s : still_missing_iff pd s (clean_column pd s).
Proof.
  unfold still_missing_iff.
  destruct (has_missing s) eqn:Hmiss.
  2:{ rewrite (clean_column_no_missing pd s Hmiss), Hmiss.
      split; [discriminate | intros [E _]; discriminate E]. }
  unfold clean_column, has_missing in *.
  destruct (clean_numeric s) eqn:Hk.
  - rewrite tolist_fillna_numeric by exact Hk.
    destruct (isnan (nanmedian pd (tolist s))) eqn:Hm.
    + rewrite fill_cell_na by exact Hm. rewrite Hmiss. tauto.
    + rewrite fill_cell_notna by exact Hm.
      split; [discriminate|]. intros [_ [[_ E]|[E _]]]; [discriminate E|].
      now apply numeric_not_time in E.
  - destruct (mode pd s) as [|m rest] eqn:Hmode.
    + apply mode_nil in Hmode.
      destruct (not_numeric_cases s Hk) as [[l ->]|[l ->]].
      * rewrite tolist_fillna_object, fill_cell_notna by reflexivity.
        split; [discriminate|]. intros [_ [[E _]|[E _]]]; discriminate E.
      * rewrite fillna_time_empty, Hmiss. split; [|reflexivity].
        intros _. split; [reflexivity|]. right. split; [reflexivity | exact Hmode].
    + rewrite (tolist_fillna_mode pd s m rest Hk Hmode).
      rewrite fill_cell_notna by (eapply mode_head_notna; eauto).
      split; [discriminate|]. intros [_ [[E _]|[_ E]]]; [discriminate E|].
      apply (mode_nil pd) in E. congruence.
Qed.

Lemma clean_column_idem pd s : clean_column pd (clean_column pd s) = clean_column pd s.
Proof.
  destruct (has_missing (clean_column pd s)) eqn:Hm.
  - apply clean_column_still_missing in Hm. destruct Hm as [_ [[Hk Hnan]|[Hkind Hnone]]].
    + assert (E : clean_column pd s = s).
      { unfold clean_column. rewrite Hk. now apply fillna_nan_numeric. }
      now rewrite !E.
    + assert (E : clean_column pd s = s).
      { destruct s as [l|l|l|l|l]; try discriminate Hkind.
        unfold clean_column.
        replace (clean_numeric (Datetime64 l)) with false by reflexivity.
        apply (mode_nil pd) in Hnone. rewrite Hnone. apply fillna_time_empty. }
      now rewrite !E.
  - now apply clean_column_no_missing.
Qed.

Lemma clean_table_idem pd d : clean_table pd (clean_table pd d) = clean_table pd d.
Proof.
  unfold clean_table. rewrite map_map. apply map_ext. intros [c s]. simpl.
  now rewrite clean_column_idem.
Qed.

Lemma len_clean_column pd s : len (clean_column pd s) = len s.
Proof.
  unfold len, clean_column. destruct (clean_numeric s) eqn:Hk.
  - rewrite tolist_fillna_numeric by exact Hk. apply length_map.
  - destruct (mode pd s) as [|m rest] eqn:Hmode.
    + destruct (not_numeric_cases s Hk) as [[l ->]|[l ->]].
      * rewrite tolist_fillna_object. apply length_map.
      * now rewrite fillna_time_empty.
    + rewrite (tolist_fillna_mode pd s m rest Hk Hmode). apply length_map.
Qed.

(** Filling the gaps of an object column with one of its values keeps what
    decides its dtype label: whether it holds a string, and whether it holds
    anything but strings. *)
Lemma fill_keeps_strings v l :
  In v l -> isna v = false ->
  existsb is_str (map (fill_cell v) l) = existsb is_str l /\
  forallb (fun x => is_str x || isna x) (map (fill_cell v) l) =
    forallb (fun x => is_str x || isna x) l.
Proof.
  intros Hin Hv. split.
  - destruct (is_str v) eqn:Hs.
    + assert (H1 : existsb is_str l = true) by (apply existsb_exists; eauto).
      rewrite H1. apply existsb_exists. exists v. split; [|exact Hs].
      apply in_map_iff. exists v. split; [|exact Hin].
      unfold fill_cell. now rewrite Hv.
    + clear Hin. induction l as [|x l IH]; [reflexivity|]. simpl. rewrite IH. f_equal.
      unfold fill_cell. destruct (isna x) eqn:Hx; [|reflexivity].
      rewrite Hs. destruct x as [z|y|b|t|[t|]]; try discriminate Hx; reflexivity.
  - destruct (forallb (fun x => is_str x || isna x) l) eqn:Hall.
    + rewrite forallb_forall in Hall.
      assert (Hs : is_str v = true).
      { specialize (Hall v Hin). rewrite Hv, orb_false_r in Hall. exact Hall. }
      apply forallb_forall. intros y Hy. apply in_map_iff in Hy.
      destruct Hy as (x & <- & Hx). cbn beta. unfold fill_cell.
      destruct (isna x) eqn:Ex; [now rewrite Hs|].
      exact (Hall x Hx).
    + clear Hin. induction l as [|x l IH]; [discriminate|]. simpl in *.
      apply andb_false_iff in Hall. apply andb_false_iff.
      destruct Hall as [Hx|Hl]; [left | right; now apply IH].
      apply orb_false_elim in Hx. destruct Hx as [Hx1 Hx2].
      unfold fill_cell. now rewrite Hx2, Hx1, Hx2.
Qed.

Lemma clean_column_same_shape pd s : same_shape pd s (clean_column pd s).
Proof.
  split; [apply len_clean_column|]. intros Hcase.
  destruct (has_missing s) eqn:Hmiss; [|now rewrite clean_column_no_missing].
  unfold clean_column. destruct (clean_numeric s) eqn:Hk.
  - unfold fillna. unfold has_missing in Hmiss. rewrite Hmiss. cbn [negb].
    destruct s as [l|l|l|l|l]; try (vm_compute in Hk; discriminate).
    + simpl in Hmiss. now rewrite no_missing_Int64 in Hmiss.
    + reflexivity.
    + simpl in Hmiss. now rewrite no_missing_Bool in Hmiss.
  - destruct Hcase as [E|Hne]; [discriminate|].
    destruct (mode pd s) as [|m rest] eqn:Hmode.
    { apply mode_nil in Hmode. contradiction. }
    pose proof (mode_head_In pd s m rest Hmode) as Hin.
    pose proof (mode_head_notna pd s m rest Hmode) as Hna.
    unfold fillna. unfold has_missing in Hmiss. rewrite Hmiss. cbn [negb].
    destruct (not_numeric_cases s Hk) as [[l ->]|[l ->]].
    + cbn [tolist dtype_str] in *. rewrite tolist_fill_object.
      destruct (fill_keeps_strings m l Hin Hna) as [-> ->]. reflexivity.
    + destruct (time_cell m l Hin) as [t ->]. reflexivity.
Qed.

Lemma getitem_clean_table pd d col s :
  getitem d col = Return s ->
  getitem (clean_table pd d) col = Return (clean_column pd s).
Proof.
  induction d as [|[c s0] d IH]; simpl; [discriminate|].
  destruct (Text.eqb c col); [now intros [= ->] | exact IH].
Qed.

Lemma isnull_sum_sum_zero d :
  Forall (fun cs => has_missing (snd cs) = false) d -> isnull_sum_sum d = 0%nat.
Proof.
  unfold isnull_sum_sum. induction 1 as [|[c s] d Hs _ IH]; simpl; [reflexivity|].
  rewrite IH, Nat.add_0_r. unfold count_missing, has_missing in *. simpl in Hs.
  induction (tolist s) as [|x l IHl]; simpl in *; [reflexivity|].
  apply orb_false_elim in Hs. destruct Hs as [Hx Hl]. rewrite Hx. auto.
Qed.

Lemma count_missing_zero s : count_missing s = 0%nat -> has_missing s = false.
Proof.
  unfold count_missing, has_missing.
  induction (tolist s) as [|x l IH]; simpl; [reflexivity|].
  destruct (isna x); simpl; [discriminate | exact IH].
Qed.

Lemma isnull_sum_sum_zero_inv d :
  isnull_sum_sum d = 0%nat -> Forall (fun cs => has_missing (snd cs) = false) d.
Proof.
  unfold isnull_sum_sum. induction d as [|[c s] d IH]; simpl; [constructor|].
  intros H. apply Nat.eq_add_0 in H. destruct H as [Hs Hd].
  constructor; [now apply count_missing_zero | now apply IH].
Qed.

Lemma plain_sample_NoDup : NoDup (columns plain_sample).
Proof. labels_NoDup. Qed.

Lemma gaps_sample_NoDup : NoDup (columns gaps_sample).
Proof. labels_NoDup. Qed.

End CleanCover.

Module CleanExtras.
Import Pandas Runtime Spec Cover PandasFacts RuntimeFacts CleanFacts CleanCover.



(** X2: Clean is idempotent on every table: cleaning the table of a
    cleaned workbook gives the same response again. *)
Theorem clean_twice_is_clean_once pd st df d r st' df' d' :
  heap st !! df = Some d -> NoDup (columns d) ->
  fst (AgentBot.analyze_clean pd df st) = Return r ->
  body r = Xlsx d' ->
  heap st' !! df' = Some d' ->
  fst (AgentBot.analyze_clean pd df' st') = Return r.
Proof.
  intros Hdf Hnd Hr Hbody Hdf'.
  rewrite (analyze_clean_run pd st df d Hdf Hnd) in Hr. simpl in Hr.
  injection Hr as <-. simpl in Hbody. injection Hbody as <-.
  rewrite (analyze_clean_run pd st' df' _ Hdf').
  - simpl. now rewrite clean_table_idem.
  - now rewrite columns_clean_table.
Qed.

Lemma clean_twice_is_clean_once_witness :
  fst (AgentBot.analyze_clean no_library 0%nat (loaded (clean_table no_library sample))) =
    Return {| body := Xlsx (clean_table no_library sample);
              media_type := xlsx_media_type;
              headers := [("Content-Disposition",
                           "attachment; filename=cleaned_data.xlsx")] |}.
Proof.
  apply (clean_twice_is_clean_once no_library (loaded sample) 0%nat sample _
           (loaded (clean_table no_library sample)) 0%nat (clean_table no_library sample));
    try reflexivity.
  exact sample_NoDup.
Defined.

(** X3: Clean keeps the shape of the table: the same number of rows and
    columns, every column as long as before, and every column's dtype,
    except that a non-numeric column without any value may change it. *)
Theorem clean_keeps_shape pd st df d :
  heap st !! df = Some d -> NoDup (columns d) ->
  exists cleaned,
    fst (AgentBot.analyze_clean pd df st) =
      Return {| body := Xlsx cleaned; media_type := xlsx_media_type;
                headers := [("Content-Disposition",
                             "attachment; filename=cleaned_data.xlsx")] |} /\
    nrows cleaned = nrows d /\ ncols cleaned = ncols d /\
    Forall2 (fun cs cs' => same_shape pd (snd cs) (snd cs')) d cleaned.
Proof.
  intros Hdf Hnd. exists (clean_table pd d).
  rewrite (analyze_clean_run pd st df d Hdf Hnd).
  repeat split.
  - destruct d as [|[c s] d]; simpl; [reflexivity | apply len_clean_column].
  - unfold ncols, clean_table. apply length_map.
  - apply (Forall2_clean_table pd (same_shape pd)), clean_column_same_shape.
Qed.

Lemma clean_keeps_shape_witness :
  exists cleaned,
    fst (AgentBot.analyze_clean no_library 0%nat (loaded plain_sample)) =
      Return {| body := Xlsx cleaned; media_type := xlsx_media_type;
                headers := [("Content-Disposition",
                             "attachment; filename=cleaned_data.xlsx")] |} /\
    nrows cleaned = nrows plain_sample /\ ncols cleaned = ncols plain_sample /\
    Forall2 (fun cs cs' => same_shape no_library (snd cs) (snd cs')) plain_sample cleaned.
Proof.
  apply (clean_keeps_shape no_library (loaded plain_sample) 0%nat plain_sample).
  - reflexivity.
  - exact plain_sample_NoDup.
Defined.

End CleanExtras.

(** ** More about Visualize and Forecast *)

Module AnalysisExtras.
Import Pandas Runtime Spec Cover TextFacts RuntimeFacts CleanFacts CleanCover.
Import VisualizeFacts ForecastFacts.
Local Open Scope string_scope.

(** X6: Visualize on a table without int or float columns (text, boolean
    and date columns only, or no column at all) is refused with status 400
    in both services, and nothing is changed. *)
Theorem visualize_needs_a_number_column pd st df d file :
  heap st !! df = Some d ->
  Forall (fun cs => is_number_dtype (snd cs) = false) d ->
  AgentBot.analyze_visualize pd df st =
    (Raise (HTTPException 400 "No numeric columns to visualize."), st) /\
  App.task_visualize pd file df st =
    (Raise (HTTPException 400 "No numeric columns available for visualization."), st).
Proof.
  intros Hdf Hnone. unfold AgentBot.analyze_visualize, App.task_visualize.
  rewrite !(bind_Return _ _ _ _ _ (run_deref _ _ _ Hdf)).
  rewrite (select_dtypes_number_nil d Hnone). split; reflexivity.
Qed.

Lemma visualize_needs_a_number_column_witness :
  AgentBot.analyze_visualize no_library 0%nat (loaded plain_sample) =
    (Raise (HTTPException 400 "No numeric columns to visualize."), loaded plain_sample) /\
  App.task_visualize no_library sample_file 0%nat (loaded plain_sample) =
    (Raise (HTTPException 400 "No numeric columns available for visualization."),
     loaded plain_sample).
Proof.
  apply (visualize_needs_a_number_column no_library (loaded plain_sample) 0%nat
           plain_sample sample_file).
  - reflexivity.
  - repeat constructor.
Defined.





End AnalysisExtras.


(** ** More about the chat bot *)

Module ChatCover.
Import Pandas Runtime Spec Cover TextFacts PandasFacts RuntimeFacts CleanFacts.
Import ForecastFacts FrameFacts DispatchFacts VisualizeFacts LoadFacts.
Local Open Scope string_scope.

(** Two words that differ in their first letter are not both prefixes. *)
Lemma prefix_excl a k1 b k2 cmd :
  a <> b -> String.prefix (String a k1) cmd = true ->
  String.prefix (String b k2) cmd = false.
Proof.
  intros Hne. destruct cmd as [|c cmd]; simpl; [discriminate|].
  destruct (ascii_dec a c) as [->|]; [|discriminate].
  destruct (ascii_dec b c) as [->|]; [congruence | reflexivity].
Qed.

Lemma upload_file_run pd file st :
  AgentBot.upload_file pd file st =
    match reader_outcome pd file with
    | Return d =>
        (Return (Message ("Uploaded '" ++ AgentBot.filename file ++
                          "' successfully! Now you can send commands.")),
         {| heap := heap st ++ [d]; _dataframe := Some (length (heap st)) |})
    | Raise e =>
        (Raise (HTTPException 400 ("Failed to read file: " ++ str_of_exn e)%text), st)
    end.
Proof.
  unfold AgentBot.upload_file, bind. rewrite load_dataframe_decoded.
  destruct (reader_outcome pd file); reflexivity.
Qed.

(** *** A handler's outcome is a function of the table *)

Section SameTable.
Context (pd : Library) (st1 st2 : state) (df1 df2 : ref) (d : DataFrame).
Context (H1 : heap st1 !! df1 = Some d) (H2 : heap st2 !! df2 = Some d).

Lemma analyze_summary_same :
  fst (AgentBot.analyze_summary pd df1 st1) = fst (AgentBot.analyze_summary pd df2 st2).
Proof.
  unfold AgentBot.analyze_summary.
  now rewrite (bind_Return _ _ _ _ _ (run_deref _ _ _ H1)),
              (bind_Return _ _ _ _ _ (run_deref _ _ _ H2)).
Qed.

Lemma analyze_describe_same :
  fst (AgentBot.analyze_describe pd df1 st1) = fst (AgentBot.analyze_describe pd df2 st2).
Proof.
  unfold AgentBot.analyze_describe.
  now rewrite !(bind_Return _ _ _ _ _ (run_deref _ _ _ H1)),
              !(bind_Return _ _ _ _ _ (run_deref _ _ _ H2)).
Qed.

Lemma analyze_clean_same :
  NoDup (columns d) ->
  fst (AgentBot.analyze_clean pd df1 st1) = fst (AgentBot.analyze_clean pd df2 st2).
Proof.
  intros Hnd.
  now rewrite (analyze_clean_run pd st1 df1 d H1 Hnd),
              (analyze_clean_run pd st2 df2 d H2 Hnd).
Qed.

Lemma analyze_visualize_same :
  fst (AgentBot.analyze_visualize pd df1 st1) = fst (AgentBot.analyze_visualize pd df2 st2).
Proof.
  now rewrite (analyze_visualize_run pd st1 df1 d H1),
              (analyze_visualize_run pd st2 df2 d H2).
Qed.

Lemma analyze_forecast_same target :
  fst (AgentBot.analyze_forecast pd df1 target st1) =
  fst (AgentBot.analyze_forecast pd df2 target st2).
Proof.
  destruct (existsb (Text.eqb target) (columns d)) eqn:Hin.
  - apply existsb_eqb_In, getitem_In in Hin. destruct Hin as [s Hs].
    destruct (is_numeric_dtype s) eqn:Hn.
    + now rewrite (analyze_forecast_run pd st1 df1 d target s H1 Hs Hn),
                  (analyze_forecast_run pd st2 df2 d target s H2 Hs Hn).
    + now rewrite (analyze_forecast_not_numeric pd st1 df1 d target s H1 Hs Hn),
                  (analyze_forecast_not_numeric pd st2 df2 d target s H2 Hs Hn).
  - assert (Hnot : ~ In target (columns d)).
    { intros H. apply existsb_eqb_In in H. congruence. }
    now rewrite (analyze_forecast_not_found pd st1 df1 d target H1 Hnot),
                (analyze_forecast_not_found pd st2 df2 d target H2 Hnot).
Qed.

Lemma process_command_same command :
  _dataframe st1 = Some df1 -> _dataframe st2 = Some df2 -> NoDup (columns d) ->
  fst (AgentBot.process_command pd command st1) =
  fst (AgentBot.process_command pd command st2).
Proof.
  intros Hg1 Hg2 Hnd. unfold AgentBot.process_command.
  assert (G1 : get_dataframe st1 = (Return (Some df1), st1))
    by (unfold get_dataframe; now rewrite Hg1).
  assert (G2 : get_dataframe st2 = (Return (Some df2), st2))
    by (unfold get_dataframe; now rewrite Hg2).
  rewrite (bind_Return _ _ _ _ _ G1), (bind_Return _ _ _ _ _ G2). cbv zeta.
  destruct (Py.startswith _ "summary").
  { rewrite !fst_bind_ret. now rewrite analyze_summary_same. }
  destruct (Py.startswith _ "clean").
  { rewrite !fst_bind_ret. now rewrite analyze_clean_same. }
  destruct (Py.startswith _ "describe"); [apply analyze_describe_same|].
  destruct (Py.startswith _ "visualize").
  { rewrite !fst_bind_ret. now rewrite analyze_visualize_same. }
  destruct (Py.startswith _ "forecast"); [|reflexivity].
  destruct (AgentBot.not_target _); [reflexivity|].
  rewrite !fst_bind_ret. now rewrite (analyze_forecast_same _).
Qed.

End SameTable.

(** *** Tokens have no whitespace *)

Lemma no_space_app s t : no_space s = true -> no_space t = true -> no_space (s ++ t) = true.
Proof.
  induction s as [|c s IH]; simpl; [auto|]. intros H Ht.
  apply andb_prop in H. destruct H as [-> Hs]. simpl. auto.
Qed.

Lemma no_space_substring s : forall n m,
  no_space s = true -> no_space (String.substring n m s) = true.
Proof.
  induction s as [|c s IH]; intros n m H.
  - destruct n, m; reflexivity.
  - simpl in H. apply andb_prop in H. destruct H as [Hc Hs].
    destruct n as [|n]; simpl.
    + destruct m as [|m]; simpl; [reflexivity|]. rewrite Hc. simpl. now apply IH.
    + now apply IH.
Qed.

Lemma no_space_split_go s : forall cur,
  no_space cur = true -> List.Forall (fun t => no_space t = true) (Py.split_go cur s).
Proof.
  induction s as [|c s IH]; intros cur Hcur; simpl.
  - destruct cur; constructor; [exact Hcur | constructor].
  - destruct (Py.isspace c) eqn:Hc.
    + destruct cur; [now apply IH | constructor; [exact Hcur | now apply IH]].
    + apply IH. apply no_space_app; [exact Hcur|]. simpl. now rewrite Hc.
Qed.

Lemma find_target_no_space parts t :
  List.Forall (fun p => no_space p = true) parts ->
  AgentBot.find_target parts = Some t -> no_space t = true.
Proof.
  induction 1 as [|part parts Hp _ IH]; simpl; [discriminate|].
  destruct (Py.startswith part "target="); [|exact IH].
  intros [= <-]. now apply no_space_substring.
Qed.

End ChatCover.

Module ChatExtras.
Import Pandas Runtime Spec Cover TextFacts PandasFacts RuntimeFacts CleanFacts.
Import ForecastFacts FrameFacts DispatchFacts ChatCover.
Local Open Scope string_scope.

(** X9: the chat dispatcher goes by the first word of the trimmed,
    lower-cased message: a word that starts with summary, clean, describe
    or visualize runs that handler on the loaded table, whatever follows;
    one that starts with forecast runs Forecast on the text after target=
    of the first later word that starts with target=, and answers with the
    prompt when there is no such word or the text is empty. *)
Theorem chat_dispatches_on_keyword pd command st df :
  _dataframe st = Some df ->
  let kw := keyword_of command in
  (Py.startswith kw "summary" = true ->
   AgentBot.process_command pd command st =
     (s <- AgentBot.analyze_summary pd df ;; ret (SummaryReply s)) st) /\
  (Py.startswith kw "clean" = true ->
   AgentBot.process_command pd command st =
     (r <- AgentBot.analyze_clean pd df ;; ret (Stream r)) st) /\
  (Py.startswith kw "describe" = true ->
   AgentBot.process_command pd command st = AgentBot.analyze_describe pd df st) /\
  (Py.startswith kw "visualize" = true ->
   AgentBot.process_command pd command st =
     (r <- AgentBot.analyze_visualize pd df ;; ret (Stream r)) st) /\
  (Py.startswith kw "forecast" = true ->
   AgentBot.process_command pd command st = forecast_dispatch pd command df st).
Proof.
  intros Hg kw. subst kw.
  rewrite <- !startswith_keyword by reflexivity.
  assert (G : get_dataframe st = (Return (Some df), st))
    by (unfold get_dataframe; now rewrite Hg).
  unfold AgentBot.process_command. rewrite (bind_Return _ _ _ _ _ G). cbv zeta.
  unfold Py.startswith.
  set (cmd := Py.lower (Py.strip command)).
  repeat split; intros H.
  - now rewrite H.
  - rewrite (prefix_excl "c" "lean" "s" "ummary" cmd) by (discriminate || exact H).
    now rewrite H.
  - rewrite (prefix_excl "d" "escribe" "s" "ummary" cmd) by (discriminate || exact H).
    rewrite (prefix_excl "d" "escribe" "c" "lean" cmd) by (discriminate || exact H).
    now rewrite H.
  - rewrite (prefix_excl "v" "isualize" "s" "ummary" cmd) by (discriminate || exact H).
    rewrite (prefix_excl "v" "isualize" "c" "lean" cmd) by (discriminate || exact H).
    rewrite (prefix_excl "v" "isualize" "d" "escribe" cmd) by (discriminate || exact H).
    now rewrite H.
  - rewrite (prefix_excl "f" "orecast" "s" "ummary" cmd) by (discriminate || exact H).
    rewrite (prefix_excl "f" "orecast" "c" "lean" cmd) by (discriminate || exact H).
    rewrite (prefix_excl "f" "orecast" "d" "escribe" cmd) by (discriminate || exact H).
    rewrite (prefix_excl "f" "orecast" "v" "isualize" cmd) by (discriminate || exact H).
    rewrite H. unfold forecast_dispatch. fold cmd.
    destruct (AgentBot.find_target (tl (Py.split cmd))) as [t|]; simpl; [|reflexivity].
    destruct (Py.falsy t); reflexivity.
Qed.

Lemma chat_dispatches_on_keyword_witness :
  let command := "  CLEANUP my data" in
  let kw := keyword_of command in
  (Py.startswith kw "summary" = true ->
   AgentBot.process_command no_library command (loaded sample) =
     (s <- AgentBot.analyze_summary no_library 0%nat ;; ret (SummaryReply s)) (loaded sample)) /\
  (Py.startswith kw "clean" = true ->
   AgentBot.process_command no_library command (loaded sample) =
     (r <- AgentBot.analyze_clean no_library 0%nat ;; ret (Stream r)) (loaded sample)) /\
  (Py.startswith kw "describe" = true ->
   AgentBot.process_command no_library command (loaded sample) =
     AgentBot.analyze_describe no_library 0%nat (loaded sample)) /\
  (Py.startswith kw "visualize" = true ->
   AgentBot.process_command no_library command (loaded sample) =
     (r <- AgentBot.analyze_visualize no_library 0%nat ;; ret (Stream r)) (loaded sample)) /\
  (Py.startswith kw "forecast" = true ->
   AgentBot.process_command no_library command (loaded sample) =
     forecast_dispatch no_library command 0%nat (loaded sample)).
Proof.
  apply (chat_dispatches_on_keyword no_library "  CLEANUP my data" (loaded sample) 0%nat).
  reflexivity.
Defined.

(** X10: the reply to a chat message depends only on the message and on
    the loaded table: two states whose slots refer to objects holding the
    same table give the same reply. *)
Theorem reply_depends_only_on_table pd command st1 st2 df1 df2 d :
  _dataframe st1 = Some df1 -> heap st1 !! df1 = Some d ->
  _dataframe st2 = Some df2 -> heap st2 !! df2 = Some d ->
  NoDup (columns d) ->
  fst (AgentBot.process_command pd command st1) =
  fst (AgentBot.process_command pd command st2).
Proof.
  intros Hg1 H1 Hg2 H2 Hnd. now apply (process_command_same pd st1 st2 df1 df2 d).
Qed.

Lemma reply_depends_only_on_table_witness :
  fst (AgentBot.process_command no_library "forecast target=Sales" (loaded sample)) =
  fst (AgentBot.process_command no_library "forecast target=Sales"
         {| heap := [full_sample; sample]; _dataframe := Some 1%nat |}).
Proof.
  apply (reply_depends_only_on_table no_library "forecast target=Sales"
           (loaded sample) {| heap := [full_sample; sample]; _dataframe := Some 1%nat |}
           0%nat 1%nat sample); try reflexivity.
  exact sample_NoDup.
Defined.

(** X11: a chat command leaves no trace in later replies: the reply to a
    message after any other message is the reply it would have got without
    it.  In particular Clean in chat does not clean the table that later
    commands see. *)
Theorem earlier_command_is_forgotten pd first second st df d :
  _dataframe st = Some df -> heap st !! df = Some d -> NoDup (columns d) ->
  fst (AgentBot.process_command pd second
         (snd (AgentBot.process_command pd first st))) =
  fst (AgentBot.process_command pd second st).
Proof.
  intros Hg Hdf Hnd.
  pose proof (preserves_process_command pd df d (Some df) first st (conj Hg Hdf)) as Hk.
  destruct (AgentBot.process_command pd first st) as [[a|e] st'] eqn:E; simpl;
    destruct Hk as [Hg' Hdf'];
    now apply (process_command_same pd st' st df df d).
Qed.

Lemma earlier_command_is_forgotten_witness :
  fst (AgentBot.process_command no_library "summary"
         (snd (AgentBot.process_command no_library "clean" (loaded sample)))) =
  fst (AgentBot.process_command no_library "summary" (loaded sample)).
Proof.
  apply (earlier_command_is_forgotten no_library "clean" "summary"
           (loaded sample) 0%nat sample); try reflexivity.
  exact sample_NoDup.
Defined.

(** X12: a successful upload replaces the table: the slot then refers to a
    new object holding the decoded table, the objects that existed are
    untouched, and every chat message is answered as if only that table
    had ever been loaded. *)
Theorem upload_replaces_table pd file st d :
  reader_outcome pd file = Return d -> NoDup (columns d) ->
  let st' := snd (AgentBot.upload_file pd file st) in
  succeeds (fst (AgentBot.upload_file pd file st)) /\
  _dataframe st' = Some (length (heap st)) /\
  heap st' !! length (heap st) = Some d /\
  (forall r' d', heap st !! r' = Some d' -> heap st' !! r' = Some d') /\
  (forall command,
     fst (AgentBot.process_command pd command st') =
     fst (AgentBot.process_command pd command (loaded d))).
Proof.
  intros Hread Hnd st'. subst st'. rewrite upload_file_run, Hread. simpl.
  assert (Hnew : (heap st ++ [d])%list !! length (heap st) = Some d)
    by now apply list_lookup_middle.
  repeat split.
  - eexists. reflexivity.
  - exact Hnew.
  - intros r' d' Hr'. now apply lookup_app_l_Some.
  - intros command.
    apply (process_command_same pd _ (loaded d) (length (heap st)) 0%nat d);
      auto.
Qed.

Lemma upload_replaces_table_witness :
  let st' := snd (AgentBot.upload_file (csv_library sample) sample_upload
                    (loaded full_sample)) in
  succeeds (fst (AgentBot.upload_file (csv_library sample) sample_upload
                   (loaded full_sample))) /\
  _dataframe st' = Some (length (heap (loaded full_sample))) /\
  heap st' !! length (heap (loaded full_sample)) = Some sample /\
  (forall r' d', heap (loaded full_sample) !! r' = Some d' -> heap st' !! r' = Some d') /\
  (forall command,
     fst (AgentBot.process_command (csv_library sample) command st') =
     fst (AgentBot.process_command (csv_library sample) command (loaded sample))).
Proof.
  apply (upload_replaces_table (csv_library sample) sample_upload (loaded full_sample)
           sample).
  - reflexivity.
  - exact sample_NoDup.
Defined.

(** X13: a failed upload changes nothing: when the chosen reader raises, or
    the extension is not supported, the route raises a 400 error and the
    slot and all objects are as before, so the table loaded earlier keeps
    answering. *)
Theorem failed_upload_changes_nothing pd file st e :
  reader_outcome pd file = Raise e ->
  AgentBot.upload_file pd file st =
    (Raise (HTTPException 400 ("Failed to read file: " ++ str_of_exn e)%text), st) /\
  (forall command,
     AgentBot.process_command pd command (snd (AgentBot.upload_file pd file st)) =
     AgentBot.process_command pd command st).
Proof.
  intros Hread. rewrite upload_file_run, Hread. split; reflexivity.
Qed.

Lemma failed_upload_changes_nothing_witness :
  AgentBot.upload_file (csv_library sample) bad_upload (loaded full_sample) =
    (Raise (HTTPException 400
              ("Failed to read file: " ++
               str_of_exn
                 (ValueError "Unsupported file format. Please upload .xls/.xlsx or .csv"))%text),
     loaded full_sample) /\
  (forall command,
     AgentBot.process_command (csv_library sample) command
       (snd (AgentBot.upload_file (csv_library sample) bad_upload (loaded full_sample))) =
     AgentBot.process_command (csv_library sample) command (loaded full_sample)).
Proof.
  apply (failed_upload_changes_nothing (csv_library sample) bad_upload
           (loaded full_sample)).
  reflexivity.
Defined.

(** X14: until an upload succeeds there is no data: from a state with an
    empty slot, after any number of uploads that all fail, the state is
    the same and every chat message, recognised or not, is answered with
    the advice to upload a dataset, and with nothing else. *)
Theorem no_data_until_an_upload_succeeds pd files st :
  _dataframe st = None ->
  Forall (fun file => exists e, reader_outcome pd file = Raise e) files ->
  uploads pd files st = st /\
  (forall command,
     AgentBot.process_command pd command (uploads pd files st) =
       (Return (Message AgentBot.no_data_message), st)).
Proof.
  intros Hg Hall.
  assert (Hst : uploads pd files st = st).
  { induction Hall as [|file files [e He] _ IH]; simpl; [reflexivity|].
    rewrite upload_file_run, He. exact IH. }
  split; [exact Hst|]. intros command. rewrite Hst.
  unfold AgentBot.process_command, bind, get_dataframe. now rewrite Hg.
Qed.

Lemma no_data_until_an_upload_succeeds_witness :
  uploads no_library [sample_upload; bad_upload] initial = initial /\
  (forall command,
     AgentBot.process_command no_library command
       (uploads no_library [sample_upload; bad_upload] initial) =
       (Return (Message AgentBot.no_data_message), initial)).
Proof.
  apply (no_data_until_an_upload_succeeds no_library [sample_upload; bad_upload] initial).
  - reflexivity.
  - repeat constructor; eexists; reflexivity.
Defined.

(** X16: the target the chat parser extracts never contains a whitespace
    character and is in lower case, so a column whose label contains a
    space or an upper-case letter cannot be named in a chat forecast. *)
Theorem chat_target_has_no_space command t :
  AgentBot.find_target (tl (Py.split (Py.lower (Py.strip command)))) = Some t ->
  no_space t = true /\ Py.lower t = t.
Proof.
  intros H. split; [|now apply (chat_target_lower command)].
  eapply find_target_no_space; [|exact H].
  assert (Hall : List.Forall (fun p => no_space p = true)
                   (Py.split (Py.lower (Py.strip command)))).
  { now apply no_space_split_go. }
  destruct Hall; simpl; [constructor | assumption].
Qed.

Lemma chat_target_has_no_space_witness :
  no_space "unit_price" = true /\ Py.lower "unit_price" = "unit_price".
Proof.
  apply (chat_target_has_no_space "Forecast TARGET=Unit_Price please" "unit_price").
  reflexivity.
Defined.

End ChatExtras.

(** ** More about the form service *)

Module FormCover.
Import Pandas Runtime Spec Cover TextFacts PandasFacts RuntimeFacts CleanFacts.
Import ForecastFacts VisualizeFacts LoadFacts.
Local Open Scope string_scope.

Lemma falsy_iff k : Py.falsy k = true <-> k = "".
Proof. unfold Py.falsy. apply String.eqb_eq. Qed.

(** The key check reads only, and either passes or raises 401. *)
Lemma check_app_key_cases environ request st :
  (key_accepted environ request /\
   App.check_app_key environ request st = (Return tt, st)) \/
  (~ key_accepted environ request /\
   App.check_app_key environ request st = (Raise (HTTPException 401 "Unauthorized"), st)).
Proof.
  unfold App.check_app_key, key_accepted.
  destruct (App.REQUIRE_APP_KEY environ) as [v|] eqn:Hreq.
  2:{ left. split; [left; discriminate | reflexivity]. }
  destruct (String.eqb v "1") eqn:Hv.
  2:{ left. split; [|reflexivity]. left. intros [= ->]. discriminate. }
  apply String.eqb_eq in Hv. subst v. cbv zeta.
  destruct (App.header_X_App_Key request) as [k|] eqn:Hk.
  2:{ right. split; [|reflexivity].
      intros [H|(k & E & _)]; [congruence | discriminate]. }
  destruct (Py.falsy k) eqn:Hf; simpl.
  { right. split; [|reflexivity]. apply falsy_iff in Hf.
    intros [H|(k' & E & Hne & _)]; [congruence|]. congruence. }
  destruct (String.eqb k (App._get_app_key environ)) eqn:He; simpl.
  - left. split; [|reflexivity]. right. exists k. apply String.eqb_eq in He.
    repeat split; auto. intros E. apply falsy_iff in E. congruence.
  - right. split; [|reflexivity]. apply String.eqb_neq in He.
    intros [H|(k' & E & _ & Heq)]; congruence.
Qed.

Lemma not_keyword_eqb task :
  ~ In task keywords ->
  String.eqb task "summary" = false /\ String.eqb task "clean" = false /\
  String.eqb task "describe" = false /\ String.eqb task "visualize" = false /\
  String.eqb task "forecast" = false.
Proof.
  intros H. repeat split; apply String.eqb_neq; intros ->; apply H;
    unfold keywords; simpl; auto 10.
Qed.

(** *** No 401 past the key check *)

Lemma task_visualize_not_401 pd file st df d e :
  heap st !! df = Some d ->
  fst (App.task_visualize pd file df st) = Raise e -> not_401 e.
Proof.
  intros Hdf. rewrite (task_visualize_run pd file st df d Hdf). cbn [fst].
  destruct (int_or_float_labels d); [intros [= <-]; simpl; discriminate|].
  destruct (histograms pd d _) as [entries|e0] eqn:Hrun.
  - cbv zeta. destruct (Text.latin1 _); [discriminate|]. now intros [= <-].
  - intros [= <-]. destruct (histograms_Raise pd d _ _ Hrun) as [[k ->]|[msg ->]]; exact I.
Qed.

Lemma task_forecast_not_401 pd st df d target e :
  heap st !! df = Some d ->
  fst (App.task_forecast pd df target st) = Raise e -> not_401 e.
Proof.
  intros Hdf. destruct target as [target|]; [|intros [= <-]; simpl; discriminate].
  destruct (existsb (Text.eqb target) (columns d)) eqn:Hin.
  - apply existsb_eqb_In, getitem_In in Hin. destruct Hin as [s Hs].
    destruct (is_numeric_dtype s) eqn:Hn.
    + rewrite (task_forecast_run pd st df d target s Hdf Hs Hn). cbn [fst].
      destruct (Text.latin1 target); [discriminate|]. now intros [= <-].
    + rewrite (task_forecast_not_numeric pd st df d target s Hdf Hs Hn).
      intros [= <-]. simpl. discriminate.
  - assert (Hnot : ~ In target (columns d)).
    { intros H. apply existsb_eqb_In in H. congruence. }
    rewrite (task_forecast_not_found pd st df d target Hdf Hnot).
    intros [= <-]. simpl. discriminate.
Qed.

(** *** What precedes the last dot *)

Lemma before_last_dot_no_dot l :
  forallb (fun c => negb (N.eqb c 46)) l = true -> Text.before_last_dot l = None.
Proof.
  induction l as [|c l IH]; simpl; [reflexivity|]. intros H.
  apply andb_prop in H. destruct H as [Hc Hl]. rewrite (IH Hl).
  now destruct (N.eqb c 46).
Qed.

Lemma before_last_dot_ext base ext :
  forallb (fun c => negb (N.eqb c 46)) ext = true ->
  Text.before_last_dot (base ++ 46%N :: ext) = Some base.
Proof.
  intros Hext. induction base as [|c base IH]; simpl.
  - now rewrite (before_last_dot_no_dot ext Hext).
  - now rewrite IH.
Qed.

Lemma rsplit_dot_head_ext stem ext :
  no_dot ext = true -> Text.rsplit_dot_head (stem ++ "." ++ ext)%text = stem.
Proof.
  intros Hext. unfold Text.rsplit_dot_head. destruct stem as [base], ext as [e].
  cbn [codes Text.append]. change (codes (Text.of_string ".")) with [46%N].
  cbn [app]. now rewrite (before_last_dot_ext base e Hext).
Qed.

Lemma rsplit_dot_head_no_dot stem :
  no_dot stem = true -> Text.rsplit_dot_head stem = stem.
Proof.
  intros H. unfold Text.rsplit_dot_head. now rewrite (before_last_dot_no_dot _ H).
Qed.

End FormCover.

Module FormExtras.
Import Pandas Runtime Spec Cover TextFacts PandasFacts RuntimeFacts RouteFacts CleanFacts.
Import ForecastFacts VisualizeFacts LoadFacts FormCover.
Local Open Scope string_scope.

Lemma upload_outcome_reader pd file d :
  upload_outcome pd file = Return d ->
  read_excel pd (App.file_read file) = Return d \/
  read_csv pd (App.file_read file) = Return d.
Proof.
  unfold upload_outcome.
  destruct (Text.endswith_any _ _); [auto|].
  destruct (Text.endswith _ _); [auto | discriminate].
Qed.

(** Past the key check, the route raises no 401. *)
Lemma analyze_excel_after_key pd environ request task file target st e :
  unique_labels pd ->
  App.check_app_key environ request st = (Return tt, st) ->
  fst (App.analyze_excel pd environ request task (Some file) target st) = Raise e ->
  not_401 e.
Proof.
  intros Huniq Hkey. unfold App.analyze_excel.
  rewrite (bind_Return _ _ _ _ _ Hkey). unfold bind at 1.
  rewrite read_upload_decoded.
  destruct (upload_outcome pd file) as [d|e0] eqn:Hread.
  2:{ intros [= <-]. simpl. discriminate. }
  pose proof (Huniq _ _ (upload_outcome_reader pd file d Hread)) as Hnd.
  cbv beta iota delta [decoded].
  set (st1 := {| heap := heap st ++ [d]; _dataframe := _dataframe st |}).
  assert (Hdf : heap st1 !! length (heap st) = Some d)
    by (simpl; now apply list_lookup_middle).
  cbv zeta.
  destruct (String.eqb _ "summary").
  { unfold App.task_summary.
    rewrite (bind_Return _ _ _ _ _ (run_deref _ _ _ Hdf)). discriminate. }
  destruct (String.eqb _ "clean").
  { rewrite (task_clean_run pd file st1 _ d Hdf Hnd). cbn [fst].
    destruct (Text.latin1 _); [discriminate|]. now intros [= <-]. }
  destruct (String.eqb _ "describe").
  { unfold App.task_describe.
    rewrite !(bind_Return _ _ _ _ _ (run_deref _ _ _ Hdf)). discriminate. }
  destruct (String.eqb _ "visualize").
  { now apply (task_visualize_not_401 pd file st1 _ d). }
  destruct (String.eqb _ "forecast").
  { now apply (task_forecast_not_401 pd st1 _ d). }
  intros [= <-]. simpl. discriminate.
Qed.

Lemma csv_library_unique d : NoDup (columns d) -> unique_labels (csv_library d).
Proof.
  intros Hnd bytes d' [H|H]; simpl in H; [discriminate|]. now injection H as <-.
Qed.

(** X17: the form route answers 401 exactly when the key is rejected:
    enforcement is on and the header is absent, empty or different from the
    configured key.  The key is checked before the file is read, so then
    nothing is allocated, whatever the file and the task. *)
Theorem unauthorized_iff_key_rejected pd environ request task file target st :
  unique_labels pd ->
  let run := App.analyze_excel pd environ request task (Some file) target st in
  (fst run = Raise (HTTPException 401 "Unauthorized") <-> ~ key_accepted environ request) /\
  (~ key_accepted environ request -> snd run = st).
Proof.
  intros Huniq run. subst run.
  destruct (check_app_key_cases environ request st) as [[Hok Hkey]|[Hno Hkey]].
  - split; [|tauto]. split; [|tauto].
    intros E.
    pose proof (analyze_excel_after_key pd environ request task file target st _
                  Huniq Hkey E) as Hans.
    simpl in Hans. congruence.
  - assert (E : App.analyze_excel pd environ request task (Some file) target st =
                (Raise (HTTPException 401 "Unauthorized"), st)).
    { unfold App.analyze_excel, bind. now rewrite Hkey. }
    rewrite E. simpl. tauto.
Qed.

Lemma unauthorized_iff_key_rejected_witness :
  let run := App.analyze_excel (csv_library sample) secret_environ bare_request
               "summary" (Some sample_file) None initial in
  (fst run = Raise (HTTPException 401 "Unauthorized") <->
   ~ key_accepted secret_environ bare_request) /\
  (~ key_accepted secret_environ bare_request -> snd run = initial).
Proof.
  apply (unauthorized_iff_key_rejected (csv_library sample) secret_environ bare_request
           "summary" sample_file None initial).
  apply csv_library_unique. exact sample_NoDup.
Defined.

(** X18: enforcement without a configured key locks everyone out: when
    REQUIRE_APP_KEY is 1 and APP_KEY is unset or empty, every request that
    carries a file is answered 401, whatever header it sends. *)
Theorem enforcement_without_key_locks_out pd environ request task file target st :
  App.REQUIRE_APP_KEY environ = Some "1" ->
  App.APP_KEY environ = None \/ App.APP_KEY environ = Some "" ->
  App.analyze_excel pd environ request task (Some file) target st =
    (Raise (HTTPException 401 "Unauthorized"), st).
Proof.
  intros Hreq Hkey.
  assert (Hempty : App._get_app_key environ = "").
  { unfold App._get_app_key. destruct Hkey as [-> | ->]; reflexivity. }
  destruct (check_app_key_cases environ request st) as [[Hok _]|[_ Hno]].
  - exfalso. destruct Hok as [H|(k & _ & Hne & Hk)]; congruence.
  - unfold App.analyze_excel, bind. now rewrite Hno.
Qed.

Lemma enforcement_without_key_locks_out_witness :
  App.analyze_excel (csv_library sample) keyless_environ keyed_request
    "summary" (Some sample_file) None initial =
    (Raise (HTTPException 401 "Unauthorized"), initial).
Proof.
  apply (enforcement_without_key_locks_out (csv_library sample) keyless_environ
           keyed_request "summary" sample_file None initial).
  - reflexivity.
  - left. reflexivity.
Defined.

(** X19: the form route reads the file before it looks at the task, and
    matches the task exactly: with an accepted key and a readable file, a
    task whose trimmed, lower-cased name is not one of the five words,
    even one that starts with one of them, is refused with a 400 that names
    it, after the table has been loaded; with an unreadable file the error
    is the file's, whatever the task: a failed read that quotes the
    reader's exception, and for a name with another extension a failed
    read that quotes nothing. *)
Theorem unknown_task_is_refused_after_reading pd environ request task file target st :
  App.check_app_key environ request st = (Return tt, st) ->
  let name := Py.strip (Py.lower task) in
  (forall d, upload_outcome pd file = Return d -> ~ In name keywords ->
     App.analyze_excel pd environ request task (Some file) target st =
       (Raise (HTTPException 400
                 ("Unknown task '" ++ name ++
                  "'. Supported tasks are summary, clean, describe, visualize, forecast.")),
        {| heap := heap st ++ [d]; _dataframe := _dataframe st |})) /\
  (forall e, upload_outcome pd file = Raise e ->
     App.analyze_excel pd environ request task (Some file) target st =
       (Raise (HTTPException 400 ("Failed to read file: " ++ str_of_exn e)%text), st)) /\
  (Text.endswith_any (Text.lower (App.filename file)) [".xlsx" : text; ".xls" : text] = false ->
   Text.endswith (Text.lower (App.filename file)) ".csv" = false ->
   App.analyze_excel pd environ request task (Some file) target st =
     (Raise (HTTPException 400 "Failed to read file: "), st)).
Proof.
  intros Hkey name. repeat split.
  - intros d Hread Hnot.
    destruct (not_keyword_eqb name Hnot) as (E1 & E2 & E3 & E4 & E5).
    unfold App.analyze_excel.
    rewrite (bind_Return _ _ _ _ _ Hkey). unfold bind at 1.
    rewrite read_upload_decoded, Hread.
    cbv beta iota zeta delta [decoded]. fold name.
    now rewrite E1, E2, E3, E4, E5.
  - intros e Hread. unfold App.analyze_excel.
    rewrite (bind_Return _ _ _ _ _ Hkey). unfold bind at 1.
    rewrite read_upload_decoded, Hread. reflexivity.
  - intros Hx Hc. unfold App.analyze_excel.
    rewrite (bind_Return _ _ _ _ _ Hkey). unfold bind at 1.
    rewrite read_upload_decoded. unfold upload_outcome. rewrite Hx, Hc. reflexivity.
Qed.

Lemma unknown_task_is_refused_after_reading_witness :
  let name := Py.strip (Py.lower " Cleanup ") in
  (forall d, upload_outcome (csv_library sample) sample_file = Return d ->
     ~ In name keywords ->
     App.analyze_excel (csv_library sample) open_environ bare_request " Cleanup "
       (Some sample_file) None initial =
       (Raise (HTTPException 400
                 ("Unknown task '" ++ name ++
                  "'. Supported tasks are summary, clean, describe, visualize, forecast.")),
        {| heap := heap initial ++ [d]; _dataframe := _dataframe initial |})) /\
  (forall e, upload_outcome (csv_library sample) sample_file = Raise e ->
     App.analyze_excel (csv_library sample) open_environ bare_request " Cleanup "
       (Some sample_file) None initial =
       (Raise (HTTPException 400 ("Failed to read file: " ++ str_of_exn e)%text),
        initial)) /\
  (Text.endswith_any (Text.lower (App.filename sample_file))
     [".xlsx" : text; ".xls" : text] = false ->
   Text.endswith (Text.lower (App.filename sample_file)) ".csv" = false ->
   App.analyze_excel (csv_library sample) open_environ bare_request " Cleanup "
     (Some sample_file) None initial =
     (Raise (HTTPException 400 "Failed to read file: "), initial)).
Proof.
  apply (unknown_task_is_refused_after_reading (csv_library sample) open_environ
           bare_request " Cleanup " sample_file None initial).
  reflexivity.
Defined.



End FormExtras.

(** ** Summary, and what is plotted *)

Module SummaryExtras.
Import Pandas Runtime Spec Cover PandasFacts RuntimeFacts CleanFacts CleanCover.
Import VisualizeFacts.
Local Open Scope string_scope.

(** X22: Summary is the same in both services and consistent with the
    table: it lists as many labels and dtypes as it counts columns, and it
    reports zero missing values exactly when no column has a missing cell;
    so when Summary reports none, Clean returns the table as it is. *)
Theorem summary_counts_missing_cells pd st df d :
  heap st !! df = Some d -> NoDup (columns d) ->
  exists s,
    fst (AgentBot.analyze_summary pd df st) = Return s /\
    fst (App.task_summary pd df st) = Return (SummaryReply s) /\
    length (summary_columns s) = shape_columns s /\
    map fst (dtypes s) = summary_columns s /\
    (missing_values s = 0%nat <-> Forall (fun cs => has_missing (snd cs) = false) d) /\
    (missing_values s = 0%nat ->
     fst (AgentBot.analyze_clean pd df st) =
       Return {| body := Xlsx d; media_type := xlsx_media_type;
                 headers := [("Content-Disposition",
                              "attachment; filename=cleaned_data.xlsx")] |}).
Proof.
  intros Hdf Hnd.
  exists {| shape_rows := nrows d;
            shape_columns := ncols d;
            summary_columns := columns d;
            missing_values := isnull_sum_sum d;
            dtypes := map (fun cs => (fst cs, dtype_str pd (snd cs))) d |}.
  split; [|split].
  - unfold AgentBot.analyze_summary.
    rewrite (bind_Return _ _ _ _ _ (run_deref _ _ _ Hdf)). reflexivity.
  - unfold App.task_summary.
    rewrite (bind_Return _ _ _ _ _ (run_deref _ _ _ Hdf)). reflexivity.
  - simpl. repeat split.
    + unfold columns, ncols. apply length_map.
    + rewrite map_map. reflexivity.
    + apply isnull_sum_sum_zero_inv.
    + apply isnull_sum_sum_zero.
    + intros Hzero. rewrite (analyze_clean_run pd st df d Hdf Hnd).
      rewrite (clean_table_no_missing pd d); [reflexivity|].
      now apply isnull_sum_sum_zero_inv.
Qed.

Lemma summary_counts_missing_cells_witness :
  exists s,
    fst (AgentBot.analyze_summary no_library 0%nat (loaded full_sample)) = Return s /\
    fst (App.task_summary no_library 0%nat (loaded full_sample)) =
      Return (SummaryReply s) /\
    length (summary_columns s) = shape_columns s /\
    map fst (dtypes s) = summary_columns s /\
    (missing_values s = 0%nat <->
     Forall (fun cs => has_missing (snd cs) = false) full_sample) /\
    (missing_values s = 0%nat ->
     fst (AgentBot.analyze_clean no_library 0%nat (loaded full_sample)) =
       Return {| body := Xlsx full_sample; media_type := xlsx_media_type;
                 headers := [("Content-Disposition",
                              "attachment; filename=cleaned_data.xlsx")] |}).
Proof.
  apply (summary_counts_missing_cells no_library (loaded full_sample) 0%nat full_sample).
  - reflexivity.
  - exact full_sample_NoDup.
Defined.

Lemma tolist_dropna s : tolist (dropna s) = non_missing s.
Proof.
  unfold non_missing.
  destruct s as [l|l|l|l|l]; cbn [dropna tolist].
  - induction l; simpl; congruence.
  - induction l as [|x l IH]; [reflexivity|]. cbn [List.filter map].
    unfold notna at 1. cbn [isna]. destruct (isnan x); cbn [negb map]; congruence.
  - induction l; simpl; congruence.
  - reflexivity.
  - induction l as [|[t|] l IH]; simpl; congruence.
Qed.

Lemma non_missing_has_none s : existsb isna (non_missing s) = false.
Proof.
  unfold non_missing. induction (tolist s) as [|x l IH]; [reflexivity|].
  cbn [List.filter]. unfold notna at 1.
  destruct (isna x) eqn:Hx; cbn [negb existsb]; [exact IH | now rewrite Hx].
Qed.

(** X23: no missing value is ever plotted: when the library draws the
    first three int or float columns, every image in the archive of
    Visualize shows the non-missing cells of one int or float column of the
    table, in row order, under that column's name. *)
Theorem visualize_plots_values_only pd st df d :
  heap st !! df = Some d -> NoDup (columns d) ->
  int_or_float_labels d <> [] ->
  Forall (drawn pd d) (firstn 3 (int_or_float_labels d)) ->
  exists entries,
    fst (AgentBot.analyze_visualize pd df st) =
      Return {| body := Zip entries; media_type := "application/zip";
                headers := [("Content-Disposition",
                             "attachment; filename=charts.zip")] |} /\
    Forall (fun e =>
              exists col s,
                In col (int_or_float_labels d) /\ getitem d col = Return s /\
                fst e = (col ++ ".png")%text /\ title (snd e) = col /\
                tolist (plotted (snd e)) = non_missing s /\
                has_missing (plotted (snd e)) = false) entries.
Proof.
  intros Hdf _ Hne Hdrawn.
  destruct (histograms_drawn pd d _ (firstn_labels_columns d 3) Hdrawn)
    as (es & Hrun & Hall).
  exists es. rewrite (analyze_visualize_run pd st df d Hdf), Hrun.
  destruct (int_or_float_labels d) as [|c0 cs0] eqn:E; [contradiction|].
  split; [reflexivity|]. clear Hrun Hdrawn.
  assert (Hsub : forall c, In c (firstn 3 (c0 :: cs0)) -> In c (c0 :: cs0)).
  { intros c Hc. apply list_elem_of_In, (subseteq_take 3), list_elem_of_In, Hc. }
  revert Hsub.
  induction Hall as [|c e cols es' He _ IH]; intros Hsub; constructor.
  - destruct He as (Hn & s & Hs & Hh). exists c, s. rewrite Hh. cbn [title plotted].
    repeat split; auto.
    + apply Hsub. now left.
    + apply tolist_dropna.
    + unfold has_missing. rewrite tolist_dropna. apply non_missing_has_none.
  - apply IH. intros c' Hc'. apply Hsub. now right.
Qed.

Lemma visualize_plots_values_only_witness :
  exists entries,
    fst (AgentBot.analyze_visualize no_library 0%nat (loaded sample)) =
      Return {| body := Zip entries; media_type := "application/zip";
                headers := [("Content-Disposition",
                             "attachment; filename=charts.zip")] |} /\
    Forall (fun e =>
              exists col s,
                In col (int_or_float_labels sample) /\ getitem sample col = Return s /\
                fst e = (col ++ ".png")%text /\ title (snd e) = col /\
                tolist (plotted (snd e)) = non_missing s /\
                has_missing (plotted (snd e)) = false) entries.
Proof.
  apply (visualize_plots_values_only no_library (loaded sample) 0%nat sample).
  - reflexivity.
  - exact sample_NoDup.
  - vm_compute. discriminate.
  - vm_compute. repeat constructor; intros s [= <-]; reflexivity.
Defined.

End SummaryExtras.
